(** * Retrieval-augmented PDF question answering: a shallow embedding

    The development follows the JavaScript sources of the chat application:

    - [lib/rag/embeddings.js]  ([embedText], [embedBatch]),
    - [lib/rag/retrieval.js]   ([searchSimilarChunks]),
    - [lib/rag/chunking.js]    ([chunkText]),
    - [app/api/chat-pdf/route.js] ([rewriteQuery], [smartRetrieval], [POST]),
    - [app/api/pdf/upload/route.js] ([processPdfInBackground]).

    Asynchronous functions are run-to-completion computations in a small
    state and exception monad.  The state is the world: the log of the
    requests made so far and the two tables [document_chunks] and [pdfs].

    Everything the program cannot compute by itself is a field of an
    environment record, so that every theorem quantifies over all behaviours
    of these collaborators: the language-model provider, the embedding
    provider, the PDF parser, the text splitter, the tokenizer, the value of
    the vector distance inside the store, and the acceptance of a write by
    the store.  The providers answer as a function of the requests made
    before, so that the same request can be answered differently each time.

    Reads of the store are total functions of its tables.  A write can be
    refused: the ingestion job counts the refused inserts and catches a
    refused status write.

    Numbers: embeddings, distances and similarities are rationals; the
    floating-point evaluation of the distance is left to the environment. *)

From Stdlib Require Import String Ascii List Bool Arith ZArith QArith Qround Qabs Lia Lqa.
From Stdlib Require Import Sorting.Sorted DecimalString.
Import ListNotations.

Local Open Scope string_scope.
Local Open Scope list_scope.

(* ====================================================================== *)
(** * JavaScript strings *)
(* ====================================================================== *)

(** Strings are the UTF-8 bytes of the text.  A valid UTF-8 pattern occurs in
    a valid UTF-8 text only at character boundaries, so substring tests on
    bytes agree with the tests on characters made by the source. *)
Module JS.

Local Open Scope nat_scope.

Definition code (c : ascii) : nat := nat_of_ascii c.

(** The three-byte encodings of the characters that [\s] and
    [String.prototype.trim] treat as white space: U+1680, U+2000 to
    U+200A, U+2028, U+2029, U+202F, U+205F, U+3000 and U+FEFF. *)
Definition is_ws3 (a b c : nat) : bool :=
  ((a =? 225) && (b =? 154) && (c =? 128))
  || ((a =? 226) && (b =? 128)
        && (((128 <=? c) && (c <=? 138)) || (c =? 168) || (c =? 169) || (c =? 175)))
  || ((a =? 226) && (b =? 129) && (c =? 159))
  || ((a =? 227) && (b =? 128) && (c =? 128))
  || ((a =? 239) && (b =? 187) && (c =? 191)).

(** One-byte white space: TAB, LF, VT, FF, CR and SPACE. *)
Definition is_ws1 (a : nat) : bool :=
  ((9 <=? a) && (a <=? 13)) || (a =? 32).

(** [drop_ws s] removes one white-space character from the front of [s]. *)
Definition drop_ws (s : string) : option string :=
  match s with
  | EmptyString => None
  | String a r1 =>
      if is_ws1 (code a) then Some r1
      else
        match r1 with
        | EmptyString => None
        | String b r2 =>
            if (code a =? 194) && (code b =? 160) then Some r2
            else
              match r2 with
              | EmptyString => None
              | String c r3 =>
                  if is_ws3 (code a) (code b) (code c) then Some r3 else None
              end
        end
  end.

(** The same on a reversed string: the bytes of the last character come
    first, in reverse order. *)
Definition drop_ws_rev (s : string) : option string :=
  match s with
  | EmptyString => None
  | String c r1 =>
      if is_ws1 (code c) then Some r1
      else
        match r1 with
        | EmptyString => None
        | String b r2 =>
            if (code b =? 194) && (code c =? 160) then Some r2
            else
              match r2 with
              | EmptyString => None
              | String a r3 =>
                  if is_ws3 (code a) (code b) (code c) then Some r3 else None
              end
        end
  end.

Fixpoint drop_while (drop : string -> option string) (fuel : nat) (s : string)
  : string :=
  match fuel with
  | O => s
  | S fuel' =>
      match drop s with
      | Some r => drop_while drop fuel' r
      | None => s
      end
  end.

Fixpoint rev_onto (s acc : string) : string :=
  match s with
  | EmptyString => acc
  | String c r => rev_onto r (String c acc)
  end.

Definition reverse (s : string) : string := rev_onto s EmptyString.

Definition trimStart (s : string) : string :=
  drop_while drop_ws (String.length s) s.

Definition trimEnd (s : string) : string :=
  reverse (drop_while drop_ws_rev (String.length s) (reverse s)).

(** [String.prototype.trim] *)
Definition trim (s : string) : string := trimEnd (trimStart s).

(** Truthiness of a string value: the empty string is falsy. *)
Definition truthy (s : string) : bool :=
  match s with EmptyString => false | _ => true end.

(** [!text || !text.trim()] is false, the guard of [embedText] and of the
    request handler. *)
Definition nonblank (s : string) : bool := truthy s && truthy (trim s).

(** [s.includes(pat)]; also the meaning of a regular expression that is a
    plain literal. *)
Fixpoint includes (pat s : string) : bool :=
  String.prefix pat s
  || match s with
     | EmptyString => false
     | String _ r => includes pat r
     end.

Definition is_digit (c : ascii) : bool := (48 <=? code c) && (code c <=? 57).

Fixpoint skip_digits (s : string) : string :=
  match s with
  | String c r => if is_digit c then skip_digits r else s
  | EmptyString => s
  end.

(** A match of [\d+\.\s*] at the front of [s]: what follows the match. *)
Definition match_numbering (s : string) : option string :=
  match s with
  | String c r =>
      if is_digit c then
        match skip_digits r with
        | String d r' => if (code d =? 46) then Some (trimStart r') else None
        | EmptyString => None
        end
      else None
  | EmptyString => None
  end.

(** [s.replace(/\d+\.\s*/g, '')]: scan from the left, delete each match and
    resume after it, copy the character where nothing matches. *)
Fixpoint strip_numbering_from (fuel : nat) (s : string) : string :=
  match fuel with
  | O => s
  | S fuel' =>
      match match_numbering s with
      | Some r => strip_numbering_from fuel' r
      | None =>
          match s with
          | EmptyString => EmptyString
          | String c r => String c (strip_numbering_from fuel' r)
          end
      end
  end.

Definition strip_numbering (s : string) : string :=
  strip_numbering_from (String.length s) s.

Definition is_lf (c : ascii) : bool := code c =? 10.

(** [s.replace(/\n+/g, ' ')]: every maximal run of line feeds becomes one
    space.  [in_run] tells that the previous character was a line feed. *)
Fixpoint newlines_to_space (in_run : bool) (s : string) : string :=
  match s with
  | EmptyString => EmptyString
  | String c r =>
      if is_lf c then
        if in_run then newlines_to_space true r
        else String " "%char (newlines_to_space true r)
      else String c (newlines_to_space false r)
  end.

Definition LF : string := String (ascii_of_nat 10) EmptyString.

End JS.

(* ====================================================================== *)
(** * Outcomes, the world and the monad of asynchronous functions *)
(* ====================================================================== *)

(** An [await]ed call either returns a value or throws an [Error] with a
    message. *)
Inductive outcome (A : Type) : Type :=
| Return (a : A)
| Throw (message : string).
Arguments Return {A} a.
Arguments Throw {A} message.

(** A computation transforms a state and keeps the state reached when it
    throws: objects mutated before a [throw] stay mutated in the [catch]. *)
Definition M (S A : Type) : Type := S -> outcome A * S.

Definition ret {S A} (a : A) : M S A := fun s => (Return a, s).

Definition throw {S A} (message : string) : M S A := fun s => (Throw message, s).

Definition bind {S A B} (m : M S A) (k : A -> M S B) : M S B :=
  fun s =>
    match m s with
    | (Return a, s') => k a s'
    | (Throw e, s') => (Throw e, s')
    end.

(** [try { m } catch (error) { handler(error.message) }] *)
Definition try_catch {S A} (m : M S A) (handler : string -> M S A) : M S A :=
  fun s =>
    match m s with
    | (Return a, s') => (Return a, s')
    | (Throw e, s') => handler e s'
    end.

Definition modify {S} (f : S -> S) : M S unit := fun s => (Return tt, f s).

Definition gets {S A} (f : S -> A) : M S A := fun s => (Return (f s), s).

Declare Scope monad_scope.
Delimit Scope monad_scope with monad.
Notation "x <- c ;; k" := (bind c (fun x => k))
  (at level 61, c at next level, right associativity) : monad_scope.
Notation "c ;;; k" := (bind c (fun _ => k))
  (at level 61, right associativity) : monad_scope.
Local Open Scope monad_scope.

(** ** Data of the store *)

Definition vector : Type := list Q.

(** A row of [document_chunks]. *)
Record ChunkRow : Type := mkChunkRow {
  chunk_id : string;
  chunk_pdf_id : string;
  chunk_index : Z;
  chunk_content : string;
  chunk_embedding : option vector;          (* the nullable [vector] column *)
  chunk_token_count : Z;
  chunk_page_number : option Z;
  chunk_metadata : string                   (* JSON text *)
}.

(** A row of [pdfs]. *)
Record PdfRow : Type := mkPdfRow {
  pdf_id : string;
  pdf_userId : string;
  pdf_name : string;
  pdf_filePath : string;
  pdf_status : string;                      (* 'processing' | 'ready' | 'failed' *)
  pdf_totalChunks : Z;
  pdf_totalPages : option Z;
  pdf_errorMessage : option string
}.

(** What [smartRetrieval] hands to the answer generator: the rows of a vector
    search carry a similarity, the rows read through the ORM do not. *)
Record RetrievedChunk : Type := mkRetrieved {
  r_id : string;
  r_pdfId : string;
  r_pdfName : option string;
  r_pdfPath : option string;
  r_chunkIndex : Z;
  r_content : string;
  r_pageNumber : option Z;
  r_tokenCount : Z;
  r_similarity : option Q;
  r_metadata : option string
}.

(** ** Requests to the collaborators *)

Inductive embed_input : Type :=
| InputText (text : string)                 (* [input: text] *)
| InputBatch (texts : list string).         (* [input: batch] *)

(** The chat-completion requests of the route differ by their prompt
    template; each template is a fixed text around the values kept here. *)
Inductive ChatPrompt : Type :=
| NormalizationPrompt (originalQuery : string)
| DecompositionPrompt (queryForAnalysis : string)
| ExpansionPrompt (queryForAnalysis : string)
| AnswerPrompt (pdfName : string) (context : list RetrievedChunk) (message : string).

(** Writes of the ingestion job. *)
Inductive Write : Type :=
| InsertChunkRaw (row : ChunkRow) (dimension : nat)   (* [$5::vector(dimension)] *)
| InsertChunkOrm (row : ChunkRow)
| UpdatePdfReady (id : string) (totalChunks : Z) (totalPages : Z)
| UpdatePdfFailed (id : string) (errorMessage : string).

Inductive Request : Type :=
| ChatCompletion (prompt : ChatPrompt)
| Embeddings (input : embed_input)
| VectorQuery (queryVector : vector) (pdfId : option string) (threshold : Q) (topK : nat)
| FindChunks (pdfId : string) (take : nat)
| FindPdf (id userId : string)
| StoreWrite (w : Write).

(** ** Replies of the collaborators *)

(** A chat completion as the route reads it. *)
Inductive chat_reply : Type :=
| ChatRejected (message : string)
    (* [fetch] or [response.json()] rejects, or reading the body throws *)
| ChatNotOk (status : nat)                  (* [!response.ok] *)
| ChatContent (content : option string).
    (* [data.choices?.[0]?.message?.content], [None] when absent *)

(** The body of an embeddings response: [data.data], absent or a list of
    items, each with its [embedding] when it has one. *)
Inductive embeddings_reply : Type :=
| EmbRejected (message : string)
| EmbNotOk (status : string) (body : string)
| EmbBody (data : option (list (option vector))).

Record Env : Type := mkEnv {
  OPENAI_API_KEY : string;                  (* empty when not configured *)
  chat_api : list Request -> ChatPrompt -> chat_reply;
  embeddings_api : list Request -> embed_input -> embeddings_reply;
  (** [a <=> b], the cosine distance as the store evaluates it *)
  cosine_distance : vector -> vector -> Q;
  (** [fs.readFile] then [pdf-parse]: the text and the page count *)
  pdf_parse : string -> outcome (string * Z);
  (** [RecursiveCharacterTextSplitter.createDocuments] *)
  split_text : string -> outcome (list string);
  (** the tokenizer behind [countTokens] *)
  count_tokens : string -> Z;
  (** [Some message] when the store refuses the write with that error *)
  store_rejects : list Request -> Write -> option string
}.

(** The world: the requests made so far, most recent first, and the two
    tables. *)
Record World : Type := mkWorld {
  log : list Request;
  document_chunks : list ChunkRow;
  pdfs : list PdfRow
}.

Definition record (r : Request) (w : World) : World :=
  {| log := r :: log w; document_chunks := document_chunks w; pdfs := pdfs w |}.

Definition string_of_nat (n : nat) : string :=
  DecimalString.NilZero.string_of_uint (Nat.to_uint n).

(** [ORDER BY ... ASC] of the store, as an insertion sort under the test
    [leb]; rows with equal keys keep the order of the table. *)
Fixpoint insert_by {A} (leb : A -> A -> bool) (x : A) (l : list A) : list A :=
  match l with
  | [] => [x]
  | y :: r => if leb x y then x :: y :: r else y :: insert_by leb x r
  end.

Definition order_by {A} (leb : A -> A -> bool) (l : list A) : list A :=
  fold_right (insert_by leb) [] l.

(* ====================================================================== *)
(** * lib/rag/embeddings.js *)
(* ====================================================================== *)

Module Embeddings.

(** [await fetch(`${OPENAI_BASE_URL}/embeddings`, ...)] and the reading of
    the response: one request, recorded in the log. *)
Definition fetch_embeddings (env : Env) (input : embed_input)
  : M World embeddings_reply :=
  fun w => (Return (embeddings_api env (log w) input), record (Embeddings input) w).

(** [countTokens] *)
Definition countTokens (env : Env) (text : string) : Z :=
  if negb (JS.truthy text) then 0%Z else count_tokens env text.

(** [embedText] *)
Definition embedText (env : Env) (text : string) : M World vector :=
  if negb (JS.nonblank text) then throw "文本不能为空"
  else if negb (JS.truthy (OPENAI_API_KEY env)) then throw "❌ OPENAI_API_KEY 未配置"
  else
    try_catch
      (reply <- fetch_embeddings env (InputText text) ;;
       match reply with
       | EmbRejected message => throw message
       | EmbNotOk status body =>
           throw ("API 错误 (" ++ status ++ "): " ++ body)%string
       | EmbBody None => throw "API 返回格式错误"
       | EmbBody (Some []) => throw "API 返回格式错误"
       | EmbBody (Some (None :: _)) => throw "API 返回缺少 embedding 字段"
       | EmbBody (Some (Some embedding :: _)) => ret embedding
       end)
      (fun message => throw ("向量化失败: " ++ message)%string).

(** [new Array(1024).fill(0)] *)
Definition zero_vector : vector := repeat 0%Q 1024.

(** The retry of a failed batch, one text at a time; a text that fails
    again gets the zero vector. *)
Fixpoint retry_each (env : Env) (batch : list string)
  : M World (list (option vector)) :=
  match batch with
  | [] => ret []
  | text :: rest =>
      v <- try_catch
             (vector <- embedText env text ;; ret (Some vector))
             (fun _ => ret (Some zero_vector)) ;;
      vs <- retry_each env rest ;;
      ret (v :: vs)
  end.

(** The body of the batch loop: what one batch pushes onto [results].
    [data.data.map(item => item.embedding)] is [undefined] ([None]) for an
    item without embedding. *)
Definition embed_one_batch (env : Env) (batch : list string)
  : M World (list (option vector)) :=
  try_catch
    (reply <- fetch_embeddings env (InputBatch batch) ;;
     match reply with
     | EmbRejected message => throw message
     | EmbNotOk status body =>
         throw ("API 错误 (" ++ status ++ "): " ++ body)%string
     | EmbBody None => throw "返回数量不匹配"
     | EmbBody (Some items) =>
         if (length items =? length batch)%nat then ret items
         else throw "返回数量不匹配"
     end)
    (fun _ => retry_each env batch).

(** [for (let i = 0; i < texts.length; i += batchSize)].  [fuel] bounds the
    number of iterations; [texts.length] is enough because [batchSize] is
    positive. *)
Fixpoint batch_loop (env : Env) (fuel : nat) (batchSize : positive)
    (texts : list string) (i : nat) (results : list (option vector))
  : M World (list (option vector)) :=
  if (length texts <=? i)%nat then ret results
  else
    match fuel with
    | O => ret results
    | S fuel' =>
        let batch := firstn (Pos.to_nat batchSize) (skipn i texts) in
        vectors <- embed_one_batch env batch ;;
        batch_loop env fuel' batchSize texts (i + Pos.to_nat batchSize)
          (results ++ vectors)
    end.

(** [embedBatch(texts, { batchSize })]; the default [batchSize] is 50. *)
Definition embedBatch (env : Env) (texts : list string) (batchSize : positive)
  : M World (list (option vector)) :=
  match texts with
  | [] => ret []
  | _ =>
      if negb (JS.truthy (OPENAI_API_KEY env)) then throw "❌ OPENAI_API_KEY 未配置"
      else batch_loop env (length texts) batchSize texts 0 []
  end.

Definition default_batchSize : positive := 50%positive.

End Embeddings.

(* ====================================================================== *)
(** * lib/rag/retrieval.js *)
(* ====================================================================== *)

Module Retrieval.

Record SearchOptions : Type := mkOptions {
  opt_pdfId : option string;
  opt_topK : nat;
  opt_threshold : Q;
  opt_includeMetadata : bool
}.

(** A row of the join [document_chunks dc JOIN pdfs p ON dc.pdf_id = p.id]
    that has an embedding, with the value of [dc.embedding <=> $1]. *)
Record Candidate : Type := mkCandidate {
  cand_chunk : ChunkRow;
  cand_pdf : PdfRow;
  cand_embedding : vector;
  cand_distance : Q
}.

(** [1 - (dc.embedding <=> $1::vector) as similarity] *)
Definition similarity (c : Candidate) : Q := 1 - cand_distance c.

(** [FROM document_chunks dc JOIN pdfs p ON dc.pdf_id = p.id
     WHERE dc.embedding IS NOT NULL] *)
Definition candidates (env : Env) (w : World) (queryVector : vector)
  : list Candidate :=
  flat_map
    (fun dc =>
       match chunk_embedding dc with
       | None => []
       | Some e =>
           map (fun p => mkCandidate dc p e (cosine_distance env e queryVector))
             (filter (fun p => String.eqb (chunk_pdf_id dc) (pdf_id p)) (pdfs w))
       end)
    (document_chunks w).

(** [if (pdfId) sql += ` AND p.id = $2`]: a null or empty [pdfId] leaves
    the search unscoped. *)
Definition in_scope (pdfId : option string) (c : Candidate) : bool :=
  match pdfId with
  | None => true
  | Some id => if JS.truthy id then String.eqb (pdf_id (cand_pdf c)) id else true
  end.

(** [AND (1 - (dc.embedding <=> $1::vector)) >= $threshold] *)
Definition above (threshold : Q) (c : Candidate) : bool :=
  Qle_bool threshold (similarity c).

(** [ORDER BY dc.embedding <=> $1::vector]: ascending distance. *)
Definition closer (c d : Candidate) : bool :=
  Qle_bool (cand_distance c) (cand_distance d).

Definition order_by_distance (l : list Candidate) : list Candidate :=
  order_by closer l.

(** The whole statement, [LIMIT $topK] included. *)
Definition select_similar (env : Env) (w : World) (queryVector : vector)
    (pdfId : option string) (threshold : Q) (topK : nat) : list Candidate :=
  firstn topK
    (order_by_distance
       (filter (above threshold)
          (filter (in_scope pdfId) (candidates env w queryVector)))).

(** [prisma.$queryRawUnsafe(sql, ...params)] *)
Definition queryRaw (env : Env) (queryVector : vector) (pdfId : option string)
    (threshold : Q) (topK : nat) : M World (list Candidate) :=
  fun w =>
    (Return (select_similar env w queryVector pdfId threshold topK),
     record (VectorQuery queryVector pdfId threshold topK) w).

(** [parseFloat(x.toFixed(4))]: the nearest multiple of 1/10000, halves
    away from zero. *)
Definition toFixed4 (x : Q) : Q :=
  if Qle_bool 0 x then Qfloor (x * 10000 + (1 # 2)) # 10000
  else - (Qfloor ((- x) * 10000 + (1 # 2)) # 10000).

(** [results.map(row => ({ ... }))] *)
Definition format (includeMetadata : bool) (c : Candidate) : RetrievedChunk :=
  {| r_id := chunk_id (cand_chunk c);
     r_pdfId := chunk_pdf_id (cand_chunk c);
     r_pdfName := Some (pdf_name (cand_pdf c));
     r_pdfPath := Some (pdf_filePath (cand_pdf c));
     r_chunkIndex := chunk_index (cand_chunk c);
     r_content := chunk_content (cand_chunk c);
     r_pageNumber := chunk_page_number (cand_chunk c);
     r_tokenCount := chunk_token_count (cand_chunk c);
     r_similarity := Some (toFixed4 (similarity c));
     r_metadata :=
       if includeMetadata then Some (chunk_metadata (cand_chunk c)) else None |}.

(** [searchSimilarChunks] *)
Definition searchSimilarChunks (env : Env) (query : string) (options : SearchOptions)
  : M World (list RetrievedChunk) :=
  try_catch
    (queryVector <- Embeddings.embedText env query ;;
     results <- queryRaw env queryVector (opt_pdfId options)
                  (opt_threshold options) (opt_topK options) ;;
     ret (map (format (opt_includeMetadata options)) results))
    (fun message => throw ("向量检索失败: " ++ message)%string).

End Retrieval.

(* ====================================================================== *)
(** * app/api/chat-pdf/route.js *)
(* ====================================================================== *)

Module ChatPdf.

Inductive QueryType : Type := original | decomposition | expansion | fallback.

Record RewriteResult : Type := mkRewrite {
  originalQuery : string;
  finalQuery : string;
  queryType : QueryType;
  steps : list string;
  normalizedQuery : option string;
  subQueries : option string;
  error : option string
}.

Definition set_finalQuery (q : string) (r : RewriteResult) : RewriteResult :=
  mkRewrite (originalQuery r) q (queryType r) (steps r)
    (normalizedQuery r) (subQueries r) (error r).

Definition set_queryType (t : QueryType) (r : RewriteResult) : RewriteResult :=
  mkRewrite (originalQuery r) (finalQuery r) t (steps r)
    (normalizedQuery r) (subQueries r) (error r).

Definition push_step (step : string) (r : RewriteResult) : RewriteResult :=
  mkRewrite (originalQuery r) (finalQuery r) (queryType r) (steps r ++ [step])
    (normalizedQuery r) (subQueries r) (error r).

Definition set_normalizedQuery (q : string) (r : RewriteResult) : RewriteResult :=
  mkRewrite (originalQuery r) (finalQuery r) (queryType r) (steps r)
    (Some q) (subQueries r) (error r).

Definition set_subQueries (q : string) (r : RewriteResult) : RewriteResult :=
  mkRewrite (originalQuery r) (finalQuery r) (queryType r) (steps r)
    (normalizedQuery r) (Some q) (error r).

Definition set_error (e : string) (r : RewriteResult) : RewriteResult :=
  mkRewrite (originalQuery r) (finalQuery r) (queryType r) (steps r)
    (normalizedQuery r) (subQueries r) (Some e).

(** The [try] block of [rewriteQuery] runs on the local object
    [rewriteResult] together with the world. *)
Definition RW : Type := (RewriteResult * World)%type.

Definition update (f : RewriteResult -> RewriteResult) : M RW unit :=
  modify (fun s : RW => (f (fst s), snd s)).

Definition lift {A} (m : M World A) : M RW A :=
  fun s => let (a, w') := m (snd s) in (a, (fst s, w')).

(** [await fetch('https://openrouter.ai/api/v1/chat/completions', ...)] and
    the reading of the response. *)
Definition fetch_chat (env : Env) (prompt : ChatPrompt) : M World chat_reply :=
  fun w => (Return (chat_api env (log w) prompt), record (ChatCompletion prompt) w).

(** [content?.trim()], kept when it is truthy. *)
Definition trimmed (content : option string) : option string :=
  match content with
  | None => None
  | Some c => if JS.truthy (JS.trim c) then Some (JS.trim c) else None
  end.

Definition compound_markers : list string :=
  ["和"; "与"; "或者"; "以及"; "区别"; "对比"; "比较"].

(** [/和|与|或者|以及|区别|对比|比较/.test(queryForAnalysis)] *)
Definition isCompoundQuery (queryForAnalysis : string) : bool :=
  existsb (fun marker => JS.includes marker queryForAnalysis) compound_markers.

(** [subQueries.replace(/\d+\.\s*/g, '').replace(/\n+/g, ' ')] *)
Definition merge_subQueries (subQueries : string) : string :=
  JS.newlines_to_space false (JS.strip_numbering subQueries).

(** Step 1 of the [try] block. *)
Definition normalization_step (env : Env) (originalQuery : string) : M RW unit :=
  reply <- lift (fetch_chat env (NormalizationPrompt originalQuery)) ;;
  match reply with
  | ChatRejected message => throw message
  | ChatNotOk _ => update (push_step "标准化失败")
  | ChatContent content =>
      match trimmed content with
      | Some normalized =>
          update (set_normalizedQuery normalized) ;;;
          update (set_finalQuery normalized) ;;;
          update (push_step "标准化完成")
      | None => update (push_step "标准化结果为空")
      end
  end.

(** Strategy A of step 2. *)
Definition decomposition_step (env : Env) (queryForAnalysis : string) : M RW unit :=
  update (set_queryType decomposition) ;;;
  update (push_step "使用查询分解") ;;;
  reply <- lift (fetch_chat env (DecompositionPrompt queryForAnalysis)) ;;
  match reply with
  | ChatRejected message => throw message
  | ChatNotOk _ => update (push_step "查询分解 API 失败")
  | ChatContent content =>
      match trimmed content with
      | Some sub =>
          update (set_subQueries sub) ;;;
          update (set_finalQuery (merge_subQueries sub))
      | None => update (push_step "查询分解失败")
      end
  end.

(** Strategy B of step 2. *)
Definition expansion_step (env : Env) (queryForAnalysis : string) : M RW unit :=
  update (set_queryType expansion) ;;;
  update (push_step "使用查询扩展") ;;;
  reply <- lift (fetch_chat env (ExpansionPrompt queryForAnalysis)) ;;
  match reply with
  | ChatRejected message => throw message
  | ChatNotOk _ => update (push_step "查询扩展 API 失败")
  | ChatContent content =>
      match trimmed content with
      | Some expanded => update (set_finalQuery expanded)
      | None => update (push_step "查询扩展失败")
      end
  end.

Definition rewrite_try (env : Env) (originalQuery : string) : M RW unit :=
  normalization_step env originalQuery ;;;
  queryForAnalysis <- gets (fun s : RW => finalQuery (fst s)) ;;
  if isCompoundQuery queryForAnalysis
  then decomposition_step env queryForAnalysis
  else expansion_step env queryForAnalysis.

Definition rewrite_catch (message : string) : M RW unit :=
  update (set_queryType fallback) ;;;
  update (set_error message) ;;;
  update (push_step "查询重写失败").

Definition initial_result (originalQuery : string) : RewriteResult :=
  mkRewrite originalQuery originalQuery original [] None None None.

(** [rewriteQuery] *)
Definition rewriteQuery (env : Env) (originalQuery : string) : M World RewriteResult :=
  fun w =>
    match try_catch (rewrite_try env originalQuery) rewrite_catch
            (initial_result originalQuery, w) with
    | (Return _, (rewriteResult, w')) => (Return rewriteResult, w')
    | (Throw message, (_, w')) => (Throw message, w')
    end.

(** [orderBy: { chunkIndex: 'asc' }] *)
Definition index_leb (c d : ChunkRow) : bool :=
  (chunk_index c <=? chunk_index d)%Z.

(** A row as the ORM returns it: no similarity, no name of the document. *)
Definition of_row (c : ChunkRow) : RetrievedChunk :=
  {| r_id := chunk_id c;
     r_pdfId := chunk_pdf_id c;
     r_pdfName := None;
     r_pdfPath := None;
     r_chunkIndex := chunk_index c;
     r_content := chunk_content c;
     r_pageNumber := chunk_page_number c;
     r_tokenCount := chunk_token_count c;
     r_similarity := None;
     r_metadata := Some (chunk_metadata c) |}.

(** The rows selected by [where: { pdfId }, orderBy: { chunkIndex: 'asc' },
    take]. *)
Definition chunks_of (w : World) (pdfId : string) (take : nat) : list RetrievedChunk :=
  map of_row
    (firstn take
       (order_by index_leb
          (filter (fun c => String.eqb (chunk_pdf_id c) pdfId) (document_chunks w)))).

(** [prisma.documentChunk.findMany({ where: { pdfId },
     orderBy: { chunkIndex: 'asc' }, take })] *)
Definition findMany (pdfId : string) (take : nat) : M World (list RetrievedChunk) :=
  fun w => (Return (chunks_of w pdfId take), record (FindChunks pdfId take) w).

(** [Math.max(1, Math.ceil(totalChunks / 10))] *)
Definition sampling_step (totalChunks : Z) : Z :=
  Z.max 1 (- ((- totalChunks) / 10)).

(** [allChunks.filter((_, idx) => idx % step === 0)] *)
Fixpoint every_nth {A} (step : Z) (idx : Z) (l : list A) : list A :=
  match l with
  | [] => []
  | x :: r =>
      if (Z.rem idx step =? 0)%Z then x :: every_nth step (idx + 1) r
      else every_nth step (idx + 1) r
  end.

Definition strategy1 (pdfId : string) : Retrieval.SearchOptions :=
  Retrieval.mkOptions (Some pdfId) 5 (6 # 10) true.

Definition strategy2 (pdfId : string) : Retrieval.SearchOptions :=
  Retrieval.mkOptions (Some pdfId) 8 (4 # 10) true.

(** [smartRetrieval] *)
Definition smartRetrieval (env : Env) (query pdfId : string) (pdfRecord : PdfRow)
  : M World (list RetrievedChunk) :=
  rewriteResult <- rewriteQuery env query ;;
  let queryForRetrieval := finalQuery rewriteResult in
  chunks <- Retrieval.searchSimilarChunks env queryForRetrieval (strategy1 pdfId) ;;
  if (3 <=? length chunks)%nat then ret chunks
  else
    chunks <- Retrieval.searchSimilarChunks env queryForRetrieval (strategy2 pdfId) ;;
    if (3 <=? length chunks)%nat then ret chunks
    else
      let step := sampling_step (pdf_totalChunks pdfRecord) in
      allChunks <- findMany pdfId 100 ;;
      let sampled := firstn 10 (every_nth step 0 allChunks) in
      if (0 <? length sampled)%nat then ret sampled
      else findMany pdfId 10.

(** ** The request handler *)

Record Session : Type := mkSession { user_id : string; user_email : string }.

(** The parsed request body [{ message, pdfId }]. *)
Record Body : Type := mkBody { message : option string; pdfId : option string }.

(** [NextResponse.json(...)]: the error replies with their HTTP status and
    their [error], [details] and [status] members, and the success reply. *)
Inductive Response : Type :=
| ErrorResponse (httpStatus : nat) (error : string) (details : option string)
    (status : option string)
| SuccessResponse (response : string) (chunksRetrieved : nat)
    (sources : list RetrievedChunk).

(** [prisma.PDF.findFirst({ where: { id: pdfId, userId } })] *)
Definition findFirst (id userId : string) : M World (option PdfRow) :=
  fun w =>
    (Return (find (fun p => String.eqb (pdf_id p) id && String.eqb (pdf_userId p) userId)
               (pdfs w)),
     record (FindPdf id userId) w).

(** The message chosen for a failed answer call. *)
Definition answer_error (status : nat) : string :=
  (if (status =? 401)%nat then "AI 服务认证失败，请检查 API 密钥"
   else if (status =? 429)%nat then "AI 服务请求过于频繁，请稍后重试"
   else if (status =? 500)%nat then "AI 服务内部错误，请稍后重试"
   else "AI 服务暂时不可用")
  ++ " (状态码: " ++ string_of_nat status ++ ")".

Definition generate_answer (env : Env) (pdfRecord : PdfRow)
    (relevantChunks : list RetrievedChunk) (message : string) : M World Response :=
  if negb (JS.truthy (OPENAI_API_KEY env)) then
    ret (ErrorResponse 500 "AI 服务配置错误，请联系管理员"
           (Some "OpenRouter API key not configured") None)
  else
    try_catch
      (reply <- fetch_chat env (AnswerPrompt (pdf_name pdfRecord) relevantChunks message) ;;
       match reply with
       | ChatRejected e => throw e
       | ChatNotOk status => throw (answer_error status)
       | ChatContent (Some aiMessage) =>
           if JS.truthy aiMessage then
             ret (SuccessResponse aiMessage (length relevantChunks) relevantChunks)
           else throw "AI 响应为空，请重试"
       | ChatContent None => throw "AI 响应为空，请重试"
       end)
      (fun e => ret (ErrorResponse 500 ("AI 服务调用失败: " ++ e)%string None None)).

(** [POST], for the session returned by [auth()] and the parsed body. *)
Definition POST (env : Env) (session : option Session) (body : Body)
  : M World Response :=
  try_catch
    (match session with
     | None => ret (ErrorResponse 401 "请先登录" None None)
     | Some s =>
         match message body with
         | None => ret (ErrorResponse 400 "消息不能为空" None None)
         | Some message =>
             if negb (JS.truthy (JS.trim message)) then
               ret (ErrorResponse 400 "消息不能为空" None None)
             else
               match pdfId body with
               | None => ret (ErrorResponse 400 "请先选择 PDF 文件" None None)
               | Some pdfId =>
                   if negb (JS.truthy pdfId) then
                     ret (ErrorResponse 400 "请先选择 PDF 文件" None None)
                   else
                     found <- findFirst pdfId (user_id s) ;;
                     match found with
                     | None => ret (ErrorResponse 404 "PDF 文件不存在或无权访问" None None)
                     | Some pdfRecord =>
                         if String.eqb (pdf_status pdfRecord) "processing" then
                           ret (ErrorResponse 400 "PDF 文件正在处理中，请稍后再试" None
                                  (Some (pdf_status pdfRecord)))
                         else if String.eqb (pdf_status pdfRecord) "failed" then
                           ret (ErrorResponse 400 "PDF 文件处理失败"
                                  (pdf_errorMessage pdfRecord) None)
                         else if negb (String.eqb (pdf_status pdfRecord) "ready") then
                           ret (ErrorResponse 400
                                  ("PDF 文件状态异常: " ++ pdf_status pdfRecord)%string
                                  None None)
                         else
                           retrieved <-
                             try_catch
                               (relevantChunks <- smartRetrieval env message pdfId pdfRecord ;;
                                ret (inr relevantChunks))
                               (fun e =>
                                  ret (inl (ErrorResponse 500 "RAG 检索服务暂时不可用"
                                              (Some e) None))) ;;
                           match retrieved with
                           | inl response => ret response
                           | inr relevantChunks =>
                               generate_answer env pdfRecord relevantChunks message
                           end
                     end
               end
         end
     end)
    (fun e => ret (ErrorResponse 500 "服务器内部错误" (Some e) None)).

End ChatPdf.

(* ====================================================================== *)
(** * lib/rag/chunking.js and app/api/pdf/upload/route.js *)
(* ====================================================================== *)

Module Upload.

(** A chunk as [chunkText] returns it; [pageNumber] is the member of that
    name of its metadata, when there is one. *)
Record Chunk : Type := mkChunk {
  chunkIndex : nat;
  content : string;
  tokenCount : Z;
  charCount : nat;
  pageNumber : option Z;
  metadata : string
}.

Fixpoint number_from (metadata : string) (tokens : string -> Z) (index : nat)
    (docs : list string) : list Chunk :=
  match docs with
  | [] => []
  | pageContent :: rest =>
      mkChunk index pageContent (tokens pageContent) (String.length pageContent)
        None metadata
      :: number_from metadata tokens (S index) rest
  end.

(** [chunkText(text, metadata)] with metadata that has no page number. *)
Definition chunkText (env : Env) (text metadata : string) : M World (list Chunk) :=
  if negb (JS.nonblank text) then ret []
  else
    try_catch
      (match split_text env text with
       | Throw e => throw e
       | Return docs => ret (number_from metadata (Embeddings.countTokens env) 0 docs)
       end)
      (fun e => throw ("文本分块失败: " ++ e)%string).

Definition VECTOR_DIMENSION : nat := 1024.

(** [vectors[0]?.length || VECTOR_DIMENSION] *)
Definition actualDimension (vectors : list (option vector)) : nat :=
  match vectors with
  | Some v :: _ => if (length v =? 0)%nat then VECTOR_DIMENSION else length v
  | _ => VECTOR_DIMENSION
  end.

Definition add_chunk (row : ChunkRow) (w : World) : World :=
  {| log := log w; document_chunks := document_chunks w ++ [row]; pdfs := pdfs w |}.

Definition update_pdf (id : string) (f : PdfRow -> PdfRow) (w : World) : World :=
  {| log := log w;
     document_chunks := document_chunks w;
     pdfs := map (fun p => if String.eqb (pdf_id p) id then f p else p) (pdfs w) |}.

(** [data: { status: 'ready', totalChunks, totalPages, processedAt }] *)
Definition mark_ready (totalChunks totalPages : Z) (p : PdfRow) : PdfRow :=
  mkPdfRow (pdf_id p) (pdf_userId p) (pdf_name p) (pdf_filePath p)
    "ready" totalChunks (Some totalPages) (pdf_errorMessage p).

(** [data: { status: 'failed', errorMessage }] *)
Definition mark_failed (errorMessage : string) (p : PdfRow) : PdfRow :=
  mkPdfRow (pdf_id p) (pdf_userId p) (pdf_name p) (pdf_filePath p)
    "failed" (pdf_totalChunks p) (pdf_totalPages p) (Some errorMessage).

Definition apply_write (wr : Write) : World -> World :=
  match wr with
  | InsertChunkRaw row _ => add_chunk row
  | InsertChunkOrm row => add_chunk row
  | UpdatePdfReady id totalChunks totalPages =>
      update_pdf id (mark_ready totalChunks totalPages)
  | UpdatePdfFailed id errorMessage => update_pdf id (mark_failed errorMessage)
  end.

(** A write is recorded; the store applies it or refuses it with an
    error. *)
Definition store_write (env : Env) (wr : Write) : M World unit :=
  fun w =>
    match store_rejects env (log w) wr with
    | Some e => (Throw e, record (StoreWrite wr) w)
    | None => (Return tt, apply_write wr (record (StoreWrite wr) w))
    end.

Definition chunk_row (pdfId : string) (i : nat) (chunk : Chunk)
    (embedding : option vector) : ChunkRow :=
  {| chunk_id := "chunk_" ++ pdfId ++ "_" ++ string_of_nat i;
     chunk_pdf_id := pdfId;
     chunk_index := Z.of_nat (chunkIndex chunk);
     chunk_content := content chunk;
     chunk_embedding := embedding;
     chunk_token_count := tokenCount chunk;
     chunk_page_number := pageNumber chunk;
     chunk_metadata := metadata chunk |}.

(** The body of the [try] inside the saving loop. *)
Definition save_chunk (env : Env) (pdfId : string) (dimension : nat) (i : nat)
    (chunk : Chunk) (vector : option vector) : M World unit :=
  match vector with
  | Some (x :: v) =>
      store_write env (InsertChunkRaw (chunk_row pdfId i chunk (Some (x :: v))) dimension)
  | _ => store_write env (InsertChunkOrm (chunk_row pdfId i chunk None))
  end.

Definition too_many (failCount : nat) : string :=
  "保存失败过多 (" ++ string_of_nat failCount ++ " 个)，停止处理".

(** [for (let i = 0; i < chunks.length; i++)], on the chunks from index [i]
    on; returns [successCount]. *)
Fixpoint save_chunks (env : Env) (pdfId : string) (dimension : nat)
    (vectors : list (option vector)) (chunks : list Chunk)
    (i successCount failCount : nat) : M World nat :=
  match chunks with
  | [] => ret successCount
  | chunk :: rest =>
      let vector := match nth_error vectors i with Some v => v | None => None end in
      saved <- try_catch
                 (save_chunk env pdfId dimension i chunk vector ;;; ret true)
                 (fun _ => ret false) ;;
      if saved : bool then
        save_chunks env pdfId dimension vectors rest (S i) (S successCount) failCount
      else if (5 <? S failCount)%nat then throw (too_many (S failCount))
      else save_chunks env pdfId dimension vectors rest (S i) successCount (S failCount)
  end.

(** The [try] block of [processPdfInBackground]. *)
Definition ingest (env : Env) (pdfId filePath : string) : M World unit :=
  match pdf_parse env filePath with
  | Throw e => throw e
  | Return (text, numpages) =>
      chunks <- chunkText env text "pdf" ;;
      vectors <- Embeddings.embedBatch env (map content chunks)
                   Embeddings.default_batchSize ;;
      successCount <- save_chunks env pdfId (actualDimension vectors) vectors chunks
                        0 0 0 ;;
      store_write env (UpdatePdfReady pdfId (Z.of_nat successCount) numpages)
  end.

(** [error.message || '未知错误'] *)
Definition message_or_unknown (e : string) : string :=
  if JS.truthy e then e else "未知错误".

(** [processPdfInBackground] *)
Definition processPdfInBackground (env : Env) (pdfId filePath : string)
  : M World unit :=
  try_catch (ingest env pdfId filePath)
    (fun e =>
       try_catch (store_write env (UpdatePdfFailed pdfId (message_or_unknown e)))
         (fun _ => ret tt)).

End Upload.

(* ====================================================================== *)
(** * Vocabulary of the statements *)
(* ====================================================================== *)

Module Spec.
Import ChatPdf.

(** What a dropping function of [JS.drop_while] must satisfy: it removes a
    non-empty front. *)
Definition drops_front (drop : string -> option string) : Prop :=
  forall s r,
    drop s = Some r ->
    exists p, s = (p ++ r)%string /\ (0 < String.length p)%nat.


Definition stage_threw (reply : chat_reply) : Prop :=
  match reply with ChatRejected _ => True | _ => False end.

(** The reply to the normalization request made from world [w]. *)
Definition reply1 (env : Env) (w : World) (q : string) : chat_reply :=
  chat_api env (log w) (NormalizationPrompt q).

(** The query inspected by step 2: the normalized query when step 1
    produced one, the original query otherwise. *)
Definition analysed (q : string) (r1 : chat_reply) : string :=
  match r1 with
  | ChatContent content =>
      match trimmed content with Some normalized => normalized | None => q end
  | _ => q
  end.

Definition branch_prompt (queryForAnalysis : string) : ChatPrompt :=
  if isCompoundQuery queryForAnalysis then DecompositionPrompt queryForAnalysis
  else ExpansionPrompt queryForAnalysis.

(** The reply to the request of step 2, made after the normalization
    request. *)
Definition reply2 (env : Env) (w : World) (q : string) : chat_reply :=
  chat_api env (ChatCompletion (NormalizationPrompt q) :: log w)
    (branch_prompt (analysed q (reply1 env w q))).

(** The non-empty text of a reply, if it has one. *)
Definition reply_text (reply : chat_reply) : option string :=
  match reply with
  | ChatContent content => trimmed content
  | _ => None
  end.

(** The step label pushed when the call of step 2 returns without a
    usable reply. *)
Definition failure_label (compound : bool) (reply : chat_reply) : option string :=
  match reply with
  | ChatRejected _ => None
  | ChatNotOk _ => Some (if compound then "查询分解 API 失败" else "查询扩展 API 失败")
  | ChatContent content =>
      match trimmed content with
      | Some _ => None
      | None => Some (if compound then "查询分解失败" else "查询扩展失败")
      end
  end.

(** The provider answered [text] with [v]: as the item at the position of
    [text] in a batch response of the right length, or as the first item of
    the response to the single text. *)
Definition provider_answer (env : Env) (text : string) (v : option vector) : Prop :=
  (exists history batch items i,
      embeddings_api env history (InputBatch batch) = EmbBody (Some items)
      /\ length items = length batch
      /\ nth_error batch i = Some text
      /\ nth_error items i = Some v)
  \/ (exists history rest e,
         embeddings_api env history (InputText text) = EmbBody (Some (Some e :: rest))
         /\ v = Some e).

(** What [embedBatch] may return for [text]. *)
Definition answers (env : Env) (text : string) (v : option vector) : Prop :=
  v = Some Embeddings.zero_vector \/ provider_answer env text v.



(** The requests by which a retrieval strategy reads the store. *)
Definition is_strategy_request (r : Request) : bool :=
  match r with
  | VectorQuery _ _ _ _ => true
  | FindChunks _ _ => true
  | _ => false
  end.

(** The strategy requests among the requests [new] (most recent first),
    in the order in which they were made. *)
Definition strategy_requests (new : list Request) : list Request :=
  rev (filter is_strategy_request new).

(** The requests to the embedding provider and to the language model. *)
Definition is_provider_request (r : Request) : bool :=
  match r with
  | Embeddings _ => true
  | ChatCompletion _ => true
  | _ => false
  end.

(** The result of the vector search of a strategy on the tables of [w]. *)
Definition search_result (env : Env) (w : World) (queryVector : vector)
    (options : Retrieval.SearchOptions) : list RetrievedChunk :=
  map (Retrieval.format (Retrieval.opt_includeMetadata options))
    (Retrieval.select_similar env w queryVector (Retrieval.opt_pdfId options)
       (Retrieval.opt_threshold options) (Retrieval.opt_topK options)).

Definition query_of (queryVector : vector) (options : Retrieval.SearchOptions)
  : Request :=
  VectorQuery queryVector (Retrieval.opt_pdfId options)
    (Retrieval.opt_threshold options) (Retrieval.opt_topK options).

(** The uniform sample of strategy 3. *)
Definition uniform_sample (w : World) (pdfId : string) (pdfRecord : PdfRow)
  : list RetrievedChunk :=
  firstn 10
    (every_nth (sampling_step (pdf_totalChunks pdfRecord)) 0 (chunks_of w pdfId 100)).

(** A computation that leaves both tables as they are. *)
Definition keeps_tables {A} (m : M World A) : Prop :=
  forall w o w', m w = (o, w') ->
    document_chunks w' = document_chunks w /\ pdfs w' = pdfs w.

(** The number of chunk rows stored between [w] and [w']. *)
Definition stored (w w' : World) : nat :=
  length (document_chunks w') - length (document_chunks w).

End Spec.

(* ====================================================================== *)
(** * Sample collaborators and stores *)
(* ====================================================================== *)

Module Samples.

(** Every provider is down, the store accepts every write. *)
Definition offline : Env :=
  {| OPENAI_API_KEY := "sk-or-test";
     chat_api := fun _ _ => ChatNotOk 503;
     embeddings_api := fun _ _ => EmbNotOk "503" "unavailable";
     cosine_distance := fun _ _ => 1;
     pdf_parse := fun _ => Throw "ENOENT";
     split_text := fun _ => Return [];
     count_tokens := fun _ => 0%Z;
     store_rejects := fun _ _ => None |}.

Definition with_chat (chat : list Request -> ChatPrompt -> chat_reply) (env : Env)
  : Env :=
  mkEnv (OPENAI_API_KEY env) chat (embeddings_api env) (cosine_distance env)
    (pdf_parse env) (split_text env) (count_tokens env) (store_rejects env).

Definition with_embeddings
    (emb : list Request -> embed_input -> embeddings_reply) (env : Env) : Env :=
  mkEnv (OPENAI_API_KEY env) (chat_api env) emb (cosine_distance env)
    (pdf_parse env) (split_text env) (count_tokens env) (store_rejects env).

Definition empty_world : World := mkWorld [] [] [].

Definition english_query : string :=
  "What are the differences between plan A and plan B?".

Definition chinese_query : string := "方案A和方案B的区别是什么".

(** A provider that answers the decomposition request with two numbered
    sub-questions and refuses every other request. *)
Definition decomposing_chat (_ : list Request) (prompt : ChatPrompt) : chat_reply :=
  match prompt with
  | DecompositionPrompt _ =>
      ChatContent (Some ("1. 方案A是什么" ++ JS.LF ++ "2. 方案B是什么")%string)
  | _ => ChatNotOk 503
  end.

(** A provider whose every stage succeeds: the normalization returns the
    question unchanged, the expansion appends related terms. *)
Definition echoing_chat (_ : list Request) (prompt : ChatPrompt) : chat_reply :=
  match prompt with
  | NormalizationPrompt q => ChatContent (Some q)
  | ExpansionPrompt q => ChatContent (Some (q ++ " distinction, comparison")%string)
  | DecompositionPrompt _ =>
      ChatContent (Some ("1. What is plan A?" ++ JS.LF ++ "2. What is plan B?")%string)
  | AnswerPrompt _ _ _ => ChatContent (Some "answer")
  end.

(** An embedding model of dimension 3 behind a rate limit: batch requests
    are refused, the single request for "second" is refused too. *)
Definition small_model (_ : list Request) (input : embed_input) : embeddings_reply :=
  match input with
  | InputBatch _ => EmbNotOk "429" "rate limited"
  | InputText text =>
      if String.eqb text "second" then EmbNotOk "429" "rate limited"
      else EmbBody (Some [Some [1; 0; 0]])
  end.

(** A PDF whose text splits into the chunks "first" and "second". *)
Definition two_chunks (env : Env) : Env :=
  mkEnv (OPENAI_API_KEY env) (chat_api env) (embeddings_api env) (cosine_distance env)
    (fun _ => Return ("first second", 1%Z)) (fun _ => Return ["first"; "second"])
    (count_tokens env) (store_rejects env).

Definition small_model_env : Env := with_embeddings small_model offline.

Definition with_store (rejects : list Request -> Write -> option string) (env : Env)
  : Env :=
  mkEnv (OPENAI_API_KEY env) (chat_api env) (embeddings_api env) (cosine_distance env)
    (pdf_parse env) (split_text env) (count_tokens env) rejects.

(** The check a vector store makes on [$5::vector(dimension)]: a vector of
    another length is refused. *)
Definition checks_dimension (_ : list Request) (wr : Write) : option string :=
  match wr with
  | InsertChunkRaw row dimension =>
      match chunk_embedding row with
      | Some v =>
          if (length v =? dimension)%nat then None
          else Some "expected another number of dimensions"
      | None => None
      end
  | _ => None
  end.

(** A model of dimension 3 that answers the text "first" only. *)
Definition only_first (_ : list Request) (input : embed_input) : embeddings_reply :=
  match input with
  | InputBatch _ => EmbNotOk "429" "rate limited"
  | InputText text =>
      if String.eqb text "first" then EmbBody (Some [Some [1; 0; 0]])
      else EmbNotOk "429" "rate limited"
  end.

(** A PDF of seven chunks read through that model into that store. *)
Definition seven_chunks : Env :=
  {| OPENAI_API_KEY := "sk-or-test";
     chat_api := fun _ _ => ChatNotOk 503;
     embeddings_api := only_first;
     cosine_distance := fun _ _ => 1;
     pdf_parse := fun _ => Return ("first c2 c3 c4 c5 c6 c7", 1%Z);
     split_text := fun _ => Return ["first"; "c2"; "c3"; "c4"; "c5"; "c6"; "c7"];
     count_tokens := fun _ => 1%Z;
     store_rejects := checks_dimension |}.

(** A store that has lost its connection. *)
Definition unreachable_store (_ : list Request) (_ : Write) : option string :=
  Some "Can't reach database server".

(** A store that refuses the chunk with index 1. *)
Definition refuses_second (_ : list Request) (wr : Write) : option string :=
  match wr with
  | InsertChunkRaw row _ | InsertChunkOrm row =>
      if (chunk_index row =? 1)%Z then Some "duplicate key" else None
  | _ => None
  end.

Fixpoint dot (a b : vector) : Q :=
  match a, b with
  | x :: a', y :: b' => x * y + dot a' b'
  | _, _ => 0
  end.

(** A store and a provider for unit vectors of the plane: the distance of
    two unit vectors is one minus their inner product, and every text is
    embedded as the first unit vector. *)
Definition plane : Env :=
  {| OPENAI_API_KEY := "sk-or-test";
     chat_api := fun _ _ => ChatNotOk 503;
     embeddings_api := fun _ _ => EmbBody (Some [Some [1; 0]]);
     cosine_distance := fun a b => 1 - dot a b;
     pdf_parse := fun _ => Throw "ENOENT";
     split_text := fun _ => Return [];
     count_tokens := fun _ => 0%Z;
     store_rejects := fun _ _ => None |}.

Definition row (i : Z) (text : string) (embedding : option vector) : ChunkRow :=
  mkChunkRow ("chunk_doc_" ++ text) "doc" i text embedding 1 None "{}".

Definition ready_doc : PdfRow :=
  mkPdfRow "doc" "user" "a.pdf" "/uploads/a.pdf" "ready" 5 (Some 2%Z) None.

(** A ready document of five chunks, stored out of index order; the
    similarities to the first unit vector are 0, 1, 3/5, no embedding,
    and 4/5. *)
Definition library : World :=
  mkWorld []
    [ row 3 "d" (Some [0; 1]);
      row 0 "a" (Some [1; 0]);
      row 2 "c" (Some [3 # 5; 4 # 5]);
      row 4 "e" None;
      row 1 "b" (Some [4 # 5; 3 # 5]) ]
    [ready_doc].

(** A freshly uploaded document. *)
Definition uploaded : World :=
  mkWorld [] [] [mkPdfRow "doc" "user" "a.pdf" "/uploads/a.pdf" "processing" 0 None None].

End Samples.

(* ====================================================================== *)
(** * lib/log.js *)
(* ====================================================================== *)

Module Log.

(** [process.env.NODE_ENV] and [process.env.LOG_LEVEL], [None] when unset. *)
Record Config : Type := mkConfig {
  NODE_ENV : option string;
  LOG_LEVEL : option string
}.

(** [process.env.NODE_ENV === 'production'] *)
Definition IS_PRODUCTION (cfg : Config) : bool :=
  match NODE_ENV cfg with
  | Some v => String.eqb v "production"
  | None => false
  end.

(** [process.env.LOG_LEVEL || 'info'] *)
Definition level_name (cfg : Config) : string :=
  match LOG_LEVEL cfg with
  | Some v => if JS.truthy v then v else "info"
  | None => "info"
  end.

(** What reading a member of the object [LOG_LEVELS] gives: the number of an
    own key, a function or object inherited from [Object.prototype], or
    [undefined]. *)
Inductive member : Type :=
| Number (n : Z)
| Inherited
| Undefined.

Definition prototype_names : list string :=
  ["constructor"; "__defineGetter__"; "__defineSetter__"; "hasOwnProperty";
   "__lookupGetter__"; "__lookupSetter__"; "isPrototypeOf"; "propertyIsEnumerable";
   "toString"; "valueOf"; "__proto__"; "toLocaleString"].

(** [LOG_LEVELS[name]] *)
Definition LOG_LEVELS (name : string) : member :=
  if String.eqb name "debug" then Number 0
  else if String.eqb name "info" then Number 1
  else if String.eqb name "warn" then Number 2
  else if String.eqb name "error" then Number 3
  else if existsb (String.eqb name) prototype_names then Inherited
  else Undefined.

(** [LOG_LEVELS[LOG_LEVEL] || 1]: zero and [undefined] are falsy. *)
Definition currentLevel (cfg : Config) : member :=
  match LOG_LEVELS (level_name cfg) with
  | Number n => if (n =? 0)%Z then Number 1 else Number n
  | Inherited => Inherited
  | Undefined => Number 1
  end.

(** [currentLevel <= n]: a function or an object converts to NaN, which
    compares false. *)
Definition at_most (level : member) (n : Z) : bool :=
  match level with
  | Number m => (m <=? n)%Z
  | _ => false
  end.

Inductive Method : Type := debug | info | warn | error | log.

Inductive Console : Type := console_log | console_warn | console_error.

(** What a call of [log.method(...args)] prints: the console function used
    and the tag put before the arguments, or nothing. *)
Definition call (cfg : Config) (m : Method) : option (Console * option string) :=
  match m with
  | debug =>
      if at_most (currentLevel cfg) 0 && negb (IS_PRODUCTION cfg)
      then Some (console_log, Some "🔍 [DEBUG]") else None
  | info =>
      if at_most (currentLevel cfg) 1
      then Some (console_log, Some "ℹ️ [INFO]") else None
  | warn =>
      if at_most (currentLevel cfg) 2
      then Some (console_warn, Some "⚠️ [WARN]") else None
  | error => Some (console_error, Some "❌ [ERROR]")
  | log => if negb (IS_PRODUCTION cfg) then Some (console_log, None) else None
  end.

End Log.

(* ====================================================================== *)
(** * lib/rag/chunking.js: chunking by pages *)
(* ====================================================================== *)

Module Chunking.

(** The chunks of one text whose metadata may carry a page number. *)
Fixpoint number_with (pageNumber : option Z) (metadata : string)
    (tokens : string -> Z) (index : nat) (docs : list string) : list Upload.Chunk :=
  match docs with
  | [] => []
  | pageContent :: rest =>
      Upload.mkChunk index pageContent (tokens pageContent)
        (String.length pageContent) pageNumber metadata
      :: number_with pageNumber metadata tokens (S index) rest
  end.

(** [chunkText(text, metadata, options)], [pageNumber] being the member of
    that name of [metadata]. *)
Definition chunkText (env : Env) (text : string) (pageNumber : option Z)
    (metadata : string) : M World (list Upload.Chunk) :=
  if negb (JS.nonblank text) then ret []
  else
    try_catch
      (match split_text env text with
       | Throw e => throw e
       | Return docs =>
           ret (number_with pageNumber metadata (Embeddings.countTokens env) 0 docs)
       end)
      (fun e => throw ("文本分块失败: " ++ e)%string).






End Chunking.

(* ====================================================================== *)
(** * app/api/pdf/upload/route.js: the upload handler *)
(* ====================================================================== *)

Module UploadRoute.

(** The uploaded [File]. *)
Record File : Type := mkFile {
  file_name : string;
  file_type : string;
  file_size : Z;
  file_bytes : string
}.

(** What the handler does to the file system, to the store and to the
    background. *)
Inductive Effect : Type :=
| MkDir (path : string)
| WriteFile (path : string) (bytes : string)
| CreatePdf (row : PdfRow) (fileName : string) (size : Z)
| StartJob (pdfId filePath : string).

(** The host of the handler: the clock, [process.cwd()], the functions of
    [path], the identifier the store gives to a new row, and the failures of
    the file system and of the store ([Some message] for an error). *)
Record Host : Type := mkHost {
  now : string;                             (* [Date.now()] *)
  year : string;                            (* [getFullYear().toString()] *)
  month : string;                           (* [(getMonth() + 1).toString()] *)
  cwd : string;
  extname : string -> string;
  basename : string -> string -> string;
  join : list string -> string;
  new_id : list Effect -> string;
  mkdir_fails : list Effect -> string -> option string;
  writeFile_fails : list Effect -> string -> option string;
  create_fails : list Effect -> PdfRow -> option string
}.

Inductive Response : Type :=
| Rejected (httpStatus : nat) (error : string)          (* [success: false] *)
| Accepted (message : string) (data : PdfRow).          (* [success: true] *)

(** An operation of the host: it fails with an error, or its effect is
    added to the effects so far (most recent first). *)
Definition attempt (failure : option string) (e : Effect) : M (list Effect) unit :=
  fun effects =>
    match failure with
    | Some message => (Throw message, effects)
    | None => (Return tt, e :: effects)
    end.

Definition mkdir (host : Host) (path : string) : M (list Effect) unit :=
  fun effects => attempt (mkdir_fails host effects path) (MkDir path) effects.

Definition writeFile (host : Host) (path bytes : string) : M (list Effect) unit :=
  fun effects =>
    attempt (writeFile_fails host effects path) (WriteFile path bytes) effects.

(** [prisma.pDF.create({ data })]: the row with its new identifier and the
    defaults of the table. *)
Definition create (host : Host) (userId name fileName filePath : string) (size : Z)
  : M (list Effect) PdfRow :=
  fun effects =>
    let row := mkPdfRow (new_id host effects) userId name filePath "processing" 0
                 None None in
    match create_fails host effects row with
    | Some message => (Throw message, effects)
    | None => (Return row, CreatePdf row fileName size :: effects)
    end.

(** [processPdfInBackground(pdfRecord.id, filePath).catch(...)]: the job is
    started and not awaited. *)
Definition start_job (pdfId filePath : string) : M (list Effect) unit :=
  fun effects => (Return tt, StartJob pdfId filePath :: effects).

Definition MAX_SIZE : Z := 20 * 1024 * 1024.

(** [POST], for the session returned by [auth()] and the file of the form. *)
Definition POST (host : Host) (session : option ChatPdf.Session) (file : option File)
  : M (list Effect) Response :=
  try_catch
    (match session with
     | None => ret (Rejected 401 "未登录，请先登录")
     | Some s =>
         if negb (JS.truthy (ChatPdf.user_id s)) then
           ret (Rejected 401 "未登录，请先登录")
         else
           match file with
           | None => ret (Rejected 400 "未选择文件")
           | Some f =>
               if negb (String.eqb (file_type f) "application/pdf") then
                 ret (Rejected 400 "仅支持 PDF 文件")
               else if (MAX_SIZE <? file_size f)%Z then
                 ret (Rejected 400 "文件大小不能超过 20MB")
               else
                 let originalName := file_name f in
                 let ext := extname host originalName in
                 let baseName := basename host originalName ext in
                 let fileName := (baseName ++ "_" ++ now host ++ ext)%string in
                 let uploadDir :=
                   join host [cwd host; "public"; "uploads"; "pdfs";
                              year host; month host] in
                 mkdir host uploadDir ;;;
                 let filePath := join host [uploadDir; fileName] in
                 writeFile host filePath (file_bytes f) ;;;
                 let fileUrl :=
                   ("/uploads/pdfs/" ++ year host ++ "/" ++ month host ++ "/"
                      ++ fileName)%string in
                 pdfRecord <- create host (ChatPdf.user_id s) originalName fileName
                                fileUrl (file_size f) ;;
                 start_job (pdf_id pdfRecord) filePath ;;;
                 ret (Accepted "上传成功，正在处理中..." pdfRecord)
           end
     end)
    (fun e => ret (Rejected 500 ("上传失败：" ++ e)%string)).

End UploadRoute.

(* ====================================================================== *)
(** * Vocabulary and samples of the further properties *)
(* ====================================================================== *)

Module Props.

Definition is_embedding_request (r : Request) : bool :=
  match r with Embeddings _ => true | _ => false end.

Definition is_chat_request (r : Request) : bool :=
  match r with ChatCompletion _ => true | _ => false end.

Definition is_answer_request (r : Request) : bool :=
  match r with ChatCompletion (AnswerPrompt _ _ _) => true | _ => false end.

(** The provider answers every request, single or batch, with the vector
    [f text] for each text. *)
Definition embeds_with (env : Env) (f : string -> vector) : Prop :=
  forall history,
    (forall batch,
        embeddings_api env history (InputBatch batch)
        = EmbBody (Some (map (fun t => Some (f t)) batch)))
    /\ (forall text,
          embeddings_api env history (InputText text) = EmbBody (Some [Some (f text)])).

(** The provider never answers with a body. *)
Definition embeddings_down (env : Env) : Prop :=
  forall history input,
    match embeddings_api env history input with
    | EmbBody _ => False
    | _ => True
    end.

(** The batches of [texts]: consecutive slices of [batchSize] texts. *)
Fixpoint batches (fuel : nat) (batchSize : nat) (texts : list string)
  : list (list string) :=
  match fuel with
  | O => []
  | S fuel' =>
      match texts with
      | [] => []
      | _ => firstn batchSize texts :: batches fuel' batchSize (skipn batchSize texts)
      end
  end.

Definition is_fallback_read (r : Request) : bool :=
  match r with FindChunks _ _ => true | _ => false end.

Definition is_normalization_request (r : Request) : bool :=
  match r with ChatCompletion (NormalizationPrompt _) => true | _ => false end.

(** A row of the join that the statement of the search has to consider:
    it has an embedding, is in scope and is at or above the threshold. *)
Definition qualifies (env : Env) (w : World) (queryVector : vector)
    (pdfId : option string) (threshold : Q) (c : Retrieval.Candidate) : Prop :=
  In c (Retrieval.candidates env w queryVector)
  /\ Retrieval.in_scope pdfId c = true
  /\ Retrieval.above threshold c = true.

(** The inserts of chunk rows among the requests. *)
Definition is_chunk_insert (r : Request) : bool :=
  match r with
  | StoreWrite (InsertChunkRaw _ _) => true
  | StoreWrite (InsertChunkOrm _) => true
  | _ => false
  end.

(** A chunk row as the job of [pdfId] writes it: it belongs to that
    document, and its embedding is null or a non-empty vector. *)
Definition row_of_job (pdfId : string) (r : ChunkRow) : Prop :=
  chunk_pdf_id r = pdfId /\ chunk_embedding r <> Some [].

(** What the job may change of a document: nothing of another document,
    and neither the owner, the name nor the path of its own. *)
Definition confined_to (pdfId : string) (p p' : PdfRow) : Prop :=
  pdf_id p' = pdf_id p
  /\ pdf_userId p' = pdf_userId p
  /\ pdf_name p' = pdf_name p
  /\ pdf_filePath p' = pdf_filePath p
  /\ (pdf_id p <> pdfId -> p' = p).

(** The error of a rounding. *)
Definition rounding_error (x : Q) : Q := Qabs (Retrieval.toFixed4 x - x).

End Props.

Module Cases.

(** A provider that embeds a text by its length. *)
Definition by_length (text : string) : vector := [inject_Z (Z.of_nat (String.length text))].

Definition length_model : Env :=
  {| OPENAI_API_KEY := "sk-or-test";
     chat_api := fun _ _ => ChatNotOk 503;
     embeddings_api :=
       fun _ input =>
         match input with
         | InputBatch batch => EmbBody (Some (map (fun t => Some (by_length t)) batch))
         | InputText text => EmbBody (Some [Some (by_length text)])
         end;
     cosine_distance := fun _ _ => 1;
     pdf_parse := fun _ => Throw "ENOENT";
     split_text := fun _ => Return [];
     count_tokens := fun _ => 0%Z;
     store_rejects := fun _ _ => None |}.

Definition no_credential (env : Env) : Env :=
  mkEnv "" (chat_api env) (embeddings_api env) (cosine_distance env)
    (pdf_parse env) (split_text env) (count_tokens env) (store_rejects env).

(** A store that accepts the first write it sees and loses its connection
    afterwards. *)
Definition accepts_first_only (history : list Request) (_ : Write) : option string :=
  match history with
  | [] => None
  | _ => Some "connection lost"
  end.

(** A scanned PDF of twelve pages: its text is blank. *)
Definition scanned (env : Env) : Env :=
  mkEnv (OPENAI_API_KEY env) (chat_api env) (embeddings_api env) (cosine_distance env)
    (fun _ => Return ("   ", 12%Z)) (split_text env) (count_tokens env)
    (store_rejects env).

Definition user : ChatPdf.Session := ChatPdf.mkSession "user" "user@example.com".

Definition question : ChatPdf.Body :=
  ChatPdf.mkBody (Some "What is the refund policy?") (Some "doc").

(** A host whose file system and store work. *)
Definition host : UploadRoute.Host :=
  {| UploadRoute.now := "1700000000000";
     UploadRoute.year := "2025";
     UploadRoute.month := "11";
     UploadRoute.cwd := "/app";
     UploadRoute.extname := fun _ => ".pdf";
     UploadRoute.basename := fun _ _ => "report";
     UploadRoute.join := fun parts => String.concat "/" parts;
     UploadRoute.new_id := fun _ => "pdf_1";
     UploadRoute.mkdir_fails := fun _ _ => None;
     UploadRoute.writeFile_fails := fun _ _ => None;
     UploadRoute.create_fails := fun _ _ => None |}.

Definition report : UploadRoute.File :=
  UploadRoute.mkFile "report.pdf" "application/pdf" 1024 "%PDF-1.7".

End Cases.

Import ChatPdf Spec.
Arguments isCompoundQuery : simpl never.
Arguments trimmed : simpl never.
Arguments merge_subQueries : simpl never.


(* ====================================================================== *)
(** * The query rewriter *)
(* ====================================================================== *)

Ltac unfold_rewrite :=
  unfold rewriteQuery, try_catch, rewrite_try, rewrite_catch, normalization_step,
    decomposition_step, expansion_step, bind, lift, update, modify, gets, fetch_chat,
    throw, ret, record, initial_result;
  cbn.

Ltac case_reply2 env :=
  match goal with
  | |- context [chat_api env (?a :: ?l) ?p] =>
      let E := fresh "E2" in destruct (chat_api env (a :: l) p) eqn:E; cbn
  end.

(** The three ways [rewriteQuery] can run: the normalization call throws;
    the call of step 2 throws; no call throws. *)
Lemma rewriteQuery_cases (env : Env) (q : string) (w : World) :
  let r1 := reply1 env w q in
  let r2 := reply2 env w q in
  let qa := analysed q r1 in
  exists r w',
    rewriteQuery env q w = (Return r, w')
    /\ originalQuery r = q
    /\ document_chunks w' = document_chunks w
    /\ pdfs w' = pdfs w
    /\ ((exists e, r1 = ChatRejected e
           /\ queryType r = fallback /\ error r = Some e /\ finalQuery r = q
           /\ log w' = ChatCompletion (NormalizationPrompt q) :: log w)
        \/ (~ stage_threw r1
            /\ log w' = ChatCompletion (branch_prompt qa)
                          :: ChatCompletion (NormalizationPrompt q) :: log w
            /\ ((exists e, r2 = ChatRejected e
                   /\ queryType r = fallback /\ error r = Some e /\ finalQuery r = qa)
                \/ (~ stage_threw r2
                    /\ error r = None
                    /\ queryType r
                       = (if isCompoundQuery qa then decomposition else expansion)
                    /\ finalQuery r
                       = match reply_text r2 with
                         | Some text =>
                             if isCompoundQuery qa then merge_subQueries text else text
                         | None => qa
                         end
                    /\ (forall label,
                          failure_label (isCompoundQuery qa) r2 = Some label ->
                          In label (steps r)))))).
Proof.
  unfold reply2, reply1, analysed, branch_prompt, reply_text, stage_threw, failure_label.
  unfold_rewrite.
  destruct (chat_api env (log w) (NormalizationPrompt q)) as [m1|st1|c1] eqn:E1; cbn.
  - do 2 eexists. repeat split. left. eexists. repeat split.
  - destruct (isCompoundQuery q) eqn:IC; cbn; case_reply2 env;
      try (destruct (trimmed content) eqn:T2; cbn);
      do 2 eexists; (repeat split); right; (split; [tauto|]); (split; [reflexivity|]);
      solve [ left; eexists; repeat split
            | right; rewrite ?IC, ?T2; repeat split;
              try tauto; intros ? Hl; inversion Hl; cbn; tauto ].
  - destruct (trimmed c1) as [n|] eqn:T1; cbn.
    + destruct (isCompoundQuery n) eqn:IC; cbn; case_reply2 env;
        try (destruct (trimmed content) eqn:T2; cbn);
        do 2 eexists; (repeat split); right; (split; [tauto|]); (split; [reflexivity|]);
        solve [ left; eexists; repeat split
              | right; rewrite ?IC, ?T2; repeat split;
              try tauto; intros ? Hl; inversion Hl; cbn; tauto ].
    + destruct (isCompoundQuery q) eqn:IC; cbn; case_reply2 env;
        try (destruct (trimmed content) eqn:T2; cbn);
        do 2 eexists; (repeat split); right; (split; [tauto|]); (split; [reflexivity|]);
        solve [ left; eexists; repeat split
              | right; rewrite ?IC, ?T2; repeat split;
              try tauto; intros ? Hl; inversion Hl; cbn; tauto ].
Qed.

(* ====================================================================== *)
(** * Facts on [trim] *)
(* ====================================================================== *)

Section StringFacts.

Local Open Scope string_scope.


Lemma append_assoc (a b c : string) : (a ++ b) ++ c = a ++ (b ++ c).
Proof. induction a; cbn; congruence. Qed.

Lemma length_append (a b : string) :
  String.length (a ++ b) = (String.length a + String.length b)%nat.
Proof. induction a; cbn; congruence. Qed.






Lemma drop_ws_front : drops_front JS.drop_ws.
Proof.
  intros s r. unfold JS.drop_ws.
  destruct s as [|a [|b [|c s]]];
    repeat match goal with
           | |- context [if ?b then _ else _] => destruct b
           end;
    intros H; inversion H; subst.
  all: first [ exists (String a ""); cbn; split; [reflexivity|lia]
             | exists (String a (String b "")); cbn; split; [reflexivity|lia]
             | exists (String a (String b (String c ""))); cbn; split; [reflexivity|lia] ].
Qed.



Lemma drop_while_suffix (drop : string -> option string) :
  drops_front drop ->
  forall fuel s, exists p, s = p ++ JS.drop_while drop fuel s.
Proof.
  intros Hd. induction fuel as [|fuel IH]; intros s; cbn.
  - now exists "".
  - destruct (drop s) as [r|] eqn:E; [|now exists ""].
    destruct (Hd _ _ E) as (p & -> & _). destruct (IH r) as (p' & Hp').
    exists (p ++ p'). rewrite append_assoc. congruence.
Qed.




Lemma drop_while_shorter (drop : string -> option string) :
  drops_front drop ->
  forall fuel s, (String.length (JS.drop_while drop fuel s) <= String.length s)%nat.
Proof.
  intros Hd fuel s. destruct (drop_while_suffix drop Hd fuel s) as (p & Hp).
  rewrite Hp at 2. rewrite length_append. lia.
Qed.

Lemma skip_digits_shorter (s : string) :
  (String.length (JS.skip_digits s) <= String.length s)%nat.
Proof.
  induction s as [|c s IH]; cbn; [lia|].
  destruct (JS.is_digit c); cbn; lia.
Qed.

(** A match of the numbering pattern consumes at least two characters. *)
Lemma match_numbering_shorter (s r : string) :
  JS.match_numbering s = Some r -> (String.length r < String.length s)%nat.
Proof.
  unfold JS.match_numbering. destruct s as [|c s]; [discriminate|].
  destruct (JS.is_digit c); [|discriminate].
  pose proof (skip_digits_shorter s) as Hs.
  destruct (JS.skip_digits s) as [|d r']; [discriminate|].
  destruct (JS.code d =? 46)%nat; [|discriminate].
  intros H. inversion H; subst.
  pose proof (drop_while_shorter _ drop_ws_front (String.length r') r') as Ht.
  unfold JS.trimStart. cbn in *. lia.
Qed.

(** The fuel of [strip_numbering] is enough: any larger amount gives the
    same result. *)
Lemma strip_numbering_fuel (fuel1 fuel2 : nat) (s : string) :
  (String.length s <= fuel1)%nat -> (String.length s <= fuel2)%nat ->
  JS.strip_numbering_from fuel1 s = JS.strip_numbering_from fuel2 s.
Proof.
  revert fuel2 s. induction fuel1 as [|fuel1 IH]; intros fuel2 s H1 H2.
  - destruct s; [|cbn in H1; lia]. destruct fuel2; reflexivity.
  - destruct fuel2 as [|fuel2].
    + destruct s; [reflexivity|cbn in H2; lia].
    + cbn. destruct (JS.match_numbering s) as [r|] eqn:E.
      * apply match_numbering_shorter in E. apply IH; lia.
      * destruct s as [|c s]; [reflexivity|]. f_equal. apply IH; cbn in *; lia.
Qed.


End StringFacts.

(* ====================================================================== *)
(** * Properties of the query rewriter *)
(* ====================================================================== *)

(** C10. [rewriteQuery] never returns the query type [original]: a run in
    which no call throws ends with [decomposition] or [expansion], chosen by
    the marker test, also when the call of step 2 fails (the failure is then
    only a label in [steps], and no error is recorded); a run in which a call
    throws ends with [fallback].  So the returned type is one of
    [decomposition], [expansion] and [fallback]. *)
Theorem rewriteQuery_never_original (env : Env) (q : string) (w : World) :
  let r1 := reply1 env w q in
  let r2 := reply2 env w q in
  let qa := analysed q r1 in
  exists r w',
    rewriteQuery env q w = (Return r, w')
    /\ queryType r <> original
    /\ In (queryType r) [decomposition; expansion; fallback]
    /\ (~ stage_threw r1 -> ~ stage_threw r2 ->
        queryType r = (if isCompoundQuery qa then decomposition else expansion)
        /\ error r = None
        /\ (forall label, failure_label (isCompoundQuery qa) r2 = Some label ->
                          In label (steps r)))
    /\ (stage_threw r1 \/ (~ stage_threw r1 /\ stage_threw r2) ->
        queryType r = fallback).
Proof.
  intros r1 r2 qa.
  destruct (rewriteQuery_cases env q w) as (r & w' & Hrun & _ & _ & _ & Hcases).
  fold r1 r2 qa in Hcases.
  exists r, w'. split; [exact Hrun|].
  destruct Hcases as [(e & H1 & Ht & He & Hf & _)
                     | (Hn1 & _ & [(e & H2 & Ht & He & Hf)
                                  | (Hn2 & He & Ht & Hf & Hl)])].
  - rewrite Ht. split; [discriminate|]. split; [cbn; tauto|]. split; [|reflexivity].
    intros Hno. exfalso. apply Hno. rewrite H1. exact I.
  - rewrite Ht. split; [discriminate|]. split; [cbn; tauto|]. split; [|reflexivity].
    intros _ Hno. exfalso. apply Hno. rewrite H2. exact I.
  - rewrite Ht. split; [destruct (isCompoundQuery qa); discriminate|].
    split; [destruct (isCompoundQuery qa); cbn; tauto|].
    split; [intros _ _; repeat split; assumption|].
    intros [Hyes|[_ Hyes]]; contradiction.
Qed.


Lemma isCompoundQuery_marker (marker q : string) :
  In marker compound_markers -> JS.includes marker q = true -> isCompoundQuery q = true.
Proof.
  intros Hin Hinc. unfold isCompoundQuery. apply existsb_exists. now exists marker.
Qed.

(** C7, as stated, fails: the detector knows the Chinese markers only.  The
    English question contains "differences" and "and", yet the detector does
    not fire and the query type is [expansion], both when every stage call
    fails and when every stage call succeeds. *)
Lemma english_markers_not_detected :
  isCompoundQuery Samples.english_query = false
  /\ (exists r w',
        rewriteQuery Samples.offline Samples.english_query Samples.empty_world
        = (Return r, w')
        /\ queryType r = expansion /\ queryType r <> decomposition)
  /\ (exists r w',
        rewriteQuery (Samples.with_chat Samples.echoing_chat Samples.offline)
          Samples.english_query Samples.empty_world
        = (Return r, w')
        /\ queryType r = expansion /\ queryType r <> decomposition).
Proof.
  split; [reflexivity|].
  split; eexists; eexists; (split; [vm_compute; reflexivity|]);
    (split; [reflexivity|discriminate]).
Qed.

(** C7, amended.  When the query inspected by step 2 (the normalized query,
    or the original one when the normalization gave nothing) contains one of
    the markers 和, 与, 或者, 以及, 区别, 对比, 比较 and no stage call throws, the
    detector fires, the decomposition request is sent and the query type is
    [decomposition]; when that request returns non-empty sub-questions the
    final query is these with the numbering stripped and the line breaks
    turned into spaces, and otherwise it stays the inspected query. *)
Theorem compound_marker_triggers_decomposition
    (env : Env) (q : string) (w : World) (marker : string) :
  let r1 := reply1 env w q in
  let r2 := reply2 env w q in
  let qa := analysed q r1 in
  In marker compound_markers ->
  JS.includes marker qa = true ->
  ~ stage_threw r1 ->
  ~ stage_threw r2 ->
  exists r w',
    rewriteQuery env q w = (Return r, w')
    /\ isCompoundQuery qa = true
    /\ queryType r = decomposition
    /\ In (ChatCompletion (DecompositionPrompt qa)) (log w')
    /\ (forall sub, reply_text r2 = Some sub ->
                    finalQuery r = merge_subQueries sub)
    /\ (reply_text r2 = None -> finalQuery r = qa).
Proof.
  intros r1 r2 qa Hin Hinc Hn1 Hn2.
  pose proof (isCompoundQuery_marker marker qa Hin Hinc) as Hc.
  destruct (rewriteQuery_cases env q w) as (r & w' & Hrun & _ & _ & _ & Hcases).
  fold r1 r2 qa in Hcases.
  exists r, w'. split; [exact Hrun|]. split; [exact Hc|].
  destruct Hcases as [(e & H1 & _)
                     | (_ & Hlog & [(e & H2 & _) | (_ & _ & Ht & Hf & _)])].
  - exfalso. apply Hn1. rewrite H1. exact I.
  - exfalso. apply Hn2. rewrite H2. exact I.
  - rewrite Hc in Ht, Hf. split; [exact Ht|]. split.
    + rewrite Hlog. unfold branch_prompt. rewrite Hc. now left.
    + split; [intros sub Hsub|intros Hnone]; rewrite Hf.
      * now rewrite Hsub.
      * now rewrite Hnone.
Qed.

Lemma compound_marker_triggers_decomposition_witness :
  exists r w',
    rewriteQuery (Samples.with_chat Samples.decomposing_chat Samples.offline)
      Samples.chinese_query Samples.empty_world = (Return r, w')
    /\ queryType r = decomposition
    /\ finalQuery r = "方案A是什么 方案B是什么".
Proof.
  destruct (compound_marker_triggers_decomposition
              (Samples.with_chat Samples.decomposing_chat Samples.offline)
              Samples.chinese_query Samples.empty_world "和")
    as (r & w' & Hrun & _ & Ht & _ & Hsub & _).
  - cbn. tauto.
  - reflexivity.
  - cbn. tauto.
  - cbn. tauto.
  - exists r, w'. split; [exact Hrun|]. split; [exact Ht|].
    exact (Hsub ("1. 方案A是什么" ++ JS.LF ++ "2. 方案B是什么")%string eq_refl).
Defined.

(* ====================================================================== *)
(** * Properties of the embedder *)
(* ====================================================================== *)

Lemma Forall2_by_position {A B} (P : A -> B -> Prop) (l : list A) (l' : list B) :
  length l' = length l ->
  (forall i a b, nth_error l i = Some a -> nth_error l' i = Some b -> P a b) ->
  Forall2 P l l'.
Proof.
  revert l'. induction l as [|a l IH]; intros [|b l'] Hlen Hnth; try discriminate.
  - constructor.
  - constructor.
    + apply (Hnth 0%nat); reflexivity.
    + apply IH; [cbn in Hlen; lia|].
      intros i x y Hx Hy. apply (Hnth (S i)); assumption.
Qed.

Lemma firstn_plus {A} (i b : nat) (l : list A) :
  firstn (i + b) l = firstn i l ++ firstn b (skipn i l).
Proof.
  revert l. induction i as [|i IH]; intros l; [reflexivity|].
  destruct l as [|x l]; cbn.
  - now rewrite firstn_nil.
  - now rewrite IH.
Qed.

(** [embedText] returns only what the provider answered for that text. *)
Lemma embedText_answer (env : Env) (text : string) (w w' : World) (v : vector) :
  Embeddings.embedText env text w = (Return v, w') ->
  provider_answer env text (Some v).
Proof.
  unfold Embeddings.embedText.
  destruct (negb (JS.nonblank text)); [discriminate|].
  destruct (negb (JS.truthy (OPENAI_API_KEY env))); [discriminate|].
  unfold try_catch, bind, Embeddings.fetch_embeddings, throw, ret.
  destruct (embeddings_api env (log w) (InputText text)) as [m|st b|[[|[e|] rest]|]] eqn:E;
    try discriminate.
  intros H. inversion H; subst. right. now exists (log w), rest, v.
Qed.

Lemma retry_each_answers (env : Env) (batch : list string) (w : World) :
  exists vs w',
    Embeddings.retry_each env batch w = (Return vs, w') /\ Forall2 (answers env) batch vs.
Proof.
  revert w. induction batch as [|text rest IH]; intros w; cbn.
  - do 2 eexists. split; [reflexivity|constructor].
  - unfold bind, try_catch at 1.
    destruct (Embeddings.embedText env text w) as [[v|e] w1] eqn:E; cbn;
      destruct (IH w1) as (vs & w' & -> & Hvs); do 2 eexists;
      (split; [reflexivity|]); constructor; try assumption.
    + right. eapply embedText_answer, E.
    + now left.
Qed.

Lemma embed_one_batch_answers (env : Env) (batch : list string) (w : World) :
  exists vs w',
    Embeddings.embed_one_batch env batch w = (Return vs, w')
    /\ Forall2 (answers env) batch vs.
Proof.
  unfold Embeddings.embed_one_batch, try_catch, bind, Embeddings.fetch_embeddings,
    throw, ret.
  destruct (embeddings_api env (log w) (InputBatch batch)) as [m|st b|[items|]] eqn:E;
    try apply retry_each_answers.
  destruct (length items =? length batch)%nat eqn:L; [|apply retry_each_answers].
  apply Nat.eqb_eq in L.
  do 2 eexists. split; [reflexivity|].
  apply Forall2_by_position; [exact L|].
  intros i text v Ht Hv. right. left. now exists (log w), batch, items, i.
Qed.

(** The loop of [embedBatch], started with answers for the first [i] texts
    and fuel for the rest, ends with answers for all texts. *)
Lemma batch_loop_answers (env : Env) (batchSize : positive) (texts : list string) :
  forall fuel i results w,
    (length texts - i <= fuel)%nat ->
    Forall2 (answers env) (firstn i texts) results ->
    exists vs w',
      Embeddings.batch_loop env fuel batchSize texts i results w = (Return vs, w')
      /\ Forall2 (answers env) texts vs.
Proof.
  induction fuel as [|fuel IH]; intros i results w Hfuel Hinv.
  - cbn. destruct (length texts <=? i)%nat eqn:L.
    + apply Nat.leb_le in L. rewrite firstn_all2 in Hinv by exact L.
      do 2 eexists. split; [reflexivity|exact Hinv].
    + apply Nat.leb_gt in L. lia.
  - cbn. destruct (length texts <=? i)%nat eqn:L.
    + apply Nat.leb_le in L. rewrite firstn_all2 in Hinv by exact L.
      do 2 eexists. split; [reflexivity|exact Hinv].
    + unfold bind.
      destruct (embed_one_batch_answers env
                  (firstn (Pos.to_nat batchSize) (skipn i texts)) w)
        as (vs & w1 & -> & Hvs).
      apply IH; [lia|].
      rewrite firstn_plus. now apply Forall2_app.
Qed.

Lemma embedBatch_answers
    (env : Env) (texts : list string) (batchSize : positive) (w : World) :
  JS.truthy (OPENAI_API_KEY env) = true ->
  exists vs w',
    Embeddings.embedBatch env texts batchSize w = (Return vs, w')
    /\ Forall2 (answers env) texts vs.
Proof.
  intros Hkey. unfold Embeddings.embedBatch.
  destruct texts as [|text texts].
  - do 2 eexists. split; [reflexivity|constructor].
  - rewrite Hkey. cbn [negb].
    apply batch_loop_answers; [lia|constructor].
Qed.



(** C5 fails on the code: the zero vector has 1024 entries whatever the
    model.  With a model of dimension 3, a refused batch and a refused retry
    of the second text, one result of [embedBatch] holds a vector of 3
    entries and a zero vector of 1024 entries; the ingestion job then takes
    3 as the dimension and sends the zero vector under the cast
    [vector(3)]. *)
Theorem zero_vector_ignores_model_dimension :
  (exists vs w',
      Embeddings.embedBatch Samples.small_model_env ["first"; "second"]
        Embeddings.default_batchSize Samples.empty_world = (Return vs, w')
      /\ map (option_map (@length Q)) vs = [Some 3%nat; Some 1024%nat]
      /\ Upload.actualDimension vs = 3%nat)
  /\ (exists w' row,
        Upload.processPdfInBackground (Samples.two_chunks Samples.small_model_env)
          "doc" "/tmp/a.pdf" Samples.uploaded = (Return tt, w')
        /\ In (StoreWrite (InsertChunkRaw row 3)) (log w')
        /\ option_map (@length Q) (chunk_embedding row) = Some 1024%nat).
Proof.
  split.
  - eexists. eexists. split; [vm_compute; reflexivity|]. split; reflexivity.
  - eexists. eexists. split; [vm_compute; reflexivity|].
    split; [right; left; reflexivity|reflexivity].
Qed.

(* ====================================================================== *)
(** * Ordered reads of the store *)
(* ====================================================================== *)

Section OrderBy.

Context {A : Type} (leb : A -> A -> bool).
Hypothesis leb_total : forall a b, leb a b = false -> leb b a = true.
Hypothesis leb_trans : forall a b c, leb a b = true -> leb b c = true -> leb a c = true.

Lemma in_insert_by (x y : A) (l : list A) :
  In y (insert_by leb x l) <-> y = x \/ In y l.
Proof using Type.
  induction l as [|z l IH]; cbn.
  - intuition.
  - destruct (leb x z); cbn; rewrite ?IH; intuition.
Qed.

Lemma in_order_by (y : A) (l : list A) : In y (order_by leb l) <-> In y l.
Proof using Type.
  induction l as [|x l IH]; cbn; [tauto|].
  rewrite in_insert_by, IH. intuition.
Qed.

Lemma insert_by_sorted (x : A) (l : list A) :
  StronglySorted (fun a b => leb a b = true) l ->
  StronglySorted (fun a b => leb a b = true) (insert_by leb x l).
Proof using leb_total leb_trans.
  induction 1 as [|y l Hs IH Hy]; cbn.
  - repeat constructor.
  - destruct (leb x y) eqn:E.
    + constructor; [now constructor|].
      constructor; [exact E|].
      revert Hy. apply Forall_impl. intros z. now apply leb_trans.
    + constructor; [exact IH|].
      apply Forall_forall. intros z Hz. apply in_insert_by in Hz.
      destruct Hz as [->|Hz]; [now apply leb_total|].
      now apply (proj1 (Forall_forall _ _) Hy).
Qed.

Lemma order_by_sorted (l : list A) :
  StronglySorted (fun a b => leb a b = true) (order_by leb l).
Proof using leb_total leb_trans.
  induction l as [|x l IH]; cbn; [constructor|now apply insert_by_sorted].
Qed.

End OrderBy.

Lemma in_firstn {A} (n : nat) (l : list A) (x : A) : In x (firstn n l) -> In x l.
Proof.
  intros H. rewrite <- (firstn_skipn n l). apply in_or_app. now left.
Qed.

Lemma StronglySorted_firstn {A} (R : A -> A -> Prop) (n : nat) (l : list A) :
  StronglySorted R l -> StronglySorted R (firstn n l).
Proof.
  revert n. induction l as [|x l IH]; intros [|n] Hs; cbn; try constructor.
  - apply IH. now inversion Hs.
  - inversion Hs; subst. apply Forall_forall. intros y Hy.
    apply (proj1 (Forall_forall _ _) H2). eapply in_firstn, Hy.
Qed.

Lemma StronglySorted_map {A B} (R : A -> A -> Prop) (R' : B -> B -> Prop)
    (f : A -> B) (l : list A) :
  (forall a b, R a b -> R' (f a) (f b)) ->
  StronglySorted R l -> StronglySorted R' (map f l).
Proof.
  intros HR. induction 1 as [|x l Hs IH Hx]; cbn; constructor; [exact IH|].
  apply Forall_forall. intros y Hy. apply in_map_iff in Hy.
  destruct Hy as (a & <- & Ha). apply HR. now apply (proj1 (Forall_forall _ _) Hx).
Qed.


(** ** Rounding to four decimals is monotone *)






(** A multiple of 1/10000 is its own rounding. *)
Lemma toFixed4_grid (k : Z) : Retrieval.toFixed4 (k # 10000) == k # 10000.
Proof.
  unfold Retrieval.toFixed4.
  destruct (Qle_bool 0 (k # 10000)) eqn:E.
  - apply Qle_bool_iff in E. unfold Qle in E. cbn in E.
    assert (Hf : Qfloor ((k # 10000) * 10000 + (1 # 2)) = k).
    { unfold Qfloor, Qplus, Qmult. cbn.
      symmetry. apply (Z.div_unique _ _ k 10000); lia. }
    rewrite Hf. reflexivity.
  - assert (Hk : (k < 0)%Z).
    { destruct (Z.ltb_spec k 0) as [H|H]; [exact H|].
      assert (Hle : 0 <= k # 10000) by (unfold Qle; cbn; lia).
      apply Qle_bool_iff in Hle. congruence. }
    assert (Hf : Qfloor (- (k # 10000) * 10000 + (1 # 2)) = (- k)%Z).
    { unfold Qfloor, Qplus, Qmult, Qopp. cbn.
      symmetry. apply (Z.div_unique _ _ (- k) 10000); lia. }
    rewrite Hf. unfold Qeq. cbn. lia.
Qed.

(* ====================================================================== *)
(** * Properties of the similarity search *)
(* ====================================================================== *)

Lemma closer_total (a b : Retrieval.Candidate) :
  Retrieval.closer a b = false -> Retrieval.closer b a = true.
Proof.
  unfold Retrieval.closer. intros H. apply Qle_bool_iff, Qlt_le_weak, Qnot_le_lt.
  intros Hle. apply Qle_bool_iff in Hle. congruence.
Qed.

Lemma closer_trans (a b c : Retrieval.Candidate) :
  Retrieval.closer a b = true -> Retrieval.closer b c = true ->
  Retrieval.closer a c = true.
Proof.
  unfold Retrieval.closer. rewrite !Qle_bool_iff. apply Qle_trans.
Qed.

Lemma closer_similarity (a b : Retrieval.Candidate) :
  Retrieval.closer a b = true -> Retrieval.similarity b <= Retrieval.similarity a.
Proof.
  unfold Retrieval.closer, Retrieval.similarity, Qminus. rewrite Qle_bool_iff.
  intros H. apply Qplus_le_r. now apply Qopp_le_compat.
Qed.


(** [embedText] reads no table and writes none. *)
Lemma embedText_world (env : Env) (text : string) (w w' : World) (o : outcome vector) :
  Embeddings.embedText env text w = (o, w') ->
  document_chunks w' = document_chunks w
  /\ pdfs w' = pdfs w
  /\ (log w' = log w \/ log w' = Embeddings (InputText text) :: log w).
Proof.
  unfold Embeddings.embedText.
  destruct (negb (JS.nonblank text));
    [intros H; inversion H; subst; auto|].
  destruct (negb (JS.truthy (OPENAI_API_KEY env)));
    [intros H; inversion H; subst; auto|].
  unfold try_catch, bind, Embeddings.fetch_embeddings, throw, ret.
  destruct (embeddings_api env (log w) (InputText text)) as [m|st b|[[|[e|] rest]|]];
    intros H; inversion H; subst; cbn; auto.
Qed.

Lemma searchSimilarChunks_inv (env : Env) (query : string)
    (options : Retrieval.SearchOptions) (w w' : World) (hits : list RetrievedChunk) :
  Retrieval.searchSimilarChunks env query options w = (Return hits, w') ->
  exists queryVector w1,
    Embeddings.embedText env query w = (Return queryVector, w1)
    /\ hits = map (Retrieval.format (Retrieval.opt_includeMetadata options))
                (Retrieval.select_similar env w queryVector
                   (Retrieval.opt_pdfId options) (Retrieval.opt_threshold options)
                   (Retrieval.opt_topK options))
    /\ w' = record (VectorQuery queryVector (Retrieval.opt_pdfId options)
                      (Retrieval.opt_threshold options) (Retrieval.opt_topK options)) w1.
Proof.
  unfold Retrieval.searchSimilarChunks, try_catch, bind.
  destruct (Embeddings.embedText env query w) as [[v|e] w1] eqn:E; cbn;
    [|discriminate].
  intros H. inversion H; subst. exists v, w1.
  destruct (embedText_world _ _ _ _ _ E) as (Hc & Hp & _).
  unfold Retrieval.select_similar, Retrieval.candidates. rewrite Hc, Hp. auto.
Qed.



Example search_in_library :
  map (fun h => (r_content h, r_similarity h))
    (match Retrieval.searchSimilarChunks Samples.plane "refund policy"
             (strategy1 "doc") Samples.library with
     | (Return hits, _) => hits
     | _ => []
     end)
  = [("a", Some (10000 # 10000)); ("b", Some (8000 # 10000)); ("c", Some (6000 # 10000))].
Proof. vm_compute. reflexivity. Qed.

(* ====================================================================== *)
(** * Properties of the retrieval orchestrator *)
(* ====================================================================== *)

(** The rewriter asks the language model only. *)
Lemma rewriteQuery_world (env : Env) (q : string) (w : World) :
  exists r w' new,
    rewriteQuery env q w = (Return r, w')
    /\ document_chunks w' = document_chunks w
    /\ pdfs w' = pdfs w
    /\ log w' = new ++ log w
    /\ filter is_strategy_request new = [].
Proof.
  destruct (rewriteQuery_cases env q w) as (r & w' & Hrun & _ & Hc & Hp & Hcases).
  exists r, w'.
  destruct Hcases as [(e & _ & _ & _ & _ & Hlog) | (_ & Hlog & _)];
    eexists; (split; [exact Hrun|]); (split; [exact Hc|]); (split; [exact Hp|]);
    (split; [rewrite Hlog;
             first [ exact (eq_refl : _ :: log w = [_] ++ log w)
                   | exact (eq_refl : _ :: _ :: log w = [_; _] ++ log w) ]
            | reflexivity]).
Qed.

Lemma searchSimilarChunks_world (env : Env) (query : string)
    (options : Retrieval.SearchOptions) (w w' : World) (hits : list RetrievedChunk) :
  Retrieval.searchSimilarChunks env query options w = (Return hits, w') ->
  exists queryVector new,
    hits = search_result env w queryVector options
    /\ document_chunks w' = document_chunks w
    /\ pdfs w' = pdfs w
    /\ log w' = (query_of queryVector options :: new) ++ log w
    /\ filter is_strategy_request new = [].
Proof.
  intros Hrun.
  destruct (searchSimilarChunks_inv _ _ _ _ _ _ Hrun) as (qv & w1 & He & -> & ->).
  destruct (embedText_world _ _ _ _ _ He) as (Hc & Hp & [Hl|Hl]).
  - exists qv, []. cbn. rewrite Hl. auto.
  - exists qv, [Embeddings (InputText query)]. cbn. rewrite Hl. auto.
Qed.

Lemma search_result_tables (env : Env) (w w1 : World) (v : vector)
    (options : Retrieval.SearchOptions) :
  document_chunks w1 = document_chunks w -> pdfs w1 = pdfs w ->
  search_result env w1 v options = search_result env w v options.
Proof.
  intros Hc Hp. unfold search_result, Retrieval.select_similar, Retrieval.candidates.
  now rewrite Hc, Hp.
Qed.

Lemma chunks_of_tables (w w1 : World) (pdfId : string) (take : nat) :
  document_chunks w1 = document_chunks w -> chunks_of w1 pdfId take = chunks_of w pdfId take.
Proof. intros Hc. unfold chunks_of. now rewrite Hc. Qed.

Lemma strategy_requests_app (new old : list Request) :
  strategy_requests (new ++ old) = strategy_requests old ++ strategy_requests new.
Proof. unfold strategy_requests. now rewrite filter_app, rev_app_distr. Qed.

(** The ORM read returns chunks of the document, at most [take] of them, in
    ascending order of their index. *)
Lemma chunks_of_in_index_order (w : World) (pdfId : string) (take : nat) :
  StronglySorted (fun a b => (r_chunkIndex a <= r_chunkIndex b)%Z) (chunks_of w pdfId take)
  /\ Forall (fun c => r_pdfId c = pdfId) (chunks_of w pdfId take)
  /\ (length (chunks_of w pdfId take) <= take)%nat.
Proof.
  unfold chunks_of. split; [|split].
  - apply (StronglySorted_map (fun a b => index_leb a b = true)).
    + intros a b H. unfold index_leb in H. cbn. now apply Z.leb_le.
    + apply StronglySorted_firstn, order_by_sorted; unfold index_leb.
      * intros a b H. apply Z.leb_gt in H. apply Z.leb_le. lia.
      * intros a b c H1 H2. apply Z.leb_le in H1, H2. apply Z.leb_le. lia.
  - apply Forall_forall. intros c Hc. apply in_map_iff in Hc.
    destruct Hc as (row & <- & Hrow).
    apply in_firstn, in_order_by, filter_In in Hrow.
    destruct Hrow as (_ & Hid). now apply String.eqb_eq in Hid.
  - rewrite length_map. apply firstn_le_length.
Qed.

(** C1. Whenever [smartRetrieval] returns, the strategy requests it made are
    an initial part of the fixed sequence: vector search with threshold 0.6
    and topK 5, vector search with threshold 0.4 and topK 8, the read of at
    most 100 chunks for the uniform sample, the read of the first 10 chunks.
    It stops after the first vector search that yields 3 chunks or more and
    returns exactly that result; the sample, of at most 10 chunks, is
    returned when it is not empty; the last read happens only when the
    sample is empty and returns the first 10 chunks in index order. *)
Theorem smartRetrieval_escalation (env : Env) (query pdfId : string)
    (pdfRecord : PdfRow) (w w' : World) (chunks : list RetrievedChunk) :
  smartRetrieval env query pdfId pdfRecord w = (Return chunks, w') ->
  exists new v1 v2,
    log w' = new ++ log w
    /\ let first := search_result env w v1 (strategy1 pdfId) in
       let second := search_result env w v2 (strategy2 pdfId) in
       let sampled := uniform_sample w pdfId pdfRecord in
       let q1 := query_of v1 (strategy1 pdfId) in
       let q2 := query_of v2 (strategy2 pdfId) in
       (strategy_requests new = [q1]
        /\ (3 <= length first)%nat /\ chunks = first)
       \/ (strategy_requests new = [q1; q2]
           /\ (length first < 3)%nat /\ (3 <= length second)%nat /\ chunks = second)
       \/ (strategy_requests new = [q1; q2; FindChunks pdfId 100]
           /\ (length first < 3)%nat /\ (length second < 3)%nat
           /\ (0 < length sampled)%nat /\ (length sampled <= 10)%nat
           /\ chunks = sampled)
       \/ (strategy_requests new = [q1; q2; FindChunks pdfId 100; FindChunks pdfId 10]
           /\ (length first < 3)%nat /\ (length second < 3)%nat
           /\ sampled = [] /\ chunks = chunks_of w pdfId 10
           /\ StronglySorted (fun a b => (r_chunkIndex a <= r_chunkIndex b)%Z) chunks
           /\ (length chunks <= 10)%nat).
Proof.
  unfold smartRetrieval, bind.
  destruct (rewriteQuery_world env query w)
    as (r & w0 & new0 & -> & Hc0 & Hp0 & Hl0 & Hs0).
  destruct (Retrieval.searchSimilarChunks env (finalQuery r) (strategy1 pdfId) w0)
    as [[hits1|e1] w1] eqn:E1; [|discriminate].
  destruct (searchSimilarChunks_world _ _ _ _ _ _ E1)
    as (v1 & new1 & -> & Hc1 & Hp1 & Hl1 & Hs1).
  rewrite (search_result_tables env w w0) by assumption.
  assert (Hr1 : strategy_requests ((query_of v1 (strategy1 pdfId) :: new1) ++ new0)
                = [query_of v1 (strategy1 pdfId)]).
  { rewrite strategy_requests_app. unfold strategy_requests at 1. rewrite Hs0.
    unfold strategy_requests. cbn. now rewrite Hs1. }
  destruct (3 <=? length (search_result env w v1 (strategy1 pdfId)))%nat eqn:L1.
  { intros H. inversion H; subst. apply Nat.leb_le in L1.
    exists ((query_of v1 (strategy1 pdfId) :: new1) ++ new0), v1, v1.
    split; [rewrite Hl1, Hl0; now rewrite app_assoc|].
    left. auto. }
  apply Nat.leb_gt in L1.
  destruct (Retrieval.searchSimilarChunks env (finalQuery r) (strategy2 pdfId) w1)
    as [[hits2|e2] w2] eqn:E2; [|discriminate].
  destruct (searchSimilarChunks_world _ _ _ _ _ _ E2)
    as (v2 & new2 & -> & Hc2 & Hp2 & Hl2 & Hs2).
  rewrite (search_result_tables env w w1) by congruence.
  assert (Hr2 : strategy_requests
                  ((query_of v2 (strategy2 pdfId) :: new2)
                     ++ (query_of v1 (strategy1 pdfId) :: new1) ++ new0)
                = [query_of v1 (strategy1 pdfId); query_of v2 (strategy2 pdfId)]).
  { rewrite strategy_requests_app, Hr1. unfold strategy_requests. cbn.
    now rewrite Hs2. }
  assert (Hlog2 : log w2 = ((query_of v2 (strategy2 pdfId) :: new2)
                              ++ (query_of v1 (strategy1 pdfId) :: new1) ++ new0)
                           ++ log w).
  { rewrite Hl2, Hl1, Hl0. now rewrite <- !app_assoc. }
  destruct (3 <=? length (search_result env w v2 (strategy2 pdfId)))%nat eqn:L2.
  { intros H. inversion H; subst. apply Nat.leb_le in L2.
    eexists. exists v1, v2. split; [exact Hlog2|]. right. left. auto. }
  apply Nat.leb_gt in L2.
  unfold findMany at 1. cbv beta iota.
  rewrite (chunks_of_tables w w2) by congruence.
  fold (uniform_sample w pdfId pdfRecord).
  destruct (0 <? length (uniform_sample w pdfId pdfRecord))%nat eqn:L3.
  { intros H. inversion H; subst. apply Nat.ltb_lt in L3.
    exists (FindChunks pdfId 100
              :: (query_of v2 (strategy2 pdfId) :: new2)
              ++ (query_of v1 (strategy1 pdfId) :: new1) ++ new0), v1, v2.
    split; [cbn [log record]; now rewrite Hlog2|].
    right. right. left.
    split.
    { change (FindChunks pdfId 100 :: ?l) with ([FindChunks pdfId 100] ++ l).
      now rewrite strategy_requests_app, Hr2. }
    repeat split; try assumption. apply firstn_le_length. }
  apply Nat.ltb_ge in L3.
  unfold findMany. intros H. inversion H; subst.
  exists (FindChunks pdfId 10 :: FindChunks pdfId 100
            :: (query_of v2 (strategy2 pdfId) :: new2)
            ++ (query_of v1 (strategy1 pdfId) :: new1) ++ new0), v1, v2.
  split; [cbn [log record]; now rewrite Hlog2|].
  right. right. right.
  split.
  { change (FindChunks pdfId 10 :: FindChunks pdfId 100 :: ?l)
      with ([FindChunks pdfId 10; FindChunks pdfId 100] ++ l).
    now rewrite strategy_requests_app, Hr2. }
  assert (Hlast : chunks_of (record (FindChunks pdfId 100) w2) pdfId 10
                  = chunks_of w pdfId 10).
  { apply chunks_of_tables. cbn [document_chunks record]. congruence. }
  rewrite Hlast.
  destruct (chunks_of_in_index_order w pdfId 10) as (Hsorted & _ & Hlen).
  repeat split; try assumption.
  destruct (uniform_sample w pdfId pdfRecord); [reflexivity|cbn in L3; lia].
Qed.

Lemma smartRetrieval_escalation_witness :
  exists chunks w' new,
    smartRetrieval Samples.plane "What is the refund policy?" "doc" Samples.ready_doc
      Samples.library = (Return chunks, w')
    /\ log w' = new ++ log Samples.library.
Proof.
  destruct (smartRetrieval Samples.plane "What is the refund policy?" "doc"
              Samples.ready_doc Samples.library) as [[chunks|e] w'] eqn:E.
  - destruct (smartRetrieval_escalation _ _ _ _ _ _ _ E) as (new & _ & _ & Hlog & _).
    exists chunks, w', new. split; [reflexivity|exact Hlog].
  - vm_compute in E. discriminate.
Defined.

(** The four ways out of [smartRetrieval] on sample stores: the first search
    finds three chunks; the second search is needed; both searches are
    starved and the sample is returned; the document has no chunk at all. *)
Example escalation_samples :
  let contents o := match o with
                    | (Return chunks, w') =>
                        (map r_content chunks, strategy_requests (log w'))
                    | (Throw _, _) => ([], [])
                    end in
  contents (smartRetrieval Samples.plane "q" "doc" Samples.ready_doc Samples.library)
  = (["a"; "b"; "c"], [VectorQuery [1; 0] (Some "doc") (6 # 10) 5])
  /\ contents (smartRetrieval Samples.plane "q" "doc" Samples.ready_doc
                 (mkWorld []
                    [Samples.row 0 "a" (Some [45 # 100; 0]);
                     Samples.row 1 "b" (Some [1; 0]);
                     Samples.row 2 "c" (Some [1 # 2; 0])]
                    [Samples.ready_doc]))
     = (["b"; "c"; "a"],
        [VectorQuery [1; 0] (Some "doc") (6 # 10) 5;
         VectorQuery [1; 0] (Some "doc") (4 # 10) 8])
  /\ contents (smartRetrieval Samples.plane "q" "doc" Samples.ready_doc
                 (mkWorld [] (firstn 1 (document_chunks Samples.library))
                    [Samples.ready_doc]))
     = (["d"],
        [VectorQuery [1; 0] (Some "doc") (6 # 10) 5;
         VectorQuery [1; 0] (Some "doc") (4 # 10) 8;
         FindChunks "doc" 100])
  /\ contents (smartRetrieval Samples.plane "q" "doc" Samples.ready_doc
                 (mkWorld [] [] [Samples.ready_doc]))
     = ([],
        [VectorQuery [1; 0] (Some "doc") (6 # 10) 5;
         VectorQuery [1; 0] (Some "doc") (4 # 10) 8;
         FindChunks "doc" 100;
         FindChunks "doc" 10]).
Proof. vm_compute. repeat split. Qed.


Lemma sampling_step_positive (totalChunks : Z) : (1 <= sampling_step totalChunks)%Z.
Proof. unfold sampling_step. lia. Qed.

Lemma every_nth_head {A} (step : Z) (x : A) (l : list A) :
  (1 <= step)%Z -> exists r, every_nth step 0 (x :: l) = x :: r.
Proof.
  intros H. cbn [every_nth]. rewrite Z.rem_0_l by lia. cbn [Z.eqb]. eauto.
Qed.

Lemma chunks_of_nonempty (w : World) (pdfId : string) (take : nat) :
  (0 < take)%nat ->
  (exists c, In c (document_chunks w) /\ chunk_pdf_id c = pdfId) ->
  chunks_of w pdfId take <> [].
Proof.
  intros Htake (c & Hin & Hid). unfold chunks_of.
  assert (Hc : In c (order_by index_leb
                       (filter (fun c => String.eqb (chunk_pdf_id c) pdfId)
                          (document_chunks w)))).
  { apply in_order_by, filter_In. split; [exact Hin|]. now apply String.eqb_eq. }
  destruct (order_by index_leb _) as [|x l]; [contradiction|].
  destruct take; [lia|]. cbn. discriminate.
Qed.



(* ====================================================================== *)
(** * Properties of the request handler *)
(* ====================================================================== *)

(** C8. A question on a document in state 'processing' or 'failed' is
    answered with status 400 and the message of that state (the stored error
    message as [details] for 'failed'); the only request made is the lookup
    of the document, so neither the embedding provider nor the language
    model is called and no retrieval strategy reads the store. *)
Theorem wrong_state_rejected_before_retrieval
    (env : Env) (s : Session) (body : Body) (w : World)
    (question id : string) (pdfRecord : PdfRow) :
  message body = Some question ->
  JS.truthy (JS.trim question) = true ->
  pdfId body = Some id ->
  JS.truthy id = true ->
  find (fun p => String.eqb (pdf_id p) id && String.eqb (pdf_userId p) (user_id s))
    (pdfs w) = Some pdfRecord ->
  pdf_status pdfRecord = "processing" \/ pdf_status pdfRecord = "failed" ->
  exists response w',
    POST env (Some s) body w = (Return response, w')
    /\ log w' = FindPdf id (user_id s) :: log w
    /\ filter is_provider_request (log w') = filter is_provider_request (log w)
    /\ filter is_strategy_request (log w') = filter is_strategy_request (log w)
    /\ (pdf_status pdfRecord = "processing" ->
        response = ErrorResponse 400 "PDF 文件正在处理中，请稍后再试" None
                     (Some "processing"))
    /\ (pdf_status pdfRecord = "failed" ->
        response = ErrorResponse 400 "PDF 文件处理失败" (pdf_errorMessage pdfRecord) None).
Proof.
  intros Hm Hq Hp Hid Hfind Hstatus.
  unfold POST, try_catch, bind, findFirst. rewrite Hm, Hq, Hp, Hid. cbn [negb].
  rewrite Hfind.
  destruct Hstatus as [Hs|Hs]; rewrite Hs; cbn;
    do 2 eexists; (split; [reflexivity|]); cbn; repeat split;
    intros H; try reflexivity; discriminate.
Qed.

Lemma wrong_state_rejected_witness :
  exists response w',
    POST Samples.plane (Some (mkSession "user" "user@example.com"))
      (mkBody (Some "What is the refund policy?") (Some "doc")) Samples.uploaded
    = (Return response, w')
    /\ log w' = [FindPdf "doc" "user"].
Proof.
  destruct (wrong_state_rejected_before_retrieval Samples.plane
              (mkSession "user" "user@example.com")
              (mkBody (Some "What is the refund policy?") (Some "doc"))
              Samples.uploaded "What is the refund policy?" "doc"
              (mkPdfRow "doc" "user" "a.pdf" "/uploads/a.pdf" "processing" 0 None None))
    as (response & w' & Hrun & Hlog & _); try reflexivity.
  - now left.
  - exists response, w'. split; [exact Hrun|exact Hlog].
Defined.

(** The same question on the ready document reaches the providers. *)
Example ready_document_is_retrieved :
  match POST Samples.plane (Some (mkSession "user" "user@example.com"))
          (mkBody (Some "What is the refund policy?") (Some "doc")) Samples.library with
  | (Return response, w') =>
      (response, length (filter is_provider_request (log w')),
       strategy_requests (log w'))
  | (Throw _, _) => (ErrorResponse 0 "" None None, 0%nat, [])
  end
  = (ErrorResponse 500 "AI 服务调用失败: AI 服务暂时不可用 (状态码: 503)" None None,
     4%nat, [VectorQuery [1; 0] (Some "doc") (6 # 10) 5]).
Proof. vm_compute. reflexivity. Qed.

(* ====================================================================== *)
(** * Properties of the ingestion job *)
(* ====================================================================== *)

Lemma keeps_tables_ret {A} (a : A) : keeps_tables (ret a).
Proof. intros w o w' H. inversion H; subst. auto. Qed.

Lemma keeps_tables_throw {A} (e : string) : keeps_tables (@throw World A e).
Proof. intros w o w' H. inversion H; subst. auto. Qed.

Lemma keeps_tables_bind {A B} (m : M World A) (k : A -> M World B) :
  keeps_tables m -> (forall a, keeps_tables (k a)) -> keeps_tables (bind m k).
Proof.
  intros Hm Hk w o w'. unfold bind.
  destruct (m w) as [[a|e] w1] eqn:E; intros H.
  - destruct (Hm _ _ _ E) as (Hc & Hp). destruct (Hk a _ _ _ H) as (Hc' & Hp').
    split; congruence.
  - inversion H; subst. exact (Hm _ _ _ E).
Qed.

Lemma keeps_tables_try_catch {A} (m : M World A) (h : string -> M World A) :
  keeps_tables m -> (forall e, keeps_tables (h e)) -> keeps_tables (try_catch m h).
Proof.
  intros Hm Hh w o w'. unfold try_catch.
  destruct (m w) as [[a|e] w1] eqn:E; intros H.
  - inversion H; subst. exact (Hm _ _ _ E).
  - destruct (Hm _ _ _ E) as (Hc & Hp). destruct (Hh e _ _ _ H) as (Hc' & Hp').
    split; congruence.
Qed.

Lemma keeps_tables_embedText (env : Env) (text : string) :
  keeps_tables (Embeddings.embedText env text).
Proof.
  intros w o w' H. destruct (embedText_world _ _ _ _ _ H) as (Hc & Hp & _). auto.
Qed.

Lemma keeps_tables_retry_each (env : Env) (batch : list string) :
  keeps_tables (Embeddings.retry_each env batch).
Proof.
  induction batch as [|text rest IH]; cbn; [apply keeps_tables_ret|].
  apply keeps_tables_bind.
  - apply keeps_tables_try_catch.
    + apply keeps_tables_bind; [apply keeps_tables_embedText|].
      intros v. apply keeps_tables_ret.
    + intros e. apply keeps_tables_ret.
  - intros v. apply keeps_tables_bind; [exact IH|]. intros vs. apply keeps_tables_ret.
Qed.

Lemma keeps_tables_embed_one_batch (env : Env) (batch : list string) :
  keeps_tables (Embeddings.embed_one_batch env batch).
Proof.
  apply keeps_tables_try_catch; [|intros e; apply keeps_tables_retry_each].
  apply keeps_tables_bind.
  - intros w o w' H. inversion H; subst. auto.
  - intros [m|st b|[items|]];
      try apply keeps_tables_throw.
    destruct (length items =? length batch)%nat;
      [apply keeps_tables_ret|apply keeps_tables_throw].
Qed.

Lemma keeps_tables_batch_loop (env : Env) (batchSize : positive) (texts : list string) :
  forall fuel i results,
    keeps_tables (Embeddings.batch_loop env fuel batchSize texts i results).
Proof.
  induction fuel as [|fuel IH]; intros i results; cbn;
    destruct (length texts <=? i)%nat; try apply keeps_tables_ret.
  apply keeps_tables_bind; [apply keeps_tables_embed_one_batch|].
  intros vs. apply IH.
Qed.

Lemma keeps_tables_embedBatch (env : Env) (texts : list string) (batchSize : positive) :
  keeps_tables (Embeddings.embedBatch env texts batchSize).
Proof.
  unfold Embeddings.embedBatch. destruct texts; [apply keeps_tables_ret|].
  destruct (negb (JS.truthy (OPENAI_API_KEY env)));
    [apply keeps_tables_throw|apply keeps_tables_batch_loop].
Qed.

(** [chunkText] makes no request at all. *)
Lemma chunkText_pure (env : Env) (text metadata : string) (w w' : World)
    (o : outcome (list Upload.Chunk)) :
  Upload.chunkText env text metadata w = (o, w') -> w' = w.
Proof.
  unfold Upload.chunkText, try_catch, throw, ret.
  destruct (negb (JS.nonblank text)); [intros H; now inversion H|].
  destruct (split_text env text); intros H; now inversion H.
Qed.

(** One pass through the body of the saving loop: the row is appended, or
    the write is refused and nothing is stored. *)
Lemma save_chunk_cases (env : Env) (pdfId : string) (dimension i : nat)
    (chunk : Upload.Chunk) (vector : option vector) (w w' : World) (o : outcome unit) :
  Upload.save_chunk env pdfId dimension i chunk vector w = (o, w') ->
  pdfs w' = pdfs w
  /\ match o with
     | Return _ => length (document_chunks w') = S (length (document_chunks w))
     | Throw _ => document_chunks w' = document_chunks w
     end.
Proof.
  unfold Upload.save_chunk, Upload.store_write.
  destruct vector as [[|x v]|];
    match goal with
    | |- context [store_rejects env ?h ?wr] => destruct (store_rejects env h wr)
    end;
    intros H; inversion H; subst; cbn; rewrite ?length_app; cbn; split;
    try reflexivity; lia.
Qed.

(** The saving loop: it returns the count of the rows it stored added to the
    count it started from, or it gives up after more than five refusals;
    it never touches the documents. *)
Lemma save_chunks_counts (env : Env) (pdfId : string) (dimension : nat)
    (vectors : list (option vector)) (chunks : list Upload.Chunk) :
  forall i successCount failCount w o w',
    Upload.save_chunks env pdfId dimension vectors chunks i successCount failCount w
    = (o, w') ->
    pdfs w' = pdfs w
    /\ match o with
       | Return n =>
           (successCount <= n <= successCount + length chunks)%nat
           /\ length (document_chunks w')
              = (length (document_chunks w) + (n - successCount))%nat
       | Throw e => exists k, (5 < k)%nat /\ e = Upload.too_many k
       end.
Proof.
  induction chunks as [|chunk rest IH]; intros i sc fc w o w'; cbn [Upload.save_chunks].
  - intros H. inversion H; subst. cbn. split; [reflexivity|]. split; lia.
  - unfold bind at 1, try_catch at 1, bind at 1.
    destruct (Upload.save_chunk env pdfId dimension i chunk _ w) as [[[]|e] w1] eqn:E;
      destruct (save_chunk_cases _ _ _ _ _ _ _ _ _ E) as (Hp & Hc);
      unfold ret at 1; cbv beta iota.
    + intros H. destruct (IH _ _ _ _ _ _ H) as (Hp' & Ho).
      split; [congruence|].
      destruct o as [n|e']; [|exact Ho].
      destruct Ho as (Hn & Hlen). cbn [length]. split; lia.
    + destruct (5 <? S fc)%nat eqn:L.
      * intros H. inversion H; subst. split; [exact Hp|].
        exists (S fc). apply Nat.ltb_lt in L. auto.
      * intros H. destruct (IH _ _ _ _ _ _ H) as (Hp' & Ho).
        split; [congruence|].
        destruct o as [n|e']; [|exact Ho].
        destruct Ho as (Hn & Hlen). cbn [length]. split; [lia|].
        rewrite Hlen, Hc. reflexivity.
Qed.

(** With a store that accepts every write all chunks are saved. *)
Lemma save_chunks_all_accepted (env : Env) (pdfId : string) (dimension : nat)
    (vectors : list (option vector)) (chunks : list Upload.Chunk) :
  (forall history wr, store_rejects env history wr = None) ->
  forall i successCount failCount w,
  exists w',
    Upload.save_chunks env pdfId dimension vectors chunks i successCount failCount w
    = (Return (successCount + length chunks)%nat, w').
Proof.
  intros Hstore.
  induction chunks as [|chunk rest IH]; intros i sc fc w; cbn [Upload.save_chunks length].
  - rewrite Nat.add_0_r. eexists. reflexivity.
  - unfold bind at 1, try_catch at 1, bind at 1.
    assert (Hsave : exists w1,
               Upload.save_chunk env pdfId dimension i chunk
                 match nth_error vectors i with Some v => v | None => None end w
               = (Return tt, w1)).
    { unfold Upload.save_chunk, Upload.store_write.
      destruct (match nth_error vectors i with Some v => v | None => None end)
        as [[|x v]|]; rewrite Hstore; eauto. }
    destruct Hsave as (w1 & ->). unfold ret at 1. cbv beta iota.
    destruct (IH (S i) (S sc) fc w1) as (w' & ->).
    exists w'. f_equal. f_equal. lia.
Qed.

Arguments Upload.too_many : simpl never.

(** The [try] block of the job: when it returns, its last request is the
    accepted write of 'ready' with the number of rows it stored; when it
    throws, no document has changed. *)
Lemma ingest_outcome (env : Env) (pdfId filePath : string) (w w1 : World)
    (o : outcome unit) :
  Upload.ingest env pdfId filePath w = (o, w1) ->
  match o with
  | Return _ =>
      exists pages history,
        let ready := UpdatePdfReady pdfId (Z.of_nat (stored w w1)) pages in
        log w1 = StoreWrite ready :: history
        /\ store_rejects env history ready = None
        /\ pdfs w1
           = pdfs (Upload.update_pdf pdfId
                     (Upload.mark_ready (Z.of_nat (stored w w1)) pages) w)
  | Throw _ => pdfs w1 = pdfs w
  end.
Proof.
  unfold Upload.ingest.
  destruct (pdf_parse env filePath) as [[text pages]|e];
    [|intros H; inversion H; subst; reflexivity].
  unfold bind at 1.
  destruct (Upload.chunkText env text "pdf" w) as [[chunks|e] w0] eqn:Ec;
    pose proof (chunkText_pure _ _ _ _ _ _ Ec) as ->;
    [|intros H; inversion H; subst; reflexivity].
  unfold bind at 1.
  destruct (Embeddings.embedBatch env (map Upload.content chunks)
              Embeddings.default_batchSize w) as [[vectors|e] w2] eqn:Eb;
    destruct (keeps_tables_embedBatch _ _ _ _ _ _ Eb) as (Hc2 & Hp2);
    [|intros H; inversion H; subst; exact Hp2].
  unfold bind at 1.
  destruct (Upload.save_chunks env pdfId (Upload.actualDimension vectors) vectors chunks
              0 0 0 w2) as [[n|e] w3] eqn:Es;
    destruct (save_chunks_counts _ _ _ _ _ _ _ _ _ _ _ Es) as (Hp3 & Ho);
    [|intros H; inversion H; subst; congruence].
  destruct Ho as (_ & Hlen).
  assert (Hn : n = stored w w3).
  { unfold stored. rewrite Hlen, Hc2. lia. }
  unfold Upload.store_write.
  destruct (store_rejects env (log w3) (UpdatePdfReady pdfId (Z.of_nat n) pages))
    as [e|] eqn:Er; intros H; inversion H; subst o w1.
  - cbn. congruence.
  - exists pages, (log w3). cbv zeta.
    match goal with
    | |- context [stored w ?W] => assert (Hst : stored w W = n) by (rewrite Hn; reflexivity)
    end.
    rewrite Hst. split; [reflexivity|]. split; [exact Er|].
    cbn. now rewrite Hp3, Hp2.
Qed.

(** With a credential and a store that accepts every write, the [try] block
    stores every chunk, whatever the embedding provider does. *)
Lemma ingest_all_accepted (env : Env) (pdfId filePath : string) (w : World)
    (text : string) (pages : Z) (chunks : list Upload.Chunk) :
  JS.truthy (OPENAI_API_KEY env) = true ->
  pdf_parse env filePath = Return (text, pages) ->
  Upload.chunkText env text "pdf" w = (Return chunks, w) ->
  (forall history wr, store_rejects env history wr = None) ->
  exists w1 history,
    Upload.ingest env pdfId filePath w = (Return tt, w1)
    /\ stored w w1 = length chunks
    /\ log w1
       = StoreWrite (UpdatePdfReady pdfId (Z.of_nat (length chunks)) pages) :: history.
Proof.
  intros Hkey Hparse Hchunks Hstore.
  unfold Upload.ingest. rewrite Hparse.
  unfold bind at 1. rewrite Hchunks.
  unfold bind at 1.
  destruct (embedBatch_answers env (map Upload.content chunks)
              Embeddings.default_batchSize w Hkey) as (vectors & w2 & Eb & _).
  rewrite Eb.
  destruct (keeps_tables_embedBatch _ _ _ _ _ _ Eb) as (Hc2 & _).
  unfold bind at 1.
  destruct (save_chunks_all_accepted env pdfId (Upload.actualDimension vectors) vectors
              chunks Hstore 0 0 0 w2) as (w3 & Es).
  rewrite Es.
  destruct (save_chunks_counts _ _ _ _ _ _ _ _ _ _ _ Es) as (_ & _ & Hlen).
  unfold Upload.store_write. rewrite Hstore. cbn [Nat.add].
  do 2 eexists. split; [reflexivity|]. split; [|reflexivity].
  unfold stored. cbn. rewrite Hlen, Hc2. cbn. lia.
Qed.

(** C9 fails as stated when the write of 'failed' is itself refused: the job
    has failed (the file cannot be read) and the document stays in
    'processing'. *)
Lemma failed_write_refused_leaves_processing :
  exists w',
    Upload.processPdfInBackground
      (Samples.with_store Samples.unreachable_store Samples.offline)
      "doc" "/tmp/a.pdf" Samples.uploaded = (Return tt, w')
    /\ map pdf_status (pdfs w') = ["processing"]
    /\ map pdf_errorMessage (pdfs w') = [None].
Proof. eexists. split; [vm_compute; reflexivity|]. split; reflexivity. Qed.

(** C9, amended.  The job never throws and ends with one status write.
    Either its [try] block completed: the write is 'ready', it records as
    [totalChunks] the number of chunk rows the job stored, and the document
    is updated so.  Or the [try] block threw an error: the write is 'failed'
    with the message of that error ('未知错误' when it is empty); the document
    is updated so when the store accepts the write and is left as it was
    when the store refuses it.  Failed embeddings are no error of the job:
    with a credential and a store that accepts every write, every chunk
    produced by the chunker is stored and the document becomes 'ready' with
    that count, whatever the embedding provider does.  An unreadable file is
    an error of the job. *)
Theorem ingestion_settles_status (env : Env) (pdfId filePath : string) (w : World) :
  exists w',
    Upload.processPdfInBackground env pdfId filePath w = (Return tt, w')
    /\ ((exists pages history,
            let ready := UpdatePdfReady pdfId (Z.of_nat (stored w w')) pages in
            log w' = StoreWrite ready :: history
            /\ store_rejects env history ready = None
            /\ pdfs w'
               = pdfs (Upload.update_pdf pdfId
                         (Upload.mark_ready (Z.of_nat (stored w w')) pages) w))
        \/ (exists e w1 history,
              let failed := UpdatePdfFailed pdfId (Upload.message_or_unknown e) in
              Upload.ingest env pdfId filePath w = (Throw e, w1)
              /\ log w' = StoreWrite failed :: history
              /\ match store_rejects env history failed with
                 | None =>
                     pdfs w'
                     = pdfs (Upload.update_pdf pdfId
                               (Upload.mark_failed (Upload.message_or_unknown e)) w)
                 | Some _ => pdfs w' = pdfs w
                 end))
    /\ (forall text pages chunks,
          JS.truthy (OPENAI_API_KEY env) = true ->
          pdf_parse env filePath = Return (text, pages) ->
          Upload.chunkText env text "pdf" w = (Return chunks, w) ->
          (forall history wr, store_rejects env history wr = None) ->
          stored w w' = length chunks
          /\ pdfs w'
             = pdfs (Upload.update_pdf pdfId
                       (Upload.mark_ready (Z.of_nat (length chunks)) pages) w))
    /\ (forall e, pdf_parse env filePath = Throw e ->
                  Upload.ingest env pdfId filePath w = (Throw e, w)).
Proof.
  unfold Upload.processPdfInBackground, try_catch.
  destruct (Upload.ingest env pdfId filePath w) as [[[]|e] w1] eqn:Ei;
    pose proof (ingest_outcome _ _ _ _ _ _ Ei) as Hout; cbv beta iota in Hout.
  - exists w1. split; [reflexivity|]. split; [left; exact Hout|]. split.
    + intros text pages chunks Hkey Hparse Hchunks Hstore.
      destruct (ingest_all_accepted env pdfId filePath w text pages chunks
                  Hkey Hparse Hchunks Hstore) as (w2 & history & Hi & Hst & Hlog).
      rewrite Ei in Hi. inversion Hi; subst w2.
      split; [exact Hst|].
      destruct Hout as (pages' & history' & Hlog' & _ & Hp).
      rewrite Hlog in Hlog'. inversion Hlog'; subst. rewrite Hp, Hst. reflexivity.
    + intros e He. unfold Upload.ingest in Ei. rewrite He in Ei. discriminate.
  - unfold Upload.store_write.
    destruct (store_rejects env (log w1)
                (UpdatePdfFailed pdfId (Upload.message_or_unknown e))) as [e'|] eqn:Er.
    + eexists. split; [reflexivity|]. split; [|split].
      * right. exists e, w1, (log w1). cbn zeta.
        split; [reflexivity|]. split; [reflexivity|]. rewrite Er. exact Hout.
      * intros text pages chunks Hkey Hparse Hchunks Hstore.
        rewrite Hstore in Er. discriminate.
      * intros e0 He. unfold Upload.ingest in Ei. rewrite He in Ei.
        inversion Ei; subst. reflexivity.
    + eexists. split; [reflexivity|]. split; [|split].
      * right. exists e, w1, (log w1). cbn zeta.
        split; [reflexivity|]. split; [reflexivity|]. rewrite Er. cbn.
        now rewrite Hout.
      * intros text pages chunks Hkey Hparse Hchunks Hstore.
        destruct (ingest_all_accepted env pdfId filePath w text pages chunks
                    Hkey Hparse Hchunks Hstore) as (w2 & history & Hi & _).
        rewrite Ei in Hi. discriminate.
      * intros e0 He. unfold Upload.ingest in Ei. rewrite He in Ei.
        inversion Ei; subst. reflexivity.
Qed.

(** The job on a PDF of two chunks: with every embedding failed both chunks
    are stored under zero vectors and the document is ready with 2 chunks;
    with a store that refuses the second chunk the document is ready with 1
    chunk; without credential the job fails with the message of that
    error. *)
Example ingestion_samples :
  let summary o :=
    match o with
    | (_, w') =>
        (map (fun p => (pdf_status p, pdf_totalChunks p, pdf_errorMessage p)) (pdfs w'),
         map (fun c => (chunk_content c, option_map (@length Q) (chunk_embedding c)))
           (document_chunks w'))
    end in
  summary (Upload.processPdfInBackground (Samples.two_chunks Samples.offline)
             "doc" "/tmp/a.pdf" Samples.uploaded)
  = ([("ready", 2%Z, None)], [("first", Some 1024%nat); ("second", Some 1024%nat)])
  /\ summary (Upload.processPdfInBackground
                (Samples.with_store Samples.refuses_second
                   (Samples.two_chunks Samples.offline))
                "doc" "/tmp/a.pdf" Samples.uploaded)
     = ([("ready", 1%Z, None)], [("first", Some 1024%nat)])
  /\ summary (Upload.processPdfInBackground
                (mkEnv "" (chat_api Samples.offline) (embeddings_api Samples.offline)
                   (cosine_distance Samples.offline)
                   (pdf_parse (Samples.two_chunks Samples.offline))
                   (split_text (Samples.two_chunks Samples.offline))
                   (count_tokens Samples.offline) (store_rejects Samples.offline))
                "doc" "/tmp/a.pdf" Samples.uploaded)
     = ([("failed", 0%Z, Some "❌ OPENAI_API_KEY 未配置")], []).
Proof. vm_compute. repeat split. Qed.

(** What the fixed zero vector does to the job when the store checks the
    declared dimension: with a model of dimension 3 and six failed
    embeddings, the six zero vectors are refused and the job is rejected. *)
Example dimension_mismatch_rejects_job :
  match Upload.processPdfInBackground Samples.seven_chunks "doc" "/tmp/a.pdf"
          Samples.uploaded with
  | (_, w') =>
      (map (fun p => (pdf_status p, pdf_errorMessage p)) (pdfs w'),
       map chunk_content (document_chunks w'))
  end
  = ([("failed", Some "保存失败过多 (6 个)，停止处理")], ["first"]).
Proof. vm_compute. reflexivity. Qed.

(** Outside the failure paths: a decomposition reply made of numbering only
    is accepted as sub-questions and merges to the empty string, which
    [embedText] refuses. *)
Example numbering_only_reply :
  let env := Samples.with_chat
               (fun _ prompt =>
                  match prompt with
                  | DecompositionPrompt _ => ChatContent (Some "1. ")
                  | _ => ChatNotOk 503
                  end)
               Samples.plane in
  (exists r w',
      rewriteQuery env Samples.chinese_query Samples.library = (Return r, w')
      /\ queryType r = decomposition /\ subQueries r = Some "1." /\ finalQuery r = "")
  /\ fst (smartRetrieval env Samples.chinese_query "doc" Samples.ready_doc Samples.library)
     = Throw "向量检索失败: 文本不能为空".
Proof.
  split; [|vm_compute; reflexivity].
  eexists. eexists. split; [vm_compute; reflexivity|]. repeat split.
Qed.

(* ====================================================================== *)
(** * Further properties of the embedder *)
(* ====================================================================== *)

(** X1. [embedText] refuses a blank text, and a call without credential,
    before any request: it throws and the world is as it was.  Otherwise it
    makes exactly one request, for that text alone, and an error that
    follows the request is thrown with the prefix [向量化失败: ]. *)
Theorem embedText_one_guarded_request (env : Env) (text : string) (w : World) :
  (JS.nonblank text = false ->
   Embeddings.embedText env text w = (Throw "文本不能为空", w))
  /\ (JS.nonblank text = true -> JS.truthy (OPENAI_API_KEY env) = false ->
      Embeddings.embedText env text w = (Throw "❌ OPENAI_API_KEY 未配置", w))
  /\ (JS.nonblank text = true -> JS.truthy (OPENAI_API_KEY env) = true ->
      exists o,
        Embeddings.embedText env text w = (o, record (Embeddings (InputText text)) w)
        /\ match o with
           | Return _ => True
           | Throw e => exists cause, e = ("向量化失败: " ++ cause)%string
           end).
Proof.
  unfold Embeddings.embedText. split; [|split].
  - intros ->. reflexivity.
  - intros -> ->. reflexivity.
  - intros -> ->. cbn [negb].
    unfold try_catch, bind, Embeddings.fetch_embeddings, throw, ret.
    destruct (embeddings_api env (log w) (InputText text)) as [m|st b|[[|[e|] rest]|]];
      eexists; (split; [reflexivity|]); try exact I; eexists; reflexivity.
Qed.

(** [embedBatch] on no text returns the empty list without any request,
    also without credential; on at least one text and without credential it
    throws before any request. *)
Lemma embedBatch_edges (env : Env) (batchSize : positive) (w : World) :
  Embeddings.embedBatch env [] batchSize w = (Return [], w)
  /\ (forall text texts,
        JS.truthy (OPENAI_API_KEY env) = false ->
        Embeddings.embedBatch env (text :: texts) batchSize w
        = (Throw "❌ OPENAI_API_KEY 未配置", w)).
Proof.
  split; [reflexivity|].
  intros text texts Hkey. unfold Embeddings.embedBatch. rewrite Hkey. reflexivity.
Qed.

(** The loop of [embedBatch] under any relation between a text and its
    vector that every batch establishes. *)
Lemma batch_loop_related (env : Env) (P : string -> option vector -> Prop)
    (batchSize : positive) (texts : list string) :
  (forall batch w, exists vs w',
      Embeddings.embed_one_batch env batch w = (Return vs, w') /\ Forall2 P batch vs) ->
  forall fuel i results w,
    (length texts - i <= fuel)%nat ->
    Forall2 P (firstn i texts) results ->
    exists vs w',
      Embeddings.batch_loop env fuel batchSize texts i results w = (Return vs, w')
      /\ Forall2 P texts vs.
Proof.
  intros Hbatch.
  induction fuel as [|fuel IH]; intros i results w Hfuel Hinv; cbn;
    destruct (length texts <=? i)%nat eqn:L;
    try (apply Nat.leb_le in L; rewrite firstn_all2 in Hinv by exact L;
         do 2 eexists; split; [reflexivity|exact Hinv]).
  - apply Nat.leb_gt in L. lia.
  - unfold bind.
    destruct (Hbatch (firstn (Pos.to_nat batchSize) (skipn i texts)) w)
      as (vs & w1 & -> & Hvs).
    apply IH; [lia|]. rewrite firstn_plus. now apply Forall2_app.
Qed.

Lemma embedText_down (env : Env) (text : string) (w : World) :
  Props.embeddings_down env ->
  exists e w', Embeddings.embedText env text w = (Throw e, w').
Proof.
  intros Hdown. unfold Embeddings.embedText.
  destruct (negb (JS.nonblank text)); [do 2 eexists; reflexivity|].
  destruct (negb (JS.truthy (OPENAI_API_KEY env))); [do 2 eexists; reflexivity|].
  unfold try_catch, bind, Embeddings.fetch_embeddings, throw, ret.
  specialize (Hdown (log w) (InputText text)).
  destruct (embeddings_api env (log w) (InputText text)) as [m|st b|d];
    [| |contradiction]; do 2 eexists; reflexivity.
Qed.

Lemma retry_each_down (env : Env) (batch : list string) (w : World) :
  Props.embeddings_down env ->
  exists vs w',
    Embeddings.retry_each env batch w = (Return vs, w')
    /\ Forall2 (fun _ v => v = Some Embeddings.zero_vector) batch vs.
Proof.
  intros Hdown. revert w. induction batch as [|text rest IH]; intros w; cbn.
  - do 2 eexists. split; [reflexivity|constructor].
  - unfold bind, try_catch at 1.
    destruct (embedText_down env text w Hdown) as (e & w1 & ->). cbn.
    destruct (IH w1) as (vs & w' & -> & Hvs).
    do 2 eexists. split; [reflexivity|]. now constructor.
Qed.

Lemma Forall2_constant {A B} (b : B) (l : list A) (l' : list B) :
  Forall2 (fun _ y => y = b) l l' -> l' = repeat b (length l).
Proof. induction 1; cbn; congruence. Qed.

Lemma Forall2_function {A B} (f : A -> B) (l : list A) (l' : list B) :
  Forall2 (fun x y => y = f x) l l' -> l' = map f l.
Proof. induction 1; cbn; congruence. Qed.

(** X2. When the provider never answers with a body (refused requests,
    rejected calls), [embedBatch] with a credential still returns, and its
    result is the zero vector of 1024 entries for every text. *)
Theorem embedBatch_all_zero_when_down
    (env : Env) (texts : list string) (batchSize : positive) (w : World) :
  JS.truthy (OPENAI_API_KEY env) = true ->
  Props.embeddings_down env ->
  exists w',
    Embeddings.embedBatch env texts batchSize w
    = (Return (repeat (Some Embeddings.zero_vector) (length texts)), w').
Proof.
  intros Hkey Hdown. unfold Embeddings.embedBatch.
  destruct texts as [|text texts]; [eexists; reflexivity|].
  rewrite Hkey. cbn [negb].
  destruct (batch_loop_related env (fun _ v => v = Some Embeddings.zero_vector)
              batchSize (text :: texts)) with
    (fuel := length (text :: texts)) (i := 0%nat) (results := @nil (option vector))
    (w := w) as (vs & w' & Hrun & Hvs).
  - intros batch w0.
    unfold Embeddings.embed_one_batch, try_catch, bind, Embeddings.fetch_embeddings,
      throw, ret.
    pose proof (Hdown (log w0) (InputBatch batch)) as Hd.
    destruct (embeddings_api env (log w0) (InputBatch batch)) as [m|st b|d];
      [| |contradiction]; now apply retry_each_down.
  - lia.
  - constructor.
  - exists w'. rewrite Hrun. f_equal. f_equal. now apply Forall2_constant.
Qed.

Lemma embedBatch_all_zero_when_down_witness :
  exists w',
    Embeddings.embedBatch Samples.offline ["a"; "b"; "c"] 2%positive Samples.empty_world
    = (Return (repeat (Some Embeddings.zero_vector) 3), w').
Proof.
  apply (embedBatch_all_zero_when_down Samples.offline ["a"; "b"; "c"] 2%positive
           Samples.empty_world).
  - reflexivity.
  - intros history input. exact I.
Defined.

Lemma embed_one_batch_healthy (env : Env) (f : string -> vector)
    (batch : list string) (w : World) :
  Props.embeds_with env f ->
  Embeddings.embed_one_batch env batch w
  = (Return (map (fun t => Some (f t)) batch), record (Embeddings (InputBatch batch)) w).
Proof.
  intros Hf. destruct (Hf (log w)) as (Hbatch & _).
  unfold Embeddings.embed_one_batch, try_catch, bind, Embeddings.fetch_embeddings.
  rewrite Hbatch, length_map, Nat.eqb_refl. reflexivity.
Qed.

Lemma batches_nil (fuel batchSize : nat) : Props.batches fuel batchSize [] = [].
Proof. destruct fuel; reflexivity. Qed.

(** The loop of [embedBatch] with a provider that answers every batch: one
    batch request per slice, the vectors in the order of the texts. *)
Lemma batch_loop_healthy (env : Env) (f : string -> vector) (batchSize : positive)
    (texts : list string) :
  Props.embeds_with env f ->
  forall fuel i results w,
    (length texts - i <= fuel)%nat ->
    exists w',
      Embeddings.batch_loop env fuel batchSize texts i results w
      = (Return (results ++ map (fun t => Some (f t)) (skipn i texts)), w')
      /\ log w'
         = rev (map (fun b => Embeddings (InputBatch b))
                  (Props.batches fuel (Pos.to_nat batchSize) (skipn i texts)))
           ++ log w.
Proof.
  intros Hf.
  induction fuel as [|fuel IH]; intros i results w Hfuel; cbn [Embeddings.batch_loop];
    destruct (length texts <=? i)%nat eqn:L.
  - apply Nat.leb_le in L. rewrite skipn_all2 by exact L.
    exists w. cbn. now rewrite app_nil_r.
  - apply Nat.leb_gt in L. lia.
  - apply Nat.leb_le in L. rewrite skipn_all2 by exact L.
    exists w. rewrite batches_nil. cbn. now rewrite app_nil_r.
  - apply Nat.leb_gt in L. unfold bind.
    rewrite (embed_one_batch_healthy env f _ w Hf).
    destruct (IH (i + Pos.to_nat batchSize)%nat
                (results ++ map (fun t => Some (f t))
                              (firstn (Pos.to_nat batchSize) (skipn i texts)))
                (record (Embeddings
                           (InputBatch (firstn (Pos.to_nat batchSize) (skipn i texts)))) w))
      as (w' & Hrun & Hlog); [lia|].
    exists w'. split.
    + rewrite Hrun. f_equal. f_equal. rewrite <- app_assoc. f_equal.
      rewrite <- map_app. f_equal.
      rewrite (Nat.add_comm i), <- skipn_skipn. apply firstn_skipn.
    + rewrite Hlog. cbn [log record].
      destruct (skipn i texts) as [|t rest] eqn:Hs.
      * apply (f_equal (@length string)) in Hs. rewrite length_skipn in Hs.
        cbn in Hs. lia.
      * cbn [Props.batches map rev]. rewrite <- app_assoc. cbn [app].
        rewrite <- Hs, skipn_skipn, (Nat.add_comm (Pos.to_nat batchSize)).
        reflexivity.
Qed.

(** X3. With a credential and a provider that answers every request with
    the vector [f text] of each text, [embedBatch] returns [f] of every
    text in order, whatever the batch size, and the requests it makes are
    exactly one batch request per slice of [batchSize] consecutive texts:
    no text is sent alone or twice. *)
Theorem embedBatch_sends_each_slice_once
    (env : Env) (f : string -> vector) (texts : list string)
    (batchSize : positive) (w : World) :
  JS.truthy (OPENAI_API_KEY env) = true ->
  Props.embeds_with env f ->
  exists w',
    Embeddings.embedBatch env texts batchSize w
    = (Return (map (fun t => Some (f t)) texts), w')
    /\ log w'
       = rev (map (fun b => Embeddings (InputBatch b))
                (Props.batches (length texts) (Pos.to_nat batchSize) texts))
         ++ log w
    /\ concat (Props.batches (length texts) (Pos.to_nat batchSize) texts) = texts.
Proof.
  intros Hkey Hf.
  assert (Hconcat : forall fuel l, (length l <= fuel)%nat ->
                      concat (Props.batches fuel (Pos.to_nat batchSize) l) = l).
  { induction fuel as [|fuel IH]; intros l Hl.
    - destruct l; [reflexivity|cbn in Hl; lia].
    - destruct l as [|x l]; [reflexivity|].
      cbn [Props.batches concat]. rewrite IH.
      + apply firstn_skipn.
      + rewrite length_skipn. cbn [length] in *. lia. }
  unfold Embeddings.embedBatch.
  destruct texts as [|text texts].
  - exists w. repeat split.
  - rewrite Hkey. cbn [negb].
    destruct (batch_loop_healthy env f batchSize (text :: texts) Hf
                (length (text :: texts)) 0 [] w) as (w' & Hrun & Hlog); [lia|].
    exists w'. split; [exact Hrun|]. split; [exact Hlog|].
    apply Hconcat. lia.
Qed.

Lemma embedBatch_sends_each_slice_once_witness :
  exists w',
    Embeddings.embedBatch Cases.length_model ["a"; "bb"; "ccc"] 2%positive
      Samples.empty_world
    = (Return [Some [1]; Some [2]; Some [3]], w')
    /\ log w' = [Embeddings (InputBatch ["ccc"]); Embeddings (InputBatch ["a"; "bb"])].
Proof.
  destruct (embedBatch_sends_each_slice_once Cases.length_model Cases.by_length
              ["a"; "bb"; "ccc"] 2%positive Samples.empty_world)
    as (w' & Hrun & Hlog & _).
  - reflexivity.
  - intros history. split; reflexivity.
  - exists w'. split; [exact Hrun|exact Hlog].
Defined.

(* ====================================================================== *)
(** * Further properties of the similarity search *)
(* ====================================================================== *)



Lemma length_insert_by {A} (leb : A -> A -> bool) (x : A) (l : list A) :
  length (insert_by leb x l) = S (length l).
Proof.
  induction l as [|y l IH]; [reflexivity|]. cbn.
  destruct (leb x y); cbn; congruence.
Qed.

Lemma length_order_by {A} (leb : A -> A -> bool) (l : list A) :
  length (order_by leb l) = length l.
Proof.
  induction l as [|x l IH]; [reflexivity|].
  change (order_by leb (x :: l)) with (insert_by leb x (order_by leb l)).
  now rewrite length_insert_by, IH.
Qed.

Lemma StronglySorted_app_inv {A} (R : A -> A -> Prop) (l1 l2 : list A) :
  StronglySorted R (l1 ++ l2) ->
  forall x y, In x l1 -> In y l2 -> R x y.
Proof.
  induction l1 as [|a l1 IH]; intros Hs x y Hx Hy; [contradiction|].
  cbn in Hs. inversion Hs as [|? ? Hs' Ha]; subst.
  destruct Hx as [->|Hx].
  - apply (proj1 (Forall_forall _ _) Ha). apply in_or_app. now right.
  - now apply IH.
Qed.

(** X5. The statement of the search keeps the best rows: a qualifying row
    (embedding present, in scope, at or above the threshold) that is not
    selected is at most as similar as every selected row; and when at most
    [topK] rows qualify, all of them are selected. *)
Theorem select_similar_keeps_the_best
    (env : Env) (w : World) (queryVector : vector) (pdfId : option string)
    (threshold : Q) (topK : nat) (c : Retrieval.Candidate) :
  Props.qualifies env w queryVector pdfId threshold c ->
  let selection := Retrieval.select_similar env w queryVector pdfId threshold topK in
  (~ In c selection ->
   forall r, In r selection -> Retrieval.similarity c <= Retrieval.similarity r)
  /\ ((length (filter (Retrieval.above threshold)
                 (filter (Retrieval.in_scope pdfId)
                    (Retrieval.candidates env w queryVector))) <= topK)%nat ->
      In c selection).
Proof.
  intros (Hc & Hscope & Habove) selection.
  set (qualifying := filter (Retrieval.above threshold)
                       (filter (Retrieval.in_scope pdfId)
                          (Retrieval.candidates env w queryVector))).
  set (ordered := Retrieval.order_by_distance qualifying).
  assert (Hin : In c ordered).
  { apply in_order_by, filter_In. split; [|exact Habove].
    apply filter_In. now split. }
  assert (Hsorted : StronglySorted (fun a b => Retrieval.closer a b = true) ordered).
  { apply order_by_sorted; [exact closer_total|exact closer_trans]. }
  split.
  - intros Hnot r Hr.
    rewrite <- (firstn_skipn topK ordered) in Hin, Hsorted.
    apply in_app_or in Hin. destruct Hin as [Hin|Hin]; [contradiction|].
    apply closer_similarity.
    exact (StronglySorted_app_inv _ _ _ Hsorted r c Hr Hin).
  - intros Hlen. unfold selection, Retrieval.select_similar. fold qualifying.
    fold ordered. rewrite firstn_all2; [exact Hin|].
    unfold ordered, Retrieval.order_by_distance. now rewrite length_order_by.
Qed.

Lemma select_similar_keeps_the_best_witness :
  exists c,
    In c (Retrieval.select_similar Samples.plane Samples.library [1; 0] (Some "doc")
            (6 # 10) 5)
    /\ Retrieval.similarity c == 1.
Proof.
  set (dc := Samples.row 0 "a" (Some [1; 0])).
  set (c := Retrieval.mkCandidate dc Samples.ready_doc [1; 0] (1 - (1 * 1 + (0 * 0 + 0)))).
  exists c. split; [|reflexivity].
  apply (select_similar_keeps_the_best Samples.plane Samples.library [1; 0] (Some "doc")
           (6 # 10) 5 c).
  - split; [|split; reflexivity]. right. left. reflexivity.
  - vm_compute. lia.
Defined.

(* ====================================================================== *)
(** * Further properties of the retrieval orchestrator *)
(* ====================================================================== *)

(** The requests of one call of the search, whatever its outcome. *)
Lemma searchSimilarChunks_requests (env : Env) (query : string)
    (options : Retrieval.SearchOptions) (w w' : World)
    (o : outcome (list RetrievedChunk)) :
  Retrieval.searchSimilarChunks env query options w = (o, w') ->
  document_chunks w' = document_chunks w
  /\ pdfs w' = pdfs w
  /\ exists new,
       log w' = new ++ log w
       /\ Forall (fun req => Props.is_embedding_request req = true ->
                             req = Embeddings (InputText query)) new
       /\ (length (filter Props.is_embedding_request new) <= 1)%nat
       /\ filter Props.is_chat_request new = []
       /\ filter Props.is_normalization_request new = []
       /\ filter Props.is_fallback_read new = []
       /\ (forall e, o = Throw e ->
             exists cause, e = ("向量检索失败: " ++ cause)%string).
Proof.
  unfold Retrieval.searchSimilarChunks, try_catch, bind.
  destruct (Embeddings.embedText env query w) as [[v|cause] w1] eqn:E; cbn;
    intros H; inversion H; subst; clear H;
    destruct (embedText_world _ _ _ _ _ E) as (Hc & Hp & [Hl|Hl]);
    (split; [exact Hc|]); (split; [exact Hp|]); cbn [log record]; rewrite Hl.
  - exists [VectorQuery v (Retrieval.opt_pdfId options)
              (Retrieval.opt_threshold options) (Retrieval.opt_topK options)].
    cbn. repeat split; auto. constructor; [discriminate|constructor]. discriminate.
  - exists [VectorQuery v (Retrieval.opt_pdfId options)
              (Retrieval.opt_threshold options) (Retrieval.opt_topK options);
            Embeddings (InputText query)].
    cbn. repeat split; auto. constructor; [discriminate|]. constructor; [auto|constructor].
    discriminate.
  - exists []. cbn. repeat split; auto. intros e0 He. inversion He. eauto.
  - exists [Embeddings (InputText query)].
    cbn. repeat split; auto. intros e0 He. inversion He. eauto.
Qed.

(** The requests of the rewriter. *)
Lemma rewriteQuery_requests (env : Env) (q : string) (w : World) :
  exists r w' new,
    rewriteQuery env q w = (Return r, w')
    /\ document_chunks w' = document_chunks w
    /\ pdfs w' = pdfs w
    /\ log w' = new ++ log w
    /\ Forall (fun req => Props.is_chat_request req = true) new
    /\ filter Props.is_normalization_request new
       = [ChatCompletion (NormalizationPrompt q)]
    /\ (1 <= length new <= 2)%nat.
Proof.
  destruct (rewriteQuery_cases env q w) as (r & w' & Hrun & _ & Hc & Hp & Hcases).
  exists r, w'.
  destruct Hcases as [(e & _ & _ & _ & _ & Hlog) | (_ & Hlog & _)].
  - exists [ChatCompletion (NormalizationPrompt q)]. rewrite Hlog. cbn.
    repeat split; auto.
  - exists [ChatCompletion (branch_prompt (analysed q (reply1 env w q)));
            ChatCompletion (NormalizationPrompt q)].
    rewrite Hlog. cbn. repeat split; auto.
    unfold branch_prompt. now destruct (isCompoundQuery _).
Qed.

Lemma filter_all_false {A} (p q : A -> bool) (l : list A) :
  Forall (fun x => q x = true) l -> (forall x, q x = true -> p x = false) ->
  filter p l = [].
Proof.
  intros H Hpq. induction H as [|x l Hx _ IH]; [reflexivity|].
  cbn. now rewrite (Hpq x Hx).
Qed.

Lemma length_filter_le {A} (p : A -> bool) (l : list A) :
  (length (filter p l) <= length l)%nat.
Proof.
  induction l as [|x l IH]; [cbn; lia|]. cbn. destruct (p x); cbn; lia.
Qed.

Lemma Forall_weaken_chat (q : string) (new : list Request) :
  Forall (fun req => Props.is_chat_request req = true) new ->
  Forall (fun req => Props.is_embedding_request req = true ->
                     req = Embeddings (InputText q)) new.
Proof.
  apply Forall_impl. intros [] H; cbn in *; discriminate.
Qed.

(** Adds up the requests of the stages of a run. *)
Ltac tally :=
  cbn [log record];
  repeat match goal with H : log _ = _ ++ log _ |- _ => rewrite H; clear H end;
  rewrite ?filter_app, ?length_app;
  repeat match goal with H : filter _ _ = _ |- _ => rewrite H; clear H end;
  repeat match goal with
    | |- _ /\ _ => split
    | |- Forall _ (_ ++ _) => apply Forall_app
    | |- Forall _ [_] => constructor; [discriminate|constructor]
    end;
  try assumption;
  try (cbn [app length filter Props.is_embedding_request Props.is_chat_request
              Props.is_normalization_request Props.is_fallback_read]; lia);
  try reflexivity;
  try (cbn [app]; now rewrite <- ?app_assoc).

(** X6. In every run of [smartRetrieval] the query is rewritten once: one
    normalization request and at most two requests to the language model
    are made, at most two embedding requests are made, and every embedding
    request carries the final query of that one rewriting. *)
Theorem smartRetrieval_rewrites_once (env : Env) (query pdfId : string)
    (pdfRecord : PdfRow) (w w' : World) (o : outcome (list RetrievedChunk)) :
  smartRetrieval env query pdfId pdfRecord w = (o, w') ->
  exists r w0 new,
    rewriteQuery env query w = (Return r, w0)
    /\ log w' = new ++ log w
    /\ Forall (fun req => Props.is_embedding_request req = true ->
                          req = Embeddings (InputText (finalQuery r))) new
    /\ (length (filter Props.is_embedding_request new) <= 2)%nat
    /\ filter Props.is_normalization_request new
       = [ChatCompletion (NormalizationPrompt query)]
    /\ (length (filter Props.is_chat_request new) <= 2)%nat.
Proof.
  intros Hrun.
  destruct (rewriteQuery_requests env query w)
    as (r & w0 & newR & HR & _ & _ & HlR & HchatR & HnormR & HlenR).
  exists r, w0.
  assert (HembR : filter Props.is_embedding_request newR = []).
  { apply (filter_all_false _ _ _ HchatR). now intros []. }
  assert (HcountR : (length (filter Props.is_chat_request newR) <= 2)%nat).
  { pose proof (length_filter_le Props.is_chat_request newR). lia. }
  pose proof (Forall_weaken_chat (finalQuery r) _ HchatR) as HallR.
  unfold smartRetrieval, bind in Hrun. rewrite HR in Hrun.
  destruct (Retrieval.searchSimilarChunks env (finalQuery r) (strategy1 pdfId) w0)
    as [[hits1|e1] w1] eqn:S1;
    destruct (searchSimilarChunks_requests _ _ _ _ _ _ S1)
      as (_ & _ & new1 & Hl1 & Hall1 & Hemb1 & Hchat1 & Hnorm1 & _ & _).
  2:{ inversion Hrun; subst. exists (new1 ++ newR). tally. }
  destruct (3 <=? length hits1)%nat.
  { inversion Hrun; subst. exists (new1 ++ newR). tally. }
  destruct (Retrieval.searchSimilarChunks env (finalQuery r) (strategy2 pdfId) w1)
    as [[hits2|e2] w2] eqn:S2;
    destruct (searchSimilarChunks_requests _ _ _ _ _ _ S2)
      as (_ & _ & new2 & Hl2 & Hall2 & Hemb2 & Hchat2 & Hnorm2 & _ & _).
  2:{ inversion Hrun; subst. exists (new2 ++ new1 ++ newR). tally. }
  destruct (3 <=? length hits2)%nat.
  { inversion Hrun; subst. exists (new2 ++ new1 ++ newR). tally. }
  unfold findMany at 1 in Hrun. cbv beta iota in Hrun.
  destruct (0 <? length _)%nat.
  - inversion Hrun; subst. exists ([FindChunks pdfId 100] ++ new2 ++ new1 ++ newR).
    tally.
  - unfold findMany in Hrun. inversion Hrun; subst.
    exists ([FindChunks pdfId 10] ++ [FindChunks pdfId 100] ++ new2 ++ new1 ++ newR).
    tally.
Qed.

Lemma smartRetrieval_rewrites_once_witness :
  exists r,
    finalQuery r = "What is the refund policy?"
    /\ filter Props.is_embedding_request
         (log (snd (smartRetrieval Samples.plane "What is the refund policy?" "doc"
                      Samples.ready_doc Samples.library)))
       = [Embeddings (InputText (finalQuery r))].
Proof.
  destruct (smartRetrieval_rewrites_once Samples.plane "What is the refund policy?" "doc"
              Samples.ready_doc Samples.library _ _ eq_refl)
    as (r & w0 & new & Hr & _).
  exists r. vm_compute in Hr. inversion Hr; subst. split; reflexivity.
Defined.


(** The sample of a failing embedder behind a working language model. *)
Example failure_is_not_degraded_sample :
  smartRetrieval Samples.offline "refund" "doc" Samples.ready_doc Samples.library
  = (Throw "向量检索失败: 向量化失败: API 错误 (503): unavailable",
     record (Embeddings (InputText "refund"))
       (record (ChatCompletion (ExpansionPrompt "refund"))
          (record (ChatCompletion (NormalizationPrompt "refund")) Samples.library))).
Proof. vm_compute. reflexivity. Qed.

Lemma nth_error_firstn_lt {A} (n k : nat) (l : list A) :
  nth_error (firstn n l) k = if (k <? n)%nat then nth_error l k else None.
Proof.
  revert k l. induction n as [|n IH]; intros k l.
  - cbn. now destruct k.
  - destruct l as [|x l].
    { destruct k as [|k]; [reflexivity|].
      cbn [firstn nth_error]. now destruct (S k <? S n)%nat. }
    destruct k as [|k]; [reflexivity|]. cbn [firstn nth_error]. rewrite IH.
    reflexivity.
Qed.

(** The elements kept by the filter [idx % step === 0], counted from an
    index that is [d] short of a multiple of [step]. *)
Lemma every_nth_positions {A} (step : Z) (l : list A) :
  (1 <= step)%Z ->
  forall (idx d : Z) (k : nat),
    (0 <= idx)%Z -> (0 <= d < step)%Z -> (exists q, idx + d = q * step)%Z ->
    nth_error (every_nth step idx l) k
    = nth_error l (Z.to_nat d + k * Z.to_nat step).
Proof.
  intros Hstep. induction l as [|x l IH]; intros idx d k Hidx Hd (q & Hq).
  - cbn. now destruct k, (Z.to_nat d + _)%nat.
  - cbn [every_nth]. rewrite Z.rem_mod_nonneg by lia.
    destruct (Z.eq_dec d 0) as [->|Hd0].
    + replace idx with (q * step)%Z by lia. rewrite Z.mod_mul by lia.
      cbn [Z.eqb]. destruct k as [|k]; [reflexivity|].
      cbn [nth_error]. rewrite (IH (q * step + 1)%Z (step - 1)%Z k).
      * replace (Z.to_nat 0 + S k * Z.to_nat step)%nat
          with (S (Z.to_nat (step - 1) + k * Z.to_nat step)) by lia.
        reflexivity.
      * nia.
      * lia.
      * exists (q + 1)%Z. lia.
    + assert (Hmod : (idx mod step = step - d)%Z).
      { symmetry. apply (Z.mod_unique idx step (q - 1)); lia. }
      rewrite Hmod. destruct (step - d =? 0)%Z eqn:E; [lia|].
      rewrite (IH (idx + 1)%Z (d - 1)%Z k); [|lia|lia|exists q; lia].
      replace (Z.to_nat d + k * Z.to_nat step)%nat
        with (S (Z.to_nat (d - 1) + k * Z.to_nat step)) by lia.
      reflexivity.
Qed.

(** X8. The sample of strategy 3 is taken at equal distances: its chunk
    number [k], for [k] below 10, is the chunk at position [k * step] among
    the first hundred chunks of the document in index order, where [step]
    is the tenth of [totalChunks], rounded up and at least 1; there is no
    chunk number 10. *)
Theorem uniform_sample_positions (w : World) (pdfId : string) (pdfRecord : PdfRow)
    (k : nat) :
  nth_error (uniform_sample w pdfId pdfRecord) k
  = if (k <? 10)%nat
    then nth_error (chunks_of w pdfId 100)
           (k * Z.to_nat (sampling_step (pdf_totalChunks pdfRecord)))
    else None.
Proof.
  unfold uniform_sample. rewrite nth_error_firstn_lt.
  destruct (k <? 10)%nat; [|reflexivity].
  rewrite (every_nth_positions _ _ (sampling_step_positive _) 0%Z 0%Z k);
    [reflexivity|lia| |exists 0%Z; lia].
  pose proof (sampling_step_positive (pdf_totalChunks pdfRecord)). lia.
Qed.

Lemma every_nth_one {A} (idx : Z) (l : list A) : every_nth 1 idx l = l.
Proof.
  revert idx. induction l as [|x l IH]; intros idx; [reflexivity|].
  cbn [every_nth]. rewrite Z.rem_1_r. cbn [Z.eqb]. now rewrite IH.
Qed.

(** X9. For a document recorded with at most ten chunks the sample of
    strategy 3 is the same as the result of strategy 4: the first ten
    chunks of the document in index order. *)
Theorem uniform_sample_of_small_document (w : World) (pdfId : string)
    (pdfRecord : PdfRow) :
  (pdf_totalChunks pdfRecord <= 10)%Z ->
  uniform_sample w pdfId pdfRecord = chunks_of w pdfId 10.
Proof.
  intros Hsmall. unfold uniform_sample.
  assert (Hstep : sampling_step (pdf_totalChunks pdfRecord) = 1%Z).
  { unfold sampling_step.
    assert (-1 <= (- pdf_totalChunks pdfRecord) / 10)%Z
      by (apply Z.div_le_lower_bound; lia).
    lia. }
  rewrite Hstep, every_nth_one. unfold chunks_of.
  rewrite <- !firstn_map, firstn_firstn. reflexivity.
Qed.

Lemma uniform_sample_of_small_document_witness :
  uniform_sample Samples.library "doc" Samples.ready_doc
  = chunks_of Samples.library "doc" 10.
Proof.
  apply (uniform_sample_of_small_document Samples.library "doc" Samples.ready_doc).
  vm_compute. discriminate.
Defined.

Lemma every_nth_none {A} (step : Z) (l : list A) (idx : Z) :
  (0 < idx)%Z -> (idx + Z.of_nat (length l) <= step)%Z -> every_nth step idx l = [].
Proof.
  revert idx. induction l as [|x l IH]; intros idx Hidx Hlen; [reflexivity|].
  cbn [every_nth length] in *. rewrite Z.rem_small by lia.
  destruct (idx =? 0)%Z eqn:E; [lia|]. apply IH; lia.
Qed.

(** X10. For a document recorded with more than 990 chunks the sample of
    strategy 3 is one chunk only, the first of the document: the step is
    then 100 or more, and only the first hundred chunks are read. *)
Theorem uniform_sample_of_large_document (w : World) (pdfId : string)
    (pdfRecord : PdfRow) :
  (990 < pdf_totalChunks pdfRecord)%Z ->
  uniform_sample w pdfId pdfRecord = chunks_of w pdfId 1.
Proof.
  intros Hlarge. unfold uniform_sample.
  assert (Hstep : (100 <= sampling_step (pdf_totalChunks pdfRecord))%Z).
  { unfold sampling_step.
    assert ((- pdf_totalChunks pdfRecord) / 10 < -99)%Z
      by (apply Z.div_lt_upper_bound; lia).
    lia. }
  destruct (chunks_of_in_index_order w pdfId 100) as (_ & _ & Hlen).
  assert (Hfirst : chunks_of w pdfId 1 = firstn 1 (chunks_of w pdfId 100)).
  { unfold chunks_of. rewrite <- !firstn_map, firstn_firstn. reflexivity. }
  rewrite Hfirst.
  destruct (chunks_of w pdfId 100) as [|x l]; [reflexivity|].
  cbn [every_nth]. rewrite Z.rem_0_l by lia. cbn [Z.eqb].
  rewrite every_nth_none; [reflexivity|lia|]. cbn [length] in Hlen. lia.
Qed.

Lemma uniform_sample_of_large_document_witness :
  uniform_sample Samples.library "doc"
    (mkPdfRow "doc" "user" "a.pdf" "/uploads/a.pdf" "ready" 1000 (Some 300%Z) None)
  = chunks_of Samples.library "doc" 1.
Proof.
  apply (uniform_sample_of_large_document Samples.library "doc"
           (mkPdfRow "doc" "user" "a.pdf" "/uploads/a.pdf" "ready" 1000 (Some 300%Z) None)).
  vm_compute. reflexivity.
Defined.

Lemma not_fallback_read (new : list Request) (r : Request) :
  filter Props.is_fallback_read new = [] -> In r new ->
  Props.is_fallback_read r = false.
Proof.
  intros Hnone Hin. destruct (Props.is_fallback_read r) eqn:E; [|reflexivity].
  assert (H : In r (filter Props.is_fallback_read new)) by (apply filter_In; auto).
  rewrite Hnone in H. contradiction.
Qed.

Lemma chunks_of_first_ten (w : World) (pdfId : string) :
  chunks_of w pdfId 10 = firstn 10 (chunks_of w pdfId 100).
Proof. unfold chunks_of. rewrite <- !firstn_map, firstn_firstn. reflexivity. Qed.

(** X11. The last strategy never finds a chunk: [smartRetrieval] reads the
    first ten chunks only after the sample came out empty, which happens
    only for a document without stored chunks; its result is then the
    empty list. *)
Theorem last_strategy_finds_nothing (env : Env) (query pdfId : string)
    (pdfRecord : PdfRow) (w w' : World) (chunks : list RetrievedChunk) :
  smartRetrieval env query pdfId pdfRecord w = (Return chunks, w') ->
  exists new,
    log w' = new ++ log w
    /\ (In (FindChunks pdfId 10) new ->
        chunks = []
        /\ forall c, In c (document_chunks w) -> chunk_pdf_id c <> pdfId).
Proof.
  intros Hrun.
  destruct (rewriteQuery_requests env query w)
    as (r & w0 & newR & HR & HcR & _ & HlR & HchatR & _ & _).
  assert (HfbR : filter Props.is_fallback_read newR = []).
  { apply (filter_all_false _ _ _ HchatR). now intros []. }
  unfold smartRetrieval, bind in Hrun. rewrite HR in Hrun.
  destruct (Retrieval.searchSimilarChunks env (finalQuery r) (strategy1 pdfId) w0)
    as [[hits1|e1] w1] eqn:S1; [|discriminate].
  destruct (searchSimilarChunks_requests _ _ _ _ _ _ S1)
    as (Hc1 & _ & new1 & Hl1 & _ & _ & _ & _ & Hfb1 & _).
  destruct (3 <=? length hits1)%nat.
  { inversion Hrun; subst. exists (new1 ++ newR). split; [tally|].
    intros Hin. apply in_app_or in Hin.
    destruct Hin as [Hin|Hin];
      [apply (not_fallback_read _ _ Hfb1) in Hin|apply (not_fallback_read _ _ HfbR) in Hin];
      discriminate. }
  destruct (Retrieval.searchSimilarChunks env (finalQuery r) (strategy2 pdfId) w1)
    as [[hits2|e2] w2] eqn:S2; [|discriminate].
  destruct (searchSimilarChunks_requests _ _ _ _ _ _ S2)
    as (Hc2 & _ & new2 & Hl2 & _ & _ & _ & _ & Hfb2 & _).
  assert (Hfb : forall req, In req (new2 ++ new1 ++ newR) ->
                            Props.is_fallback_read req = false).
  { intros req Hin. apply in_app_or in Hin. destruct Hin as [Hin|Hin];
      [exact (not_fallback_read _ _ Hfb2 Hin)|].
    apply in_app_or in Hin. destruct Hin as [Hin|Hin];
      [exact (not_fallback_read _ _ Hfb1 Hin)|exact (not_fallback_read _ _ HfbR Hin)]. }
  destruct (3 <=? length hits2)%nat.
  { inversion Hrun; subst. exists (new2 ++ new1 ++ newR). split; [tally|].
    intros Hin. apply Hfb in Hin. discriminate. }
  unfold findMany at 1 in Hrun. cbv beta iota in Hrun.
  destruct (0 <? length _)%nat eqn:Hsample.
  - inversion Hrun; subst. exists ([FindChunks pdfId 100] ++ new2 ++ new1 ++ newR).
    split; [tally|].
    intros [Hin|Hin]; [discriminate|]. apply Hfb in Hin. discriminate.
  - unfold findMany in Hrun. inversion Hrun; subst. clear Hrun.
    exists ([FindChunks pdfId 10] ++ [FindChunks pdfId 100] ++ new2 ++ new1 ++ newR).
    split; [tally|]. intros _.
    assert (Hall : chunks_of w2 pdfId 100 = []).
    { destruct (chunks_of w2 pdfId 100) as [|x l]; [reflexivity|].
      destruct (every_nth_head (sampling_step (pdf_totalChunks pdfRecord)) x l
                  (sampling_step_positive _)) as (rest & Hhead).
      rewrite Hhead in Hsample. cbn in Hsample. discriminate. }
    split.
    + rewrite (chunks_of_tables w2 (record (FindChunks pdfId 100) w2) pdfId 10 eq_refl),
        chunks_of_first_ten, Hall.
      reflexivity.
    + intros c Hin Hid.
      apply (chunks_of_nonempty w2 pdfId 100); [lia| |exact Hall].
      exists c. split; [|exact Hid]. now rewrite Hc2, Hc1, HcR.
Qed.

Lemma last_strategy_finds_nothing_witness :
  exists new,
    log (snd (smartRetrieval Samples.plane "What is the refund policy?" "none"
                Samples.ready_doc Samples.library))
    = new ++ log Samples.library
    /\ In (FindChunks "none" 10) new.
Proof.
  destruct (last_strategy_finds_nothing Samples.plane "What is the refund policy?" "none"
              Samples.ready_doc Samples.library _ [] eq_refl) as (new & Hlog & _).
  exists new. split; [exact Hlog|].
  change (log Samples.library) with (@nil Request) in Hlog.
  rewrite app_nil_r in Hlog. rewrite <- Hlog. vm_compute. left. reflexivity.
Defined.

(* ====================================================================== *)
(** * Further properties of the request handler *)
(* ====================================================================== *)

Lemma embedText_returns_key (env : Env) (text : string) (w w' : World) (v : vector) :
  Embeddings.embedText env text w = (Return v, w') ->
  JS.truthy (OPENAI_API_KEY env) = true.
Proof.
  unfold Embeddings.embedText.
  destruct (negb (JS.nonblank text)); [discriminate|].
  destruct (JS.truthy (OPENAI_API_KEY env)); [reflexivity|discriminate].
Qed.

Lemma smartRetrieval_returns_key (env : Env) (query pdfId : string)
    (pdfRecord : PdfRow) (w w' : World) (chunks : list RetrievedChunk) :
  smartRetrieval env query pdfId pdfRecord w = (Return chunks, w') ->
  JS.truthy (OPENAI_API_KEY env) = true.
Proof.
  unfold smartRetrieval, bind.
  destruct (rewriteQuery env query w) as [[r|e] w0]; [|discriminate].
  destruct (Retrieval.searchSimilarChunks env (finalQuery r) (strategy1 pdfId) w0)
    as [[hits1|e1] w1] eqn:S1; [|discriminate].
  intros _. destruct (searchSimilarChunks_inv _ _ _ _ _ _ S1) as (v & w2 & He & _).
  exact (embedText_returns_key _ _ _ _ _ He).
Qed.

(** All requests of a run of [smartRetrieval], whatever its outcome. *)
Lemma smartRetrieval_requests (env : Env) (query pdfId : string)
    (pdfRecord : PdfRow) (w w' : World) (o : outcome (list RetrievedChunk)) :
  smartRetrieval env query pdfId pdfRecord w = (o, w') ->
  document_chunks w' = document_chunks w
  /\ pdfs w' = pdfs w
  /\ exists new,
       log w' = new ++ log w
       /\ filter Props.is_answer_request new = []
       /\ (JS.truthy (OPENAI_API_KEY env) = false ->
           filter Props.is_embedding_request new = []
           /\ exists e, o = Throw e).
Proof.
  intros Hrun.
  destruct (rewriteQuery_cases env query w) as (r & w0 & HR & _ & HcR & HpR & Hcases).
  assert (HlR : exists newR,
             log w0 = newR ++ log w
             /\ filter Props.is_answer_request newR = []
             /\ filter Props.is_embedding_request newR = []).
  { destruct Hcases as [(e & _ & _ & _ & _ & Hlog) | (_ & Hlog & _)]; rewrite Hlog.
    - exists [ChatCompletion (NormalizationPrompt query)]. auto.
    - exists [ChatCompletion (branch_prompt (analysed query (reply1 env w query)));
              ChatCompletion (NormalizationPrompt query)].
      unfold branch_prompt. destruct (isCompoundQuery _); auto. }
  destruct HlR as (newR & HlR & HansR & HembR).
  assert (Hsearch : forall options w1 w2 o1,
             Retrieval.searchSimilarChunks env (finalQuery r) options w1 = (o1, w2) ->
             document_chunks w2 = document_chunks w1 /\ pdfs w2 = pdfs w1
             /\ exists new1, log w2 = new1 ++ log w1
                  /\ filter Props.is_answer_request new1 = []
                  /\ (JS.truthy (OPENAI_API_KEY env) = false ->
                      new1 = [] /\ exists e, o1 = Throw e)).
  { intros options w1 w2 o1 S1.
    unfold Retrieval.searchSimilarChunks, try_catch, bind in S1.
    destruct (Embeddings.embedText env (finalQuery r) w1) as [[v|cause] w3] eqn:E.
    - pose proof (embedText_returns_key _ _ _ _ _ E) as Hkey.
      destruct (embedText_world _ _ _ _ _ E) as (Hc & Hp & [Hl|Hl]);
        cbn in S1; inversion S1; subst; cbn [document_chunks pdfs log record];
        (split; [exact Hc|]); (split; [exact Hp|]); rewrite Hl;
        [exists [VectorQuery v (Retrieval.opt_pdfId options)
                   (Retrieval.opt_threshold options) (Retrieval.opt_topK options)]
        |exists [VectorQuery v (Retrieval.opt_pdfId options)
                   (Retrieval.opt_threshold options) (Retrieval.opt_topK options);
                 Embeddings (InputText (finalQuery r))]];
        (split; [reflexivity|]); (split; [reflexivity|]); congruence.
    - assert (Hw : JS.truthy (OPENAI_API_KEY env) = false -> w3 = w1).
      { intros Hkey. unfold Embeddings.embedText in E. rewrite Hkey in E.
        destruct (negb (JS.nonblank (finalQuery r))); cbn in E; now inversion E. }
      destruct (embedText_world _ _ _ _ _ E) as (Hc & Hp & [Hl|Hl]);
        cbn in S1; inversion S1; subst;
        (split; [exact Hc|]); (split; [exact Hp|]); rewrite Hl;
        [exists []|exists [Embeddings (InputText (finalQuery r))]];
        (split; [reflexivity|]); (split; [reflexivity|]);
        intros Hkey; (split; [|eauto]); [reflexivity|].
      specialize (Hw Hkey). rewrite Hw in Hl.
      exfalso. clear - Hl.
      assert (H : length (log w1) = S (length (log w1))) by (now rewrite Hl at 1).
      lia. }
  unfold smartRetrieval, bind in Hrun. rewrite HR in Hrun.
  destruct (Retrieval.searchSimilarChunks env (finalQuery r) (strategy1 pdfId) w0)
    as [[hits1|e1] w1] eqn:S1;
    destruct (Hsearch _ _ _ _ S1) as (Hc1 & Hp1 & new1 & Hl1 & Hans1 & Hkey1).
  2:{ inversion Hrun; subst.
      split; [congruence|]. split; [congruence|]. exists (new1 ++ newR).
      split; [tally|]. split; [tally|]. intros Hkey.
      destruct (Hkey1 Hkey) as (-> & _). split; [exact HembR|eauto]. }
  assert (Hkey : JS.truthy (OPENAI_API_KEY env) = false -> False).
  { intros Hkey. destruct (Hkey1 Hkey) as (_ & e & He). discriminate. }
  destruct (3 <=? length hits1)%nat.
  { inversion Hrun; subst.
    split; [congruence|]. split; [congruence|]. exists (new1 ++ newR).
    split; [tally|]. split; [tally|]. intros Hk. now destruct (Hkey Hk). }
  destruct (Retrieval.searchSimilarChunks env (finalQuery r) (strategy2 pdfId) w1)
    as [[hits2|e2] w2] eqn:S2;
    destruct (Hsearch _ _ _ _ S2) as (Hc2 & Hp2 & new2 & Hl2 & Hans2 & _).
  2:{ inversion Hrun; subst.
      split; [congruence|]. split; [congruence|]. exists (new2 ++ new1 ++ newR).
      split; [tally|]. split; [tally|]. intros Hk. now destruct (Hkey Hk). }
  destruct (3 <=? length hits2)%nat.
  { inversion Hrun; subst.
    split; [congruence|]. split; [congruence|]. exists (new2 ++ new1 ++ newR).
    split; [tally|]. split; [tally|]. intros Hk. now destruct (Hkey Hk). }
  unfold findMany at 1 in Hrun. cbv beta iota in Hrun.
  destruct (0 <? length _)%nat.
  - inversion Hrun; subst. cbn [document_chunks pdfs record].
    split; [congruence|]. split; [congruence|].
    exists ([FindChunks pdfId 100] ++ new2 ++ new1 ++ newR).
    split; [tally|]. split; [tally|]. intros Hk. now destruct (Hkey Hk).
  - unfold findMany in Hrun. inversion Hrun; subst. cbn [document_chunks pdfs record].
    split; [congruence|]. split; [congruence|].
    exists ([FindChunks pdfId 10] ++ [FindChunks pdfId 100] ++ new2 ++ new1 ++ newR).
    split; [tally|]. split; [tally|]. intros Hk. now destruct (Hkey Hk).
Qed.

(** The answer generator behind a configured credential: one request to
    the language model, and a response in every case. *)
Lemma generate_answer_cases (env : Env) (pdfRecord : PdfRow)
    (chunks : list RetrievedChunk) (question : string) (w : World) :
  JS.truthy (OPENAI_API_KEY env) = true ->
  exists response,
    generate_answer env pdfRecord chunks question w
    = (Return response,
       record (ChatCompletion (AnswerPrompt (pdf_name pdfRecord) chunks question)) w)
    /\ ((exists answer,
           response = SuccessResponse answer (length chunks) chunks
           /\ JS.truthy answer = true
           /\ chat_api env (log w) (AnswerPrompt (pdf_name pdfRecord) chunks question)
              = ChatContent (Some answer))
        \/ (exists e,
              response = ErrorResponse 500 ("AI 服务调用失败: " ++ e)%string None None)).
Proof.
  intros Hkey. unfold generate_answer, try_catch, bind, fetch_chat. rewrite Hkey.
  cbn [negb].
  destruct (chat_api env (log w) (AnswerPrompt (pdf_name pdfRecord) chunks question))
    as [e|st|[answer|]] eqn:E; cbv beta iota delta [throw ret].
  - eexists. split; [reflexivity|]. right. eauto.
  - eexists. split; [reflexivity|]. right. eauto.
  - destruct (JS.truthy answer) eqn:T.
    + eexists. split; [reflexivity|]. left. eauto.
    + eexists. split; [reflexivity|]. right. eauto.
  - eexists. split; [reflexivity|]. right. eauto.
Qed.

(** The ways a request can end. *)
Lemma POST_cases (env : Env) (session : option Session) (body : Body) (w : World) :
  exists response w',
    POST env session body w = (Return response, w')
    /\ ((w' = w
         /\ ((session = None /\ response = ErrorResponse 401 "请先登录" None None)
             \/ response = ErrorResponse 400 "消息不能为空" None None
             \/ response = ErrorResponse 400 "请先选择 PDF 文件" None None))
        \/ exists s question id,
             session = Some s /\ message body = Some question /\ pdfId body = Some id
             /\ JS.truthy (JS.trim question) = true /\ JS.truthy id = true
             /\ let found :=
                  find (fun p => String.eqb (pdf_id p) id
                                 && String.eqb (pdf_userId p) (user_id s)) (pdfs w) in
                let w0 := record (FindPdf id (user_id s)) w in
                (found = None /\ w' = w0
                 /\ response = ErrorResponse 404 "PDF 文件不存在或无权访问" None None)
                \/ exists pdfRecord,
                     found = Some pdfRecord
                     /\ ((pdf_status pdfRecord <> "ready" /\ w' = w0
                          /\ exists e d st, response = ErrorResponse 400 e d st)
                         \/ (pdf_status pdfRecord = "ready"
                             /\ ((exists e,
                                    smartRetrieval env question id pdfRecord w0
                                    = (Throw e, w')
                                    /\ response
                                       = ErrorResponse 500 "RAG 检索服务暂时不可用"
                                           (Some e) None)
                                 \/ (exists chunks w1,
                                       smartRetrieval env question id pdfRecord w0
                                       = (Return chunks, w1)
                                       /\ generate_answer env pdfRecord chunks question w1
                                          = (Return response, w')))))).
Proof.
  unfold POST, try_catch, bind.
  destruct session as [s|]; [|do 2 eexists; split; [reflexivity|left; auto]].
  destruct (message body) as [question|] eqn:Hm;
    [|do 2 eexists; split; [reflexivity|left; auto]].
  destruct (JS.truthy (JS.trim question)) eqn:Hq; cbn [negb];
    [|do 2 eexists; split; [reflexivity|left; auto]].
  destruct (pdfId body) as [id|] eqn:Hp;
    [|do 2 eexists; split; [reflexivity|left; auto]].
  destruct (JS.truthy id) eqn:Hid; cbn [negb];
    [|do 2 eexists; split; [reflexivity|left; auto]].
  unfold findFirst at 1. cbv beta iota.
  destruct (find _ (pdfs w)) as [pdfRecord|] eqn:Hfind.
  2:{ do 2 eexists. split; [reflexivity|]. right. exists s, question, id.
      repeat (split; [first [reflexivity|assumption]|]). cbv zeta. rewrite Hfind. left. auto. }
  destruct (String.eqb (pdf_status pdfRecord) "processing") eqn:S1.
  { do 2 eexists. split; [reflexivity|]. right. exists s, question, id.
    repeat (split; [first [reflexivity|assumption]|]). cbv zeta. rewrite Hfind. right.
    exists pdfRecord. split; [reflexivity|]. left.
    apply String.eqb_eq in S1. split; [rewrite S1; discriminate|]. eauto. }
  destruct (String.eqb (pdf_status pdfRecord) "failed") eqn:S2.
  { do 2 eexists. split; [reflexivity|]. right. exists s, question, id.
    repeat (split; [first [reflexivity|assumption]|]). cbv zeta. rewrite Hfind. right.
    exists pdfRecord. split; [reflexivity|]. left.
    apply String.eqb_eq in S2. split; [rewrite S2; discriminate|]. eauto. }
  destruct (String.eqb (pdf_status pdfRecord) "ready") eqn:S3; cbn [negb].
  2:{ do 2 eexists. split; [reflexivity|]. right. exists s, question, id.
      repeat (split; [first [reflexivity|assumption]|]). cbv zeta. rewrite Hfind. right.
      exists pdfRecord. split; [reflexivity|]. left.
      apply String.eqb_neq in S3. split; [exact S3|]. eauto. }
  apply String.eqb_eq in S3.
  destruct (smartRetrieval env question id pdfRecord (record (FindPdf id (user_id s)) w))
    as [[chunks|e] w1] eqn:SR; cbv beta iota delta [ret].
  - pose proof (smartRetrieval_returns_key _ _ _ _ _ _ _ SR) as Hkey.
    destruct (generate_answer_cases env pdfRecord chunks question w1 Hkey)
      as (response & Hgen & _).
    rewrite Hgen. do 2 eexists. split; [reflexivity|]. right. exists s, question, id.
    repeat (split; [first [reflexivity|assumption]|]). cbv zeta. rewrite Hfind. right.
    exists pdfRecord. split; [reflexivity|]. right. split; [exact S3|]. right.
    exists chunks, w1. split; [exact SR|exact Hgen].
  - do 2 eexists. split; [reflexivity|]. right. exists s, question, id.
    repeat (split; [first [reflexivity|assumption]|]). cbv zeta. rewrite Hfind. right.
    exists pdfRecord. split; [reflexivity|]. right. split; [exact S3|]. left.
    exists e. split; [exact SR|reflexivity].
Qed.

(** X12. The handler answers every request: it never throws, it leaves
    both tables as they are, an error response has one of the statuses 400,
    401, 404 and 500, and a success response reports as many retrieved
    chunks as it lists sources. *)
Theorem POST_always_responds (env : Env) (session : option Session) (body : Body)
    (w : World) :
  exists response w',
    POST env session body w = (Return response, w')
    /\ document_chunks w' = document_chunks w
    /\ pdfs w' = pdfs w
    /\ match response with
       | ErrorResponse httpStatus _ _ _ => In httpStatus [400; 401; 404; 500]%nat
       | SuccessResponse _ chunksRetrieved sources => chunksRetrieved = length sources
       end.
Proof.
  destruct (POST_cases env session body w) as (response & w' & Hrun & Hcases).
  exists response, w'. split; [exact Hrun|].
  destruct Hcases as [(-> & Hresp)|(s & question & id & _ & _ & _ & _ & _ & Hcases)].
  { split; [reflexivity|]. split; [reflexivity|].
    destruct Hresp as [(_ & ->)|[->| ->]]; cbn; auto 10. }
  cbv zeta in Hcases.
  destruct Hcases as [(_ & -> & ->)|(pdfRecord & _ & Hcases)]; [cbn; auto 10|].
  destruct Hcases as [(_ & -> & e & d & st & ->)|(_ & Hcases)]; [cbn; auto 10|].
  destruct Hcases as [(e & SR & ->)|(chunks & w1 & SR & Hgen)].
  - destruct (smartRetrieval_requests _ _ _ _ _ _ _ SR) as (Hc & Hp & _).
    cbn in Hc, Hp. cbn. auto 10.
  - destruct (smartRetrieval_requests _ _ _ _ _ _ _ SR) as (Hc & Hp & _).
    cbn in Hc, Hp.
    destruct (generate_answer_cases env pdfRecord chunks question w1
                (smartRetrieval_returns_key _ _ _ _ _ _ _ SR)) as (r & Hgen' & Hr).
    rewrite Hgen' in Hgen. inversion Hgen; subst.
    split; [exact Hc|]. split; [exact Hp|].
    destruct Hr as [(answer & -> & _)|(e & ->)]; cbn; auto 10.
Qed.

(** X13. A success response is given only to a signed-in user asking about
    a document of their own in state 'ready': its sources are the chunks
    that [smartRetrieval] returned for the question, its count is their
    number, and its text is the non-empty reply of the language model to
    the one answer request, which carries exactly these sources. *)
Theorem POST_success_is_grounded (env : Env) (session : option Session) (body : Body)
    (w w' : World) (answer : string) (chunksRetrieved : nat)
    (sources : list RetrievedChunk) :
  POST env session body w = (Return (SuccessResponse answer chunksRetrieved sources), w') ->
  exists s question id pdfRecord w1,
    session = Some s /\ message body = Some question /\ pdfId body = Some id
    /\ In pdfRecord (pdfs w)
    /\ pdf_id pdfRecord = id
    /\ pdf_userId pdfRecord = user_id s
    /\ pdf_status pdfRecord = "ready"
    /\ smartRetrieval env question id pdfRecord (record (FindPdf id (user_id s)) w)
       = (Return sources, w1)
    /\ chunksRetrieved = length sources
    /\ JS.truthy answer = true
    /\ chat_api env (log w1) (AnswerPrompt (pdf_name pdfRecord) sources question)
       = ChatContent (Some answer)
    /\ w' = record (ChatCompletion (AnswerPrompt (pdf_name pdfRecord) sources question)) w1.
Proof.
  intros Hrun.
  destruct (POST_cases env session body w) as (response & w2 & Hrun' & Hcases).
  rewrite Hrun in Hrun'. inversion Hrun'; subst response w2. clear Hrun'.
  destruct Hcases as [(_ & Hresp)|(s & question & id & Hs & Hm & Hp & _ & _ & Hcases)].
  { destruct Hresp as [(_ & H)|[H|H]]; discriminate. }
  cbv zeta in Hcases.
  destruct Hcases as [(_ & _ & H)|(pdfRecord & Hfind & Hcases)]; [discriminate|].
  destruct Hcases as [(_ & _ & e & d & st & H)|(Hready & Hcases)]; [discriminate|].
  destruct Hcases as [(e & _ & H)|(chunks & w1 & SR & Hgen)]; [discriminate|].
  destruct (generate_answer_cases env pdfRecord chunks question w1
              (smartRetrieval_returns_key _ _ _ _ _ _ _ SR)) as (r & Hgen' & Hr).
  rewrite Hgen' in Hgen. inversion Hgen; subst r w'. clear Hgen.
  destruct Hr as [(a & Ha & Htruthy & Hreply)|(e & H)]; [|discriminate].
  inversion Ha; subst a chunksRetrieved sources. clear Ha.
  apply find_some in Hfind. destruct Hfind as (Hin & Hmatch).
  apply andb_true_iff in Hmatch. destruct Hmatch as (Hid & Huser).
  apply String.eqb_eq in Hid. apply String.eqb_eq in Huser.
  exists s, question, id, pdfRecord, w1. repeat split; assumption.
Qed.

Lemma POST_success_is_grounded_witness :
  exists pdfRecord,
    In pdfRecord (pdfs Samples.library)
    /\ pdf_userId pdfRecord = "user"
    /\ pdf_status pdfRecord = "ready".
Proof.
  destruct (POST_success_is_grounded (Samples.with_chat Samples.echoing_chat Samples.plane)
              (Some Cases.user) Cases.question Samples.library
              (snd (POST (Samples.with_chat Samples.echoing_chat Samples.plane)
                      (Some Cases.user) Cases.question Samples.library))
              "answer" 3
              (search_result Samples.plane Samples.library [1; 0] (strategy1 "doc")))
    as (s & question & id & pdfRecord & w1 & Hs & _ & _ & Hin & _ & Huser & Hready & _).
  - vm_compute. reflexivity.
  - exists pdfRecord. inversion Hs; subst s. auto.
Defined.


(** The request of a user without credential on a ready document. *)
Example without_credential_sample :
  POST (Cases.no_credential Samples.plane) (Some Cases.user) Cases.question Samples.library
  = (Return (ErrorResponse 500 "RAG 检索服务暂时不可用"
               (Some "向量检索失败: ❌ OPENAI_API_KEY 未配置") None),
     record (ChatCompletion (ExpansionPrompt "What is the refund policy?"))
       (record (ChatCompletion (NormalizationPrompt "What is the refund policy?"))
          (record (FindPdf "doc" "user") Samples.library))).
Proof. vm_compute. reflexivity. Qed.

Lemma find_none_when_unowned (id userId : string) (l : list PdfRow) :
  (forall p, In p l -> pdf_id p = id -> pdf_userId p <> userId) ->
  find (fun p => String.eqb (pdf_id p) id && String.eqb (pdf_userId p) userId) l = None.
Proof.
  intros Hforeign.
  destruct (find _ l) as [p|] eqn:Hfind; [|reflexivity].
  apply find_some in Hfind. destruct Hfind as (Hin & Hmatch).
  apply andb_true_iff in Hmatch. destruct Hmatch as (Hid & Huser).
  apply String.eqb_eq in Hid. apply String.eqb_eq in Huser.
  now destruct (Hforeign p Hin Hid).
Qed.

(** X15. A question about a document that belongs to another user is
    answered like one about a document that does not exist: with status 404
    after the lookup, and without any request to a provider or any read of
    chunks. *)
Theorem POST_hides_documents_of_others (env : Env) (s : Session) (body : Body)
    (w : World) (question id : string) :
  message body = Some question ->
  JS.truthy (JS.trim question) = true ->
  pdfId body = Some id ->
  JS.truthy id = true ->
  (forall p, In p (pdfs w) -> pdf_id p = id -> pdf_userId p <> user_id s) ->
  POST env (Some s) body w
  = (Return (ErrorResponse 404 "PDF 文件不存在或无权访问" None None),
     record (FindPdf id (user_id s)) w).
Proof.
  intros Hm Hq Hp Hid Hforeign.
  unfold POST, try_catch, bind, findFirst. rewrite Hm, Hq, Hp, Hid. cbn [negb].
  rewrite (find_none_when_unowned _ _ _ Hforeign). reflexivity.
Qed.

Lemma POST_hides_documents_of_others_witness :
  POST Samples.plane (Some (mkSession "mallory" "mallory@example.com")) Cases.question
    Samples.library
  = (Return (ErrorResponse 404 "PDF 文件不存在或无权访问" None None),
     record (FindPdf "doc" "mallory") Samples.library).
Proof.
  apply (POST_hides_documents_of_others Samples.plane
           (mkSession "mallory" "mallory@example.com") Cases.question Samples.library
           "What is the refund policy?" "doc"); try reflexivity.
  intros p [<-|[]] _. discriminate.
Defined.

(* ====================================================================== *)
(** * Properties of the chunker *)
(* ====================================================================== *)

(** The chunker of the ingestion job is the chunker called with metadata
    that has no page number. *)
Lemma chunkText_without_page (env : Env) (text metadata : string) :
  Upload.chunkText env text metadata = Chunking.chunkText env text None metadata.
Proof.
  unfold Upload.chunkText, Chunking.chunkText.
  assert (H : forall docs i,
             Upload.number_from metadata (Embeddings.countTokens env) i docs
             = Chunking.number_with None metadata (Embeddings.countTokens env) i docs).
  { induction docs as [|d docs IH]; intros i; cbn; [reflexivity|now rewrite IH]. }
  destruct (negb (JS.nonblank text)); [reflexivity|].
  destruct (split_text env text); [now rewrite H|reflexivity].
Qed.

Lemma number_with_spec (pageNumber : option Z) (metadata : string)
    (tokens : string -> Z) (docs : list string) (i : nat) :
  let chunks := Chunking.number_with pageNumber metadata tokens i docs in
  map Upload.content chunks = docs
  /\ map Upload.chunkIndex chunks = seq i (length docs)
  /\ Forall (fun c => Upload.pageNumber c = pageNumber
                      /\ Upload.tokenCount c = tokens (Upload.content c)
                      /\ Upload.metadata c = metadata) chunks.
Proof.
  revert i. induction docs as [|d docs IH]; intros i; cbn.
  - repeat split; constructor.
  - destruct (IH (S i)) as (Hc & Hi & Hall). cbv zeta in *.
    rewrite Hc, Hi. repeat split; constructor; auto.
Qed.

(** X16. [chunkText] gives the pieces of the splitter in their order,
    numbered from 0 without a gap, each with the page number of the
    metadata and the token count of its own content; a blank text gives no
    chunk and does not reach the splitter; an error of the splitter is
    thrown with the prefix [文本分块失败: ].  No request is made. *)
Theorem chunkText_numbers_the_pieces (env : Env) (text : string)
    (pageNumber : option Z) (metadata : string) (w w' : World)
    (o : outcome (list Upload.Chunk)) :
  Chunking.chunkText env text pageNumber metadata w = (o, w') ->
  w' = w
  /\ match o with
     | Return chunks =>
         map Upload.chunkIndex chunks = seq 0 (length chunks)
         /\ Forall (fun c => Upload.pageNumber c = pageNumber
                             /\ Upload.tokenCount c
                                = Embeddings.countTokens env (Upload.content c)
                             /\ Upload.metadata c = metadata) chunks
         /\ (if JS.nonblank text
             then split_text env text = Return (map Upload.content chunks)
             else chunks = [])
     | Throw e =>
         JS.nonblank text = true
         /\ exists cause,
              split_text env text = Throw cause
              /\ e = ("文本分块失败: " ++ cause)%string
     end.
Proof.
  unfold Chunking.chunkText, try_catch, throw, ret.
  destruct (JS.nonblank text) eqn:Hb; cbn [negb].
  - destruct (split_text env text) as [docs|cause] eqn:Hs;
      intros H; inversion H; subst; (split; [reflexivity|]).
    + destruct (number_with_spec pageNumber metadata (Embeddings.countTokens env) docs 0)
        as (Hc & Hi & Hall). cbv zeta in *.
      rewrite Hc. split; [|split; [exact Hall|reflexivity]].
      rewrite Hi. f_equal. rewrite <- Hc at 1. now rewrite !length_map.
    + split; [reflexivity|]. eauto.
  - intros H. inversion H; subst. repeat split. constructor.
Qed.

Lemma chunkText_numbers_the_pieces_witness :
  map Upload.chunkIndex
    (Chunking.number_with (Some 7%Z) "pdf"
       (Embeddings.countTokens (Samples.two_chunks Samples.offline)) 0
       ["first"; "second"])
  = [0; 1]%nat.
Proof.
  destruct (chunkText_numbers_the_pieces (Samples.two_chunks Samples.offline)
              "first second" (Some 7%Z) "pdf" Samples.empty_world Samples.empty_world
              (Return (Chunking.number_with (Some 7%Z) "pdf"
                         (Embeddings.countTokens (Samples.two_chunks Samples.offline)) 0
                         ["first"; "second"])) eq_refl) as (_ & Hindex & _).
  exact Hindex.
Defined.





(* ====================================================================== *)
(** * Further properties of the ingestion job *)
(* ====================================================================== *)

(** One pass through the body of the saving loop, in full. *)
Lemma save_chunk_effect (env : Env) (pdfId : string) (dimension i : nat)
    (chunk : Upload.Chunk) (vector : option vector) (w w' : World) (o : outcome unit) :
  Upload.save_chunk env pdfId dimension i chunk vector w = (o, w') ->
  exists request,
    log w' = request :: log w
    /\ Props.is_chunk_insert request = true
    /\ pdfs w' = pdfs w
    /\ match o with
       | Return _ =>
           exists r, document_chunks w' = document_chunks w ++ [r]
                     /\ Props.row_of_job pdfId r
       | Throw _ => document_chunks w' = document_chunks w
       end.
Proof.
  unfold Upload.save_chunk, Upload.store_write, Props.row_of_job.
  destruct vector as [[|x v]|];
    match goal with
    | |- context [store_rejects env ?h ?wr] => destruct (store_rejects env h wr)
    end;
    intros H; inversion H; subst; cbn; eexists; repeat split;
    eexists; repeat split; cbn; discriminate.
Qed.

(** The saving loop with its counters. *)
Lemma save_chunks_effect (env : Env) (pdfId : string) (dimension : nat)
    (vectors : list (option vector)) (chunks : list Upload.Chunk) :
  forall i successCount failCount w o w',
    (failCount <= 5)%nat ->
    Upload.save_chunks env pdfId dimension vectors chunks i successCount failCount w
    = (o, w') ->
    exists attempts added,
      log w' = attempts ++ log w
      /\ Forall (fun r => Props.is_chunk_insert r = true) attempts
      /\ document_chunks w' = document_chunks w ++ added
      /\ Forall (Props.row_of_job pdfId) added
      /\ pdfs w' = pdfs w
      /\ (length added <= length attempts)%nat
      /\ match o with
         | Return n =>
             n = (successCount + length added)%nat
             /\ length attempts = length chunks
             /\ (failCount + (length attempts - length added) <= 5)%nat
         | Throw e =>
             e = Upload.too_many 6
             /\ (failCount + (length attempts - length added) = 6)%nat
             /\ (length attempts <= length chunks)%nat
         end.
Proof.
  induction chunks as [|chunk rest IH]; intros i sc fc w o w' Hfc;
    cbn [Upload.save_chunks].
  - intros H. inversion H; subst. exists [], []. rewrite app_nil_r. cbn.
    repeat split; auto; lia.
  - unfold bind at 1, try_catch at 1, bind at 1.
    destruct (Upload.save_chunk env pdfId dimension i chunk _ w) as [[[]|e] w1] eqn:E;
      destruct (save_chunk_effect _ _ _ _ _ _ _ _ _ E) as (request & Hl & Hins & Hp & Hc);
      unfold ret at 1; cbv beta iota.
    + destruct Hc as (r & Hc & Hr). intros H.
      destruct (IH _ _ _ _ _ _ Hfc H)
        as (attempts & added & Hl' & Hall & Hc' & Hrows & Hp' & Hle & Ho).
      exists (attempts ++ [request]), (r :: added).
      rewrite Hl', Hl, Hc', Hc, <- !app_assoc, !length_app. cbn [app length].
      repeat split; auto; try congruence; try lia.
      * apply Forall_app. auto.
      * destruct o as [n|e']; destruct Ho as (H1 & H2 & H3); repeat split; lia || auto.
    + destruct (5 <? S fc)%nat eqn:L.
      * intros H. inversion H; subst. apply Nat.ltb_lt in L.
        exists [request], []. rewrite Hl, Hc, app_nil_r. cbn.
        repeat split; auto; try lia.
        replace (S fc) with 6%nat by lia. reflexivity.
      * apply Nat.ltb_ge in L. intros H.
        assert (Hfc' : (S fc <= 5)%nat) by lia.
        destruct (IH _ _ _ _ _ _ Hfc' H)
          as (attempts & added & Hl' & Hall & Hc' & Hrows & Hp' & Hle & Ho).
        exists (attempts ++ [request]), added.
        rewrite Hl', Hl, Hc', Hc, <- !app_assoc, !length_app. cbn [app length].
        repeat split; auto; try congruence; try lia.
        -- apply Forall_app. auto.
        -- destruct o as [n|e']; destruct Ho as (H1 & H2 & H3); repeat split; lia || auto.
Qed.

(** X18. The saving loop tolerates five refused inserts and gives up at
    the sixth: when it returns, it has tried every chunk, at most five
    inserts were refused, and its count is the number of rows it added;
    when it throws, the error is [保存失败过多 (6 个)，停止处理], exactly six
    inserts were refused, and the rows added before stay in the table. *)
Theorem save_chunks_gives_up_at_the_sixth_refusal (env : Env) (pdfId : string)
    (dimension : nat) (vectors : list (option vector)) (chunks : list Upload.Chunk)
    (w w' : World) (o : outcome nat) :
  Upload.save_chunks env pdfId dimension vectors chunks 0 0 0 w = (o, w') ->
  exists attempts added,
    log w' = attempts ++ log w
    /\ Forall (fun r => Props.is_chunk_insert r = true) attempts
    /\ document_chunks w' = document_chunks w ++ added
    /\ match o with
       | Return successCount =>
           successCount = length added
           /\ length attempts = length chunks
           /\ (length chunks - length added <= 5)%nat
       | Throw e =>
           e = Upload.too_many 6
           /\ length attempts = (length added + 6)%nat
           /\ (length attempts <= length chunks)%nat
       end.
Proof.
  intros Hrun.
  destruct (save_chunks_effect env pdfId dimension vectors chunks 0 0 0 w o w'
              (Nat.le_0_l 5) Hrun)
    as (attempts & added & Hl & Hall & Hc & _ & _ & Hle & Ho).
  exists attempts, added. repeat split; auto.
  destruct o as [n|e]; destruct Ho as (H1 & H2 & H3); repeat split; lia || auto.
Qed.

Lemma save_chunks_gives_up_at_the_sixth_refusal_witness :
  exists (attempts : list Request) (added : list ChunkRow),
    length attempts = 7%nat /\ length added = 1%nat
    /\ length (document_chunks
                 (snd (Upload.save_chunks
                         (Samples.with_store Cases.accepts_first_only Samples.offline) "doc"
                         1024 [] (Upload.number_from "pdf" (fun _ => 1%Z) 0
                                    ["a"; "b"; "c"; "d"; "e"; "f"; "g"; "h"])
                         0 0 0 Samples.uploaded)))
       = length added.
Proof.
  destruct (save_chunks_gives_up_at_the_sixth_refusal
              (Samples.with_store Cases.accepts_first_only Samples.offline) "doc" 1024 []
              (Upload.number_from "pdf" (fun _ => 1%Z) 0
                 ["a"; "b"; "c"; "d"; "e"; "f"; "g"; "h"])
              Samples.uploaded _ _ eq_refl)
    as (attempts & added & Hl & _ & Hc & Ho).
  exists attempts, added.
  change (log Samples.uploaded) with (@nil Request) in Hl. rewrite app_nil_r in Hl.
  change (document_chunks Samples.uploaded) with (@nil ChunkRow) in Hc.
  cbn [app] in Hc. rewrite <- Hl, <- Hc.
  split; [|split]; vm_compute; reflexivity.
Defined.

(** The chunk rows written by the [try] block of the job. *)
Lemma ingest_chunks (env : Env) (pdfId filePath : string) (w w1 : World)
    (o : outcome unit) :
  Upload.ingest env pdfId filePath w = (o, w1) ->
  exists added,
    document_chunks w1 = document_chunks w ++ added
    /\ Forall (Props.row_of_job pdfId) added.
Proof.
  unfold Upload.ingest.
  destruct (pdf_parse env filePath) as [[text pages]|e];
    [|intros H; inversion H; subst; exists []; now rewrite app_nil_r].
  unfold bind at 1.
  destruct (Upload.chunkText env text "pdf" w) as [[chunks|e] w0] eqn:Ec;
    pose proof (chunkText_pure _ _ _ _ _ _ Ec) as ->;
    [|intros H; inversion H; subst; exists []; now rewrite app_nil_r].
  unfold bind at 1.
  destruct (Embeddings.embedBatch env (map Upload.content chunks)
              Embeddings.default_batchSize w) as [[vectors|e] w2] eqn:Eb;
    destruct (keeps_tables_embedBatch _ _ _ _ _ _ Eb) as (Hc2 & Hp2);
    [|intros H; inversion H; subst; exists []; now rewrite app_nil_r].
  unfold bind at 1.
  destruct (Upload.save_chunks env pdfId (Upload.actualDimension vectors) vectors chunks
              0 0 0 w2) as [[n|e] w3] eqn:Es;
    destruct (save_chunks_effect _ _ _ _ _ _ _ _ _ _ _ (Nat.le_0_l 5) Es)
      as (_ & added & _ & _ & Hc3 & Hrows & _).
  - unfold Upload.store_write.
    destruct (store_rejects env (log w3) (UpdatePdfReady pdfId (Z.of_nat n) pages));
      intros H; inversion H; subst; exists added; cbn; rewrite Hc3, Hc2; auto.
  - intros H. inversion H; subst. exists added. rewrite Hc3, Hc2. auto.
Qed.

Lemma confined_to_refl (pdfId : string) (l : list PdfRow) :
  Forall2 (Props.confined_to pdfId) l l.
Proof.
  induction l as [|p l IH]; constructor; [|exact IH].
  unfold Props.confined_to. auto.
Qed.

Lemma update_pdf_confined (pdfId : string) (f : PdfRow -> PdfRow) (w : World) :
  (forall p, pdf_id (f p) = pdf_id p /\ pdf_userId (f p) = pdf_userId p
             /\ pdf_name (f p) = pdf_name p /\ pdf_filePath (f p) = pdf_filePath p) ->
  Forall2 (Props.confined_to pdfId) (pdfs w) (pdfs (Upload.update_pdf pdfId f w)).
Proof.
  intros Hf. cbn. induction (pdfs w) as [|p l IH]; cbn; constructor; [|exact IH].
  unfold Props.confined_to.
  destruct (String.eqb (pdf_id p) pdfId) eqn:E.
  - destruct (Hf p) as (H1 & H2 & H3 & H4). apply String.eqb_eq in E.
    repeat split; auto. intros Hne. contradiction.
  - repeat split.
Qed.

(** X19. The job touches its own document only: it appends chunk rows, all
    of the document [pdfId] and none with an empty vector, and leaves every
    earlier chunk row in place; it changes no row of another document, and
    of its own document neither the owner, the name nor the path. *)
Theorem ingestion_is_confined (env : Env) (pdfId filePath : string) (w w' : World)
    (o : outcome unit) :
  Upload.processPdfInBackground env pdfId filePath w = (o, w') ->
  (exists added,
      document_chunks w' = document_chunks w ++ added
      /\ Forall (Props.row_of_job pdfId) added)
  /\ Forall2 (Props.confined_to pdfId) (pdfs w) (pdfs w').
Proof.
  unfold Upload.processPdfInBackground, try_catch at 1.
  destruct (Upload.ingest env pdfId filePath w) as [[[]|e] w1] eqn:E;
    pose proof (ingest_chunks _ _ _ _ _ _ E) as Hadded;
    pose proof (ingest_outcome _ _ _ _ _ _ E) as Hpdfs; cbv beta iota in Hpdfs.
  - intros H. inversion H; subst. split; [exact Hadded|].
    destruct Hpdfs as (pages & history & _ & _ & ->).
    apply update_pdf_confined. intros p. cbn. auto.
  - unfold try_catch, Upload.store_write.
    destruct (store_rejects env (log w1) _);
      intros H; inversion H; subst; cbn [document_chunks pdfs record Upload.apply_write
                                           Upload.update_pdf];
      (split; [exact Hadded|]); rewrite Hpdfs.
    + apply confined_to_refl.
    + apply (update_pdf_confined pdfId _ w). intros p. cbn. auto.
Qed.

Lemma ingestion_is_confined_witness :
  Forall2 (Props.confined_to "doc") (pdfs Samples.uploaded)
    (pdfs (snd (Upload.processPdfInBackground Samples.seven_chunks "doc" "/tmp/a.pdf"
                  Samples.uploaded))).
Proof.
  destruct (ingestion_is_confined Samples.seven_chunks "doc" "/tmp/a.pdf"
              Samples.uploaded _ _ eq_refl) as (_ & H).
  exact H.
Defined.

(** X20. A PDF without text becomes 'ready' with no chunk: when the parsed
    text is blank, or the splitter finds no piece in it, the job makes no
    embedding request, needs no credential, stores no row, and writes the
    status 'ready' with [totalChunks] 0. *)
Theorem pdf_without_text_becomes_ready (env : Env) (pdfId filePath text : string)
    (numpages : Z) (w : World) :
  pdf_parse env filePath = Return (text, numpages) ->
  JS.nonblank text = false \/ split_text env text = Return [] ->
  store_rejects env (log w) (UpdatePdfReady pdfId 0 numpages) = None ->
  Upload.processPdfInBackground env pdfId filePath w
  = (Return tt,
     Upload.update_pdf pdfId (Upload.mark_ready 0 numpages)
       (record (StoreWrite (UpdatePdfReady pdfId 0 numpages)) w)).
Proof.
  intros Hparse Htext Hstore.
  assert (Hchunks : Upload.chunkText env text "pdf" w = (Return [], w)).
  { unfold Upload.chunkText. destruct (JS.nonblank text) eqn:Hb; cbn [negb].
    - destruct Htext as [Hblank|Hsplit]; [discriminate|]. rewrite Hsplit. reflexivity.
    - reflexivity. }
  unfold Upload.processPdfInBackground, try_catch, Upload.ingest. rewrite Hparse.
  unfold bind at 1. rewrite Hchunks.
  unfold bind at 1. cbn [map].
  rewrite (proj1 (embedBatch_edges env Embeddings.default_batchSize w)).
  unfold bind at 1. cbn [Upload.save_chunks ret].
  unfold Upload.store_write. cbn [Z.of_nat]. rewrite Hstore. reflexivity.
Qed.

Lemma pdf_without_text_becomes_ready_witness :
  map (fun p => (pdf_status p, pdf_totalChunks p))
    (pdfs (snd (Upload.processPdfInBackground
                  (Cases.no_credential (Cases.scanned Samples.offline)) "doc" "/tmp/a.pdf"
                  Samples.uploaded)))
  = [("ready", 0%Z)].
Proof.
  rewrite (pdf_without_text_becomes_ready
             (Cases.no_credential (Cases.scanned Samples.offline)) "doc" "/tmp/a.pdf"
             "   " 12 Samples.uploaded eq_refl (or_introl eq_refl) eq_refl).
  reflexivity.
Defined.

(* ====================================================================== *)
(** * The rounding of the similarity *)
(* ====================================================================== *)

Lemma Qmake_scaled (k : Z) : k # 10000 == inject_Z k * (1 # 10000).
Proof. unfold Qeq. cbn. lia. Qed.

Lemma round_close (y : Q) :
  Qabs ((Qfloor (y * 10000 + (1 # 2)) # 10000) - y) <= 1 # 20000.
Proof.
  pose proof (Qfloor_le (y * 10000 + (1 # 2))) as Hlow.
  pose proof (Qlt_floor (y * 10000 + (1 # 2))) as Hhigh.
  rewrite inject_Z_plus in Hhigh. change (inject_Z 1) with 1 in Hhigh.
  apply Qabs_Qle_condition. rewrite Qmake_scaled.
  set (f := inject_Z (Qfloor (y * 10000 + (1 # 2)))) in *.
  split; lra.
Qed.

(** X21. The similarity reported with a hit differs from the similarity of
    its row by at most 0.00005, and it is a multiple of 0.0001 that the
    rounding leaves as it is. *)
Theorem toFixed4_error (x : Q) :
  Props.rounding_error x <= 1 # 20000
  /\ (exists k, Retrieval.toFixed4 x = k # 10000)
  /\ Retrieval.toFixed4 (Retrieval.toFixed4 x) == Retrieval.toFixed4 x.
Proof.
  assert (Hgrid : exists k, Retrieval.toFixed4 x = k # 10000).
  { unfold Retrieval.toFixed4. destruct (Qle_bool 0 x); eexists; reflexivity. }
  split; [|split; [exact Hgrid|]].
  - unfold Props.rounding_error, Retrieval.toFixed4.
    destruct (Qle_bool 0 x); [apply round_close|].
    pose proof (round_close (- x)) as H.
    rewrite <- Qabs_opp.
    assert (Heq : - (- (Qfloor (- x * 10000 + (1 # 2)) # 10000) - x)
                  == (Qfloor (- x * 10000 + (1 # 2)) # 10000) - - x) by ring.
    rewrite Heq. exact H.
  - destruct Hgrid as (k & ->). apply toFixed4_grid.
Qed.

(* ====================================================================== *)
(** * Properties of the log wrapper *)
(* ====================================================================== *)

Lemma LOG_LEVELS_range (name : string) :
  match Log.LOG_LEVELS name with
  | Log.Number n => (0 <= n <= 3)%Z
  | _ => True
  end.
Proof.
  unfold Log.LOG_LEVELS.
  repeat match goal with
         | |- context [if ?b then _ else _] => destruct b
         end; cbv beta iota; try exact I; lia.
Qed.

(** X22. [log.debug] never prints, whatever the environment: the level 0
    of 'debug' is falsy and is replaced by 1, so that the level 'debug'
    behaves in every method like the level 'info'. *)
Theorem debug_level_is_never_active (cfg : Log.Config) :
  Log.call cfg Log.debug = None
  /\ forall (mode : option string) (m : Log.Method),
       Log.call (Log.mkConfig mode (Some "debug")) m
       = Log.call (Log.mkConfig mode (Some "info")) m.
Proof.
  split.
  - unfold Log.call, Log.currentLevel.
    pose proof (LOG_LEVELS_range (Log.level_name cfg)) as Hrange.
    destruct (Log.LOG_LEVELS (Log.level_name cfg)) as [n| |]; cbn; try reflexivity.
    destruct (n =? 0)%Z eqn:E; cbn; [reflexivity|].
    apply Z.eqb_neq in E.
    destruct (n <=? 0)%Z eqn:L; [apply Z.leb_le in L; lia|reflexivity].
  - intros mode m. destruct m; reflexivity.
Qed.

(* ====================================================================== *)
(** * Properties of the upload handler *)
(* ====================================================================== *)

(** X23. An upload is accepted only from a signed-in user, for a file of
    type [application/pdf] of at most 20 MB.  The handler has then created
    the directory, written the file, created the row and started the job,
    in this order and nothing else; the row is in state 'processing' with
    no chunk, belongs to the user and has the name of the file; the job is
    started on the identifier of that row and on the path the file was
    written to. *)
Theorem upload_accepted (host : UploadRoute.Host) (session : option Session)
    (file : option UploadRoute.File) (effects effects' : list UploadRoute.Effect)
    (text : string) (row : PdfRow) :
  UploadRoute.POST host session file effects
  = (Return (UploadRoute.Accepted text row), effects') ->
  exists s f uploadDir filePath fileName,
    session = Some s /\ JS.truthy (user_id s) = true
    /\ file = Some f
    /\ UploadRoute.file_type f = "application/pdf"
    /\ (UploadRoute.file_size f <= 20 * 1024 * 1024)%Z
    /\ effects'
       = [UploadRoute.StartJob (pdf_id row) filePath;
          UploadRoute.CreatePdf row fileName (UploadRoute.file_size f);
          UploadRoute.WriteFile filePath (UploadRoute.file_bytes f);
          UploadRoute.MkDir uploadDir] ++ effects
    /\ filePath = UploadRoute.join host [uploadDir; fileName]
    /\ pdf_status row = "processing"
    /\ pdf_totalChunks row = 0%Z
    /\ pdf_userId row = user_id s
    /\ pdf_name row = UploadRoute.file_name f.
Proof.
  unfold UploadRoute.POST, try_catch, bind.
  destruct session as [s|]; [|discriminate].
  destruct (JS.truthy (user_id s)) eqn:Hid; cbn [negb]; [|discriminate].
  destruct file as [f|]; [|discriminate].
  destruct (String.eqb (UploadRoute.file_type f) "application/pdf") eqn:Htype;
    cbn [negb]; [|discriminate].
  destruct (UploadRoute.MAX_SIZE <? UploadRoute.file_size f)%Z eqn:Hsize; [discriminate|].
  cbv zeta.
  unfold UploadRoute.mkdir, UploadRoute.writeFile, UploadRoute.create,
    UploadRoute.start_job, UploadRoute.attempt.
  destruct (UploadRoute.mkdir_fails host effects _); [discriminate|].
  destruct (UploadRoute.writeFile_fails host _ _); [discriminate|].
  destruct (UploadRoute.create_fails host _ _); [discriminate|].
  cbv beta iota delta [ret]. intros H. inversion H; subst. clear H.
  apply String.eqb_eq in Htype. apply Z.ltb_ge in Hsize.
  do 5 eexists. repeat split; try eassumption; try reflexivity.
Qed.

Lemma upload_accepted_witness :
  exists s f,
    JS.truthy (user_id s) = true
    /\ UploadRoute.file_type f = "application/pdf"
    /\ (UploadRoute.file_size f <= 20 * 1024 * 1024)%Z.
Proof.
  destruct (upload_accepted Cases.host (Some Cases.user) (Some Cases.report) [] _ _ _
              eq_refl)
    as (s & f & _ & _ & _ & _ & Hid & _ & Htype & Hsize & _).
  exists s, f. auto.
Defined.

(** X24. The upload handler answers every request and never throws.  A
    request it refuses with status 401 or 400 has no effect at all.  A
    request that fails with status 500 has created at most the directory and
    the file: no row exists and no job was started, and the file, when it
    was written, stays on the disk. *)
Theorem upload_refused_or_failed (host : UploadRoute.Host) (session : option Session)
    (file : option UploadRoute.File) (effects : list UploadRoute.Effect) :
  exists response effects' new,
    UploadRoute.POST host session file effects = (Return response, effects')
    /\ effects' = new ++ effects
    /\ match response with
       | UploadRoute.Accepted _ _ => True
       | UploadRoute.Rejected httpStatus _ =>
           In httpStatus [401; 400; 500]%nat
           /\ (httpStatus <> 500%nat -> new = [])
           /\ Forall (fun e => match e with
                               | UploadRoute.MkDir _ => True
                               | UploadRoute.WriteFile _ _ => True
                               | _ => False
                               end) new
       end.
Proof.
  unfold UploadRoute.POST, try_catch, bind.
  destruct session as [s|];
    [|exists (UploadRoute.Rejected 401 "未登录，请先登录"), effects, [];
      cbn; intuition].
  destruct (JS.truthy (user_id s)); cbn [negb];
    [|exists (UploadRoute.Rejected 401 "未登录，请先登录"), effects, [];
      cbn; intuition].
  destruct file as [f|];
    [|exists (UploadRoute.Rejected 400 "未选择文件"), effects, []; cbn; intuition].
  destruct (String.eqb (UploadRoute.file_type f) "application/pdf"); cbn [negb];
    [|exists (UploadRoute.Rejected 400 "仅支持 PDF 文件"), effects, []; cbn; intuition].
  destruct (UploadRoute.MAX_SIZE <? UploadRoute.file_size f)%Z;
    [exists (UploadRoute.Rejected 400 "文件大小不能超过 20MB"), effects, [];
     cbn; intuition|].
  cbv zeta.
  unfold UploadRoute.mkdir, UploadRoute.writeFile, UploadRoute.create,
    UploadRoute.start_job, UploadRoute.attempt.
  destruct (UploadRoute.mkdir_fails host effects _) as [e|].
  { do 2 eexists. exists []. split; [reflexivity|]. cbn. intuition. }
  destruct (UploadRoute.writeFile_fails host _ _) as [e|].
  { do 2 eexists. eexists [_]. split; [reflexivity|]. cbn. intuition. }
  destruct (UploadRoute.create_fails host _ _) as [e|].
  { do 2 eexists. eexists [_; _]. split; [reflexivity|]. cbn. intuition. }
  do 2 eexists. eexists [_; _; _; _]. split; [reflexivity|]. cbn. auto.
Qed.

(* ====================================================================== *)
(** * From the upload to the question *)
(* ====================================================================== *)

Lemma find_after_update (id userId pdfId : string) (f : PdfRow -> PdfRow)
    (l : list PdfRow) :
  (forall p, pdf_id (f p) = pdf_id p /\ pdf_userId (f p) = pdf_userId p) ->
  find (fun p => String.eqb (pdf_id p) id && String.eqb (pdf_userId p) userId)
    (map (fun p => if String.eqb (pdf_id p) pdfId then f p else p) l)
  = option_map (fun p => if String.eqb (pdf_id p) pdfId then f p else p)
      (find (fun p => String.eqb (pdf_id p) id && String.eqb (pdf_userId p) userId) l).
Proof.
  intros Hf. induction l as [|p l IH]; [reflexivity|]. cbn [map find].
  assert (Hsame : (String.eqb (pdf_id (if String.eqb (pdf_id p) pdfId then f p else p)) id
                   && String.eqb
                        (pdf_userId (if String.eqb (pdf_id p) pdfId then f p else p)) userId)
                  = (String.eqb (pdf_id p) id && String.eqb (pdf_userId p) userId)).
  { destruct (String.eqb (pdf_id p) pdfId); [|reflexivity].
    destruct (Hf p) as (-> & ->). reflexivity. }
  rewrite Hsame.
  destruct (String.eqb (pdf_id p) id && String.eqb (pdf_userId p) userId);
    [reflexivity|exact IH].
Qed.

(** X25. After the job has run with a credential and a store that accepts
    every write, the owner can ask about the document: the document is then
    'ready' with the number of chunks of the chunker, and the question
    handler gets past the state check, so that its response is a success or
    an error of status 500 of the retrieval or of the answer, never the 400
    of a document in processing. *)
Theorem ingested_document_can_be_asked (env : Env) (s : Session) (body : Body)
    (id filePath text question : string) (pages : Z)
    (chunks : list Upload.Chunk) (pdfRecord : PdfRow) (w : World) :
  JS.truthy (OPENAI_API_KEY env) = true ->
  pdf_parse env filePath = Return (text, pages) ->
  Upload.chunkText env text "pdf" w = (Return chunks, w) ->
  (forall history wr, store_rejects env history wr = None) ->
  find (fun p => String.eqb (pdf_id p) id && String.eqb (pdf_userId p) (user_id s))
    (pdfs w) = Some pdfRecord ->
  message body = Some question ->
  JS.truthy (JS.trim question) = true ->
  pdfId body = Some id ->
  JS.truthy id = true ->
  exists w1 response w2,
    Upload.processPdfInBackground env id filePath w = (Return tt, w1)
    /\ find (fun p => String.eqb (pdf_id p) id && String.eqb (pdf_userId p) (user_id s))
         (pdfs w1)
       = Some (Upload.mark_ready (Z.of_nat (length chunks)) pages pdfRecord)
    /\ POST env (Some s) body w1 = (Return response, w2)
    /\ match response with
       | SuccessResponse _ _ _ => True
       | ErrorResponse httpStatus _ _ _ => httpStatus = 500%nat
       end.
Proof.
  intros Hkey Hparse Hchunks Hstore Hfind Hm Hq Hp Hid.
  destruct (ingest_all_accepted env id filePath w text pages chunks
              Hkey Hparse Hchunks Hstore) as (w1 & history & Hingest & Hstored & Hlog).
  pose proof (ingest_outcome _ _ _ _ _ _ Hingest) as Hout. cbv beta iota in Hout.
  destruct Hout as (pages' & history' & Hlog' & _ & Hpdfs). cbv zeta in Hlog'.
  rewrite Hlog in Hlog'. inversion Hlog'; subst pages' history'. clear Hlog'.
  exists w1.
  assert (Hready :
            find (fun p => String.eqb (pdf_id p) id
                           && String.eqb (pdf_userId p) (user_id s)) (pdfs w1)
            = Some (Upload.mark_ready (Z.of_nat (length chunks)) pages pdfRecord)).
  { rewrite Hpdfs. cbn [pdfs Upload.update_pdf].
    rewrite find_after_update by (intros p; cbn; auto).
    rewrite Hfind. cbn [option_map].
    apply find_some in Hfind. destruct Hfind as (_ & Hmatch).
    apply andb_true_iff in Hmatch. destruct Hmatch as (Hmid & _).
    rewrite Hmid, Hstored. reflexivity. }
  assert (Hjob : Upload.processPdfInBackground env id filePath w = (Return tt, w1)).
  { unfold Upload.processPdfInBackground, try_catch. now rewrite Hingest. }
  unfold POST, try_catch, bind, findFirst.
  rewrite Hm, Hq, Hp, Hid. cbn [negb]. rewrite Hready.
  change (pdf_status (Upload.mark_ready (Z.of_nat (length chunks)) pages pdfRecord))
    with "ready".
  change (String.eqb "ready" "processing") with false.
  change (String.eqb "ready" "failed") with false.
  change (String.eqb "ready" "ready") with true.
  cbv beta iota delta [negb].
  destruct (smartRetrieval env question id _ _) as [[relevant|e] w2] eqn:SR;
    cbv beta iota delta [ret].
  - destruct (generate_answer_cases env
                (Upload.mark_ready (Z.of_nat (length chunks)) pages pdfRecord)
                relevant question w2 Hkey) as (response & Hgen & Hr).
    rewrite Hgen. exists response. eexists.
    split; [exact Hjob|]. split; [reflexivity|]. split; [reflexivity|].
    destruct Hr as [(answer & -> & _)|(e & ->)]; [exact I|reflexivity].
  - do 2 eexists. split; [exact Hjob|]. split; [reflexivity|].
    split; [reflexivity|]. reflexivity.
Qed.

Lemma ingested_document_can_be_asked_witness :
  exists w1 response w2,
    Upload.processPdfInBackground (Samples.two_chunks Samples.plane) "doc" "/tmp/a.pdf"
      Samples.uploaded = (Return tt, w1)
    /\ POST (Samples.two_chunks Samples.plane) (Some Cases.user) Cases.question w1
       = (Return response, w2)
    /\ map pdf_status (pdfs w1) = ["ready"].
Proof.
  destruct (ingested_document_can_be_asked (Samples.two_chunks Samples.plane)
              Cases.user Cases.question "doc" "/tmp/a.pdf" "first second"
              "What is the refund policy?" 1
              (Upload.number_from "pdf"
                 (Embeddings.countTokens (Samples.two_chunks Samples.plane)) 0
                 ["first"; "second"])
              (mkPdfRow "doc" "user" "a.pdf" "/uploads/a.pdf" "processing" 0 None None)
              Samples.uploaded)
    as (w1 & response & w2 & Hjob & _ & Hask & _); try reflexivity.
  exists w1, response, w2. split; [exact Hjob|]. split; [exact Hask|].
  vm_compute in Hjob. inversion Hjob. reflexivity.
Defined.
